(** * easyaccess: the file adapter layer and the database shell commands

    A shallow embedding of [easyaccess/eautils/fileio.py] and of the
    [DB_Func] commands of [easyaccess/eautils/dbdo_utils.py], with the
    properties of the specification proved about it.

    Python values are modelled as follows.
    - A [str] is a list of Unicode code points (Python 3 strings are
      sequences of code points, and [re] and [str.split] classify them by
      the Unicode tables).
    - Indices are [Z], because [str.find]/[str.rfind] return [-1] and
      slices accept negative bounds.
    - A call that may raise returns a [result]; commands of the shell run
      in a state monad over the shell object and a trace of the calls made
      to the terminal, the database driver and the helper methods. *)

From Stdlib Require Import ZArith NArith List Ascii String DecimalString Lia Bool.
From Stdlib Require DecimalPos.
From stdpp Require Import base decidable option list gmap.
Import ListNotations.
Open Scope Z_scope.

(** ** Python built-ins *)

Module Py.

Abbreviation char := N.
Abbreviation str := (list N).

(** A Python string literal with ASCII characters only. *)
Definition lit (s : string) : str := map N_of_ascii (list_ascii_of_string s).
Arguments lit s%_string.

(** ["\n"] *)
Definition nl : str := [10%N].

Definition str_eqb (a b : str) : bool := bool_decide (a = b).

(** [x in xs] for a tuple or list of strings. *)
Definition str_in (x : str) (xs : list str) : bool := bool_decide (x ∈ xs).

Definition len {A} (s : list A) : Z := Z.of_nat (length s).

(** The exceptions that occur in the modelled code.  [LibError] is an
    exception raised inside an external library (driver, reader), with its
    message. *)
Inductive exn :=
| IOError (msg : str)
| NameError (name : str)
| UnboundLocalError (name : str)
| ValueError
| IndexError
| AttributeError
| TypeError
| StopIteration
| LibError (msg : str).

Inductive result (A : Type) :=
| Ok (a : A)
| Raise (e : exn).
Arguments Ok {A} a.
Arguments Raise {A} e.

Definition rbind {A B} (r : result A) (k : A -> result B) : result B :=
  match r with
  | Ok a => k a
  | Raise e => Raise e
  end.

(** [try: body except: handler] with a bare [except]. *)
Definition rtry {A} (body : result A) (handler : exn -> result A) : result A :=
  match body with
  | Ok a => Ok a
  | Raise e => handler e
  end.

Fixpoint rmap {A B} (f : A -> result B) (l : list A) : result (list B) :=
  match l with
  | [] => Ok []
  | x :: r =>
      rbind (f x) (fun y => rbind (rmap f r) (fun ys => Ok (y :: ys)))
  end.

(** Slice bounds as [slice.indices] computes them for step 1. *)
Definition clamp (n i : Z) : Z :=
  let j := if i <? 0 then i + n else i in
  Z.max 0 (Z.min n j).

(** [s[start:stop]] *)
Definition slice {A} (s : list A) (start stop : Z) : list A :=
  let a := clamp (len s) start in
  let b := clamp (len s) stop in
  take (Z.to_nat (b - a)) (drop (Z.to_nat a) s).

(** [s[start:]] *)
Definition slice_from {A} (s : list A) (start : Z) : list A :=
  slice s start (len s).

(** [s[:stop]] *)
Definition slice_to {A} (s : list A) (stop : Z) : list A :=
  slice s 0 stop.

(** [s.find(c)] for a one-character [c], counting from [i]. *)
Fixpoint find_from (c : char) (s : str) (i : Z) : Z :=
  match s with
  | [] => -1
  | x :: r => if N.eqb x c then i else find_from c r (i + 1)
  end.

Definition find (c : char) (s : str) : Z := find_from c s 0.

(** [s.index(c)]: as [find], but raises [ValueError] when [c] is absent. *)
Definition index (c : char) (s : str) : result Z :=
  let i := find c s in
  if i <? 0 then Raise ValueError else Ok i.

(** [s.rfind(c)] for a one-character [c]; [last] is the best index so far. *)
Fixpoint rfind_from (c : char) (s : str) (i last : Z) : Z :=
  match s with
  | [] => last
  | x :: r => rfind_from c r (i + 1) (if N.eqb x c then i else last)
  end.

Definition rfind (c : char) (s : str) : Z := rfind_from c s 0 (-1).

(** [s.startswith(p)] *)
Fixpoint startswith (p s : str) : bool :=
  match p, s with
  | [], _ => true
  | _ :: _, [] => false
  | a :: p', b :: s' => N.eqb a b && startswith p' s'
  end.

(** [s.find(sub)] for a substring. *)
Fixpoint find_sub_from (sub s : str) (i : Z) : Z :=
  if startswith sub s then i
  else match s with
       | [] => -1
       | _ :: r => find_sub_from sub r (i + 1)
       end.

Definition find_sub (sub s : str) : Z := find_sub_from sub s 0.

(** [sub in s] for strings. *)
Definition contains (sub s : str) : bool := 0 <=? find_sub sub s.

(** [s.replace(c, '')] for a one-character [c]. *)
Definition remove_char (c : char) (s : str) : str :=
  List.filter (fun x => negb (N.eqb x c)) s.

(** [str.isspace] of one character: the code points of the Unicode
    White_Space property together with the separators U+001C..U+001F. *)
Definition isspace (c : char) : bool :=
  bool_decide (c ∈ [9; 10; 11; 12; 13; 28; 29; 30; 31; 32; 133; 160; 5760;
                    8192; 8193; 8194; 8195; 8196; 8197; 8198; 8199; 8200;
                    8201; 8202; 8232; 8233; 8239; 8287; 12288]%N).

(** [s.split()]: the maximal runs of characters that are not whitespace.
    [cur] is the run being read. *)
Fixpoint split_ws_go (cur : str) (s : str) : list str :=
  match s with
  | [] => match cur with [] => [] | _ => [cur] end
  | x :: r =>
      if isspace x
      then match cur with
           | [] => split_ws_go [] r
           | _ => cur :: split_ws_go [] r
           end
      else split_ws_go (cur ++ [x]) r
  end.

Definition split_ws (s : str) : list str := split_ws_go [] s.

(** [s.split(c)] for a one-character separator: empty fields are kept. *)
Fixpoint split_on (c : char) (s : str) : list str :=
  match s with
  | [] => [[]]
  | x :: r =>
      if N.eqb x c then [] :: split_on c r
      else match split_on c r with
           | w :: ws => (x :: w) :: ws
           | [] => [[x]]
           end
  end.

(** [sep.join(parts)] *)
Fixpoint join (sep : str) (parts : list str) : str :=
  match parts with
  | [] => []
  | [p] => p
  | p :: rest => p ++ sep ++ join sep rest
  end.

(** [s.strip()] *)
Fixpoint lstrip (s : str) : str :=
  match s with
  | [] => []
  | x :: r => if isspace x then lstrip r else s
  end.

Definition strip (s : str) : str := rev (lstrip (rev (lstrip s))).

(** ["%d" % z] *)
Definition str_of_int (z : Z) : str :=
  map N_of_ascii (list_ascii_of_string (DecimalString.NilZero.string_of_int (Z.to_int z))).

(** [str.isalnum] of one character.  The Latin-1 range is given in full;
    [beyond] classifies the code points from U+0100 on. *)
Definition isalnum (beyond : char -> bool) (c : char) : bool :=
  if (c <? 256)%N then
    ((48 <=? c) && (c <=? 57) || (65 <=? c) && (c <=? 90)
     || (97 <=? c) && (c <=? 122)
     || bool_decide (c ∈ [170; 178; 179; 181; 185; 186; 188; 189; 190])
     || (192 <=? c) && (c <=? 214) || (216 <=? c) && (c <=? 246)
     || (248 <=? c) && (c <=? 255))%N
  else beyond c.

(** A character that [\W] matches in a [str] pattern: anything but an
    alphanumeric character or the underscore. *)
Definition nonword (beyond : char -> bool) (c : char) : bool :=
  negb (isalnum beyond c || N.eqb c 95).

(** [re.search('\W', s)] is not [None]. *)
Definition search_nonword (beyond : char -> bool) (s : str) : bool :=
  existsb (nonword beyond) s.

End Py.
Import Py.

(** ** [os.path] (POSIX) *)

Module OsPath.

Definition sep : char := 47%N.
Definition extsep : char := 46%N.

(** The [while filenameIndex < dotIndex] loop of [genericpath._splitext];
    [n] is the number of iterations left, [dotIndex - filenameIndex]. *)
Fixpoint splitext_scan (p : str) (dotIndex : Z) (n : nat) (filenameIndex : Z)
  : option (str * str) :=
  match n with
  | O => None
  | S n' =>
      if negb (str_eqb (slice p filenameIndex (filenameIndex + 1)) [extsep])
      then Some (slice_to p dotIndex, slice_from p dotIndex)
      else splitext_scan p dotIndex n' (filenameIndex + 1)
  end.

(** [os.path.splitext(p)] *)
Definition splitext (p : str) : str * str :=
  let sepIndex := rfind sep p in
  let dotIndex := rfind extsep p in
  if sepIndex <? dotIndex then
    match splitext_scan p dotIndex (Z.to_nat (dotIndex - (sepIndex + 1)))
                        (sepIndex + 1) with
    | Some r => r
    | None => (p, slice_to p 0)
    end
  else (p, slice_to p 0).

(** [os.path.basename(p)] *)
Definition basename (p : str) : str :=
  slice_from p (rfind sep p + 1).

End OsPath.

#[global] Instance result_ret : MRet result := @Ok.
#[global] Instance result_bind : MBind result := fun A B k r => rbind r k.

(** ** [easyaccess/eautils/fileio.py] *)

Module Fileio.
Import OsPath.

Definition PANDAS_DEFS : list str :=
  [lit "comma separated text"; lit "space separated tex"; lit "HDF5 format"].
Definition PANDAS_EXTS : list str := [lit ".csv"; lit ".tab"; lit ".h5"].

Definition FITS_DEFS : list str := [lit "FITS format"].
Definition FITS_EXTS : list str := [lit ".fits"].

Definition FILE_DEFS : list str := PANDAS_DEFS ++ FITS_DEFS.
Definition FILE_EXTS : list str := PANDAS_EXTS ++ FITS_EXTS.

(** The names the module binds by [import]: [os], [numpy as np], [fitsio]
    and [eautils.dtypes as eatypes].  The source has no import of
    [pandas]. *)
Inductive module_ref := mod_os | mod_numpy | mod_fitsio | mod_eatypes | mod_pandas.

Definition module_imports : list (str * module_ref) :=
  [(lit "os", mod_os); (lit "np", mod_numpy); (lit "fitsio", mod_fitsio);
   (lit "eatypes", mod_eatypes)].

(** Reading a global name: [NameError] when the module does not bind it. *)
Definition load_global (name : str) : result module_ref :=
  match List.find (fun b => str_eqb (fst b) name) module_imports with
  | Some b => Ok (snd b)
  | None => Raise (NameError name)
  end.

(** ["'%s'" % t] *)
Definition quoted (t : str) : str := lit "'" ++ t ++ lit "'".

Definition unrecognized_filetype (filename : str) (types : option (list str)) : str :=
  let types := match types with None => FILE_EXTS | Some t => t end in
  let '(base, ext) := splitext filename in
  let ext := if str_eqb ext [] then base else ext in
  let msg := lit "Unrecognized file type: '" ++ ext ++ lit "'" ++ nl in
  let msg := msg ++ lit "Supported filetypes:" ++ nl in
  let msg := msg ++ lit " " ++ join (lit ", ") (map quoted types) in
  msg.

Definition check_filetype (filename : str) (types : option (list str)) : result bool :=
  let types := match types with None => FILE_EXTS | Some t => t end in
  let '(base, ext) := splitext filename in
  let ext := if str_eqb ext [] then base else ext in
  if negb (str_in ext types) then
    let msg := unrecognized_filetype ext (Some types) in
    Raise (IOError msg)
  else Ok true.

(** *** Tables as the readers deliver them *)

(** A cell of a table; the code never looks inside one. *)
Inductive cell :=
| CInt (z : Z)
| CFloat (digits : str)
| CStr (s : str).

Definition row := list cell.

(** A numpy dtype: its kind character (['f'], ['i'], ['S'], ['O'], ...) and
    its item size. *)
Record dtype := { kind : char; itemsize : N }.

(** A column of a [pandas.DataFrame]: [col_str_len_max] is what
    [max(df[c].str.len())] evaluates to. *)
Record column := {
  col_name : str;
  col_dtype : dtype;
  col_str_len_max : result N
}.

Record DataFrame := { df_columns : list column; df_values : list row }.

(** An extension of a FITS file: an image, or a binary table with its
    column descriptors and rows. *)
Inductive HDU :=
| ImageHDU
| TableHDU (columns : list (str * dtype)) (rows : list row).

Record FITS := { hdus : list HDU }.

(** The third-party readers: what they return on a given file name. *)
Record Readers := {
  pd_read_csv : str -> option str -> result DataFrame;
  pd_read_hdf : str -> str -> result DataFrame;
  fitsio_FITS : str -> result FITS
}.

(** The object a reader returns, with the three attributes that
    [read_pandas] and [read_fitsio] attach to it. *)
Inductive source :=
| PandasObject (df : DataFrame)
| FitsObject (f : FITS).

Record ea_data := {
  ea_source : source;
  ea_get_columns : list str;
  ea_get_values : list row;
  ea_get_dtypes : list dtype
}.

(** [df[c].dtype if df[c].dtype.kind != 'O' else np.dtype('S'+str(max(...)))] *)
Definition pandas_dtype (c : column) : result dtype :=
  if negb (N.eqb (kind (col_dtype c)) 79%N) then Ok (col_dtype c)
  else n ← col_str_len_max c; Ok {| kind := 83%N; itemsize := n |}.

(** The [try] block of [read_pandas]; [None] is [df] left unassigned. *)
Definition read_pandas_try (R : Readers) (filename ext : str)
  : result (option DataFrame) :=
  if str_in ext [lit ".csv"; lit ".tab"] then
    let sepa := if str_eqb ext (lit ".csv") then Some (Some (lit ",")) else None in
    let sepa := if str_eqb ext (lit ".tab") then Some None else sepa in
    pd ← load_global (lit "pd");
    match pd, sepa with
    | mod_pandas, Some sepa => df ← pd_read_csv R filename sepa; Ok (Some df)
    | mod_pandas, None => Raise (UnboundLocalError (lit "sepa"))
    | _, _ => Raise AttributeError
    end
  else if contains ext (lit ".h5") then
    pd ← load_global (lit "pd");
    match pd with
    | mod_pandas => df ← pd_read_hdf R filename (lit "data"); Ok (Some df)
    | _ => Raise AttributeError
    end
  else Ok None.

Definition read_pandas (R : Readers) (filename : str) : result ea_data :=
  let '(base, ext) := splitext filename in
  check_filetype filename (Some PANDAS_EXTS);;
  df ← rtry (read_pandas_try R filename ext)
            (fun _ =>
               let msg := lit "Problem reading " ++ filename ++ nl in
               Raise (IOError msg));
  match df with
  | None => Raise (UnboundLocalError (lit "df"))
  | Some df =>
      dtypes ← rmap pandas_dtype (df_columns df);
      Ok {| ea_source := PandasObject df;
            ea_get_columns := map col_name (df_columns df);
            ea_get_values := df_values df;
            ea_get_dtypes := dtypes |}
  end.

(** [fits[i]] *)
Definition fits_getitem (f : FITS) (i : nat) : result HDU :=
  match hdus f !! i with
  | Some h => Ok h
  | None => Raise IndexError
  end.

(** [hdu.get_rec_dtype(vstorage='fixed')[0]] followed by
    [[dtype[i] for i,d in enumerate(dtype.descr)]]: the dtype of each
    column. *)
Definition hdu_field_dtypes (h : HDU) : result (list dtype) :=
  match h with
  | ImageHDU => Raise AttributeError
  | TableHDU columns _ => Ok (map snd columns)
  end.

(** [hdu.get_colnames()] *)
Definition hdu_get_colnames (h : HDU) : result (list str) :=
  match h with
  | ImageHDU => Raise AttributeError
  | TableHDU columns _ => Ok (map fst columns)
  end.

(** [hdu.read().tolist()] *)
Definition hdu_read (h : HDU) : result (list row) :=
  match h with
  | ImageHDU => Raise AttributeError
  | TableHDU _ rows => Ok rows
  end.

Definition read_fitsio (R : Readers) (filename : str) : result ea_data :=
  check_filetype filename (Some FITS_EXTS);;
  fits ← rtry (fitsio_FITS R filename)
              (fun _ =>
                 let msg := lit "Problem reading " ++ filename ++ nl in
                 Raise (IOError msg));
  h ← fits_getitem fits 1;
  dtypes ← hdu_field_dtypes h;
  h ← fits_getitem fits 1;
  columns ← hdu_get_colnames h;
  h ← fits_getitem fits 1;
  values ← hdu_read h;
  Ok {| ea_source := FitsObject fits;
        ea_get_columns := columns;
        ea_get_values := values;
        ea_get_dtypes := dtypes |}.

Definition read_file (R : Readers) (filename : str) : result ea_data :=
  let '(base, ext) := splitext filename in
  check_filetype ext (Some FILE_EXTS);;
  if str_in ext PANDAS_EXTS then read_pandas R filename
  else if str_in ext FITS_EXTS then read_fitsio R filename
  else Raise (IOError []).

(** *** The words of the specification *)

(** The extension of a file name, as [os.path.splitext] finds it. *)
Definition extension (filename : str) : str := (splitext filename).2.

(** The extension of a file name or, when the name has no extension, the
    name itself. *)
Definition extension_or_name (filename : str) : str :=
  if str_eqb (extension filename) [] then filename else extension filename.

Definition supported_extensions : list str :=
  [lit ".csv"; lit ".tab"; lit ".h5"; lit ".fits"].

(** Lower case of an ASCII letter. *)
Definition lower_char (c : char) : char :=
  if ((65 <=? c) && (c <=? 90))%N then (c + 32)%N else c.

Definition lower (s : str) : str := map lower_char s.

(** [a] is [b] with some letters in the other case. *)
Definition differs_only_in_case (a b : str) : Prop :=
  a <> b /\ lower a = lower b.

(** Readers for the examples: every file opens, text files hold an empty
    frame and FITS files a primary image and one table. *)
Definition sample_readers : Readers :=
  {| pd_read_csv := fun _ _ => Ok {| df_columns := []; df_values := [] |};
     pd_read_hdf := fun _ _ => Ok {| df_columns := []; df_values := [] |};
     fitsio_FITS := fun _ =>
       Ok {| hdus := [ImageHDU;
                      TableHDU [(lit "RA", {| kind := 102%N; itemsize := 8 |});
                                (lit "DEC", {| kind := 102%N; itemsize := 8 |})]
                               [[CFloat (lit "1.23"); CFloat (lit "0.13")]]] |} |}.

End Fileio.

(** ** [easyaccess/eautils/dbdo_utils.py]: the shell object and its monad *)

Module DbDo.
Import OsPath Fileio.

(** What [cx_Oracle.makedsn(host=.., port=.., service_name=..)] describes. *)
Record dsn_t := { dsn_host : str; dsn_port : Z; dsn_service : str }.

(** A [cx_Oracle] connection: who is connected where, and whether
    [close()] was called on it. *)
Record connection := {
  con_user : str;
  con_dsn : dsn_t;
  con_autocommit : bool;
  con_closed : bool
}.

Record cursor := { cur_con : connection; arraysize : Z }.

(** A [ConfigParser]: sections of options. *)
Abbreviation config := (gmap str (gmap str str)).

(** A Python float, by its bit pattern; only [float(arg)] produces one. *)
Record pyfloat := { float_bits : N }.

(** An argument handed to [callproc]. *)
Inductive arg :=
| ArgStr (s : str)
| ArgFloat (f : pyfloat).

(** The attributes of the shell object ([self]) that the commands use. *)
Record Self := {
  dbname : str;
  user : str;
  password : str;
  dbhost : str;
  service_name : str;
  port : Z;
  dsn : dsn_t;
  con : connection;
  cur : cursor;
  desconfig : config;
  quiet : bool;
  autocommit : bool;
  prefetch : Z;
  ct : bool
}.

Definition set_dbname (v : str) (s : Self) : Self :=
  {| dbname := v; user := user s; password := password s; dbhost := dbhost s;
     service_name := service_name s; port := port s; dsn := dsn s; con := con s;
     cur := cur s; desconfig := desconfig s; quiet := quiet s;
     autocommit := autocommit s; prefetch := prefetch s; ct := ct s |}.

Definition set_user (v : str) (s : Self) : Self :=
  {| dbname := dbname s; user := v; password := password s; dbhost := dbhost s;
     service_name := service_name s; port := port s; dsn := dsn s; con := con s;
     cur := cur s; desconfig := desconfig s; quiet := quiet s;
     autocommit := autocommit s; prefetch := prefetch s; ct := ct s |}.

Definition set_password (v : str) (s : Self) : Self :=
  {| dbname := dbname s; user := user s; password := v; dbhost := dbhost s;
     service_name := service_name s; port := port s; dsn := dsn s; con := con s;
     cur := cur s; desconfig := desconfig s; quiet := quiet s;
     autocommit := autocommit s; prefetch := prefetch s; ct := ct s |}.

Definition set_dbhost (v : str) (s : Self) : Self :=
  {| dbname := dbname s; user := user s; password := password s; dbhost := v;
     service_name := service_name s; port := port s; dsn := dsn s; con := con s;
     cur := cur s; desconfig := desconfig s; quiet := quiet s;
     autocommit := autocommit s; prefetch := prefetch s; ct := ct s |}.

Definition set_service_name (v : str) (s : Self) : Self :=
  {| dbname := dbname s; user := user s; password := password s; dbhost := dbhost s;
     service_name := v; port := port s; dsn := dsn s; con := con s;
     cur := cur s; desconfig := desconfig s; quiet := quiet s;
     autocommit := autocommit s; prefetch := prefetch s; ct := ct s |}.

Definition set_dsn (v : dsn_t) (s : Self) : Self :=
  {| dbname := dbname s; user := user s; password := password s; dbhost := dbhost s;
     service_name := service_name s; port := port s; dsn := v; con := con s;
     cur := cur s; desconfig := desconfig s; quiet := quiet s;
     autocommit := autocommit s; prefetch := prefetch s; ct := ct s |}.

Definition set_con (v : connection) (s : Self) : Self :=
  {| dbname := dbname s; user := user s; password := password s; dbhost := dbhost s;
     service_name := service_name s; port := port s; dsn := dsn s; con := v;
     cur := cur s; desconfig := desconfig s; quiet := quiet s;
     autocommit := autocommit s; prefetch := prefetch s; ct := ct s |}.

Definition set_cur (v : cursor) (s : Self) : Self :=
  {| dbname := dbname s; user := user s; password := password s; dbhost := dbhost s;
     service_name := service_name s; port := port s; dsn := dsn s; con := con s;
     cur := v; desconfig := desconfig s; quiet := quiet s;
     autocommit := autocommit s; prefetch := prefetch s; ct := ct s |}.

Definition set_desconfig (v : config) (s : Self) : Self :=
  {| dbname := dbname s; user := user s; password := password s; dbhost := dbhost s;
     service_name := service_name s; port := port s; dsn := dsn s; con := con s;
     cur := cur s; desconfig := v; quiet := quiet s;
     autocommit := autocommit s; prefetch := prefetch s; ct := ct s |}.

(** The tables of the database, by name. *)
Abbreviation DB := (gmap str (list row)).

(** What [eafile.read_file] hands to the loaders in this version of the
    shell: a [DataFrame], a chunked text reader (the frames that successive
    [get_chunk] calls return), or an open FITS file. *)
Inductive data_obj :=
| PandasFrame (df : DataFrame)
| PandasReader (chunks : list (result DataFrame))
| FitsFile (f : FITS).

(** Everything a command does that is visible outside of [self]: output on
    the terminal and calls to the driver, to helper methods of the shell
    class and to [eafile]. *)
Inductive event :=
| EvPrint (text : str)
| EvPrintColored (text color : str)
| EvPrintColoredAnd (text color more : str)
| EvPrintException (e : exn)
| EvPrintExcInfo (e : exn)
| EvHelp (topic : str)
| EvGetpass (prompt : str)
| EvSleep (seconds : Z)
| EvClose (c : connection)
| EvConnect (u p : str) (d : dsn_t)
| EvSetMessages
| EvCallproc (name : str) (args : list arg)
| EvQueryAndPrint (query : str) (extra suc_arg err_arg : option str)
| EvWriteDesconfig (c : config)
| EvCheckTableExists (table : str)
| EvReadFile (filename : str)
| EvCreateTable (table : str) (columns : list str) (dtypes : list dtype)
| EvInsertData (table : str) (columns : list str) (values : list row)
               (dtypes : list dtype) (iteration : Z)
| EvDropTable (table : str).

Record world := { self : Self; db : DB; trace : list event }.

(** How a command ends: it returns, an exception leaves it, or the process
    is gone ([os._exit]).  [OutOfFuel] is a loop of the model cut short. *)
Inductive outcome (A : Type) :=
| Return (a : A)
| Raised (e : exn)
| Exited (code : Z)
| OutOfFuel.
Arguments Return {A} a.
Arguments Raised {A} e.
Arguments Exited {A} code.
Arguments OutOfFuel {A}.

Definition M (A : Type) : Type := world -> outcome A * world.

#[global] Instance M_ret : MRet M := fun A a w => (Return a, w).

#[global] Instance M_bind : MBind M := fun A B k m w =>
  match m w with
  | (Return a, w') => k a w'
  | (Raised e, w') => (Raised e, w')
  | (Exited c, w') => (Exited c, w')
  | (OutOfFuel, w') => (OutOfFuel, w')
  end.

Definition raise {A} (e : exn) : M A := fun w => (Raised e, w).

(** [os._exit(code)] *)
Definition os_exit {A} (code : Z) : M A := fun w => (Exited code, w).

Definition out_of_fuel {A} : M A := fun w => (OutOfFuel, w).

Definition lift {A} (r : result A) : M A :=
  match r with
  | Ok a => mret a
  | Raise e => raise e
  end.

(** [try: body except: handler] *)
Definition try_except {A} (body : M A) (handler : exn -> M A) : M A := fun w =>
  match body w with
  | (Raised e, w') => handler e w'
  | r => r
  end.

Definition emit (e : event) : M unit := fun w =>
  (Return tt, {| self := self w; db := db w; trace := trace w ++ [e] |}).

Definition get_self : M Self := fun w => (Return (self w), w).

Definition modify_self (f : Self -> Self) : M unit := fun w =>
  (Return tt, {| self := f (self w); db := db w; trace := trace w |}).

Definition get_db : M DB := fun w => (Return (db w), w).

(** A helper that acts on the database: it leaves a new state and returns
    or raises. *)
Definition run_db (f : DB -> result unit * DB) : M unit := fun w =>
  let '(r, d) := f (db w) in
  lift r {| self := self w; db := d; trace := trace w |}.

(** Events one after the other. *)
Fixpoint emit_all (evs : list event) : M unit :=
  match evs with
  | [] => mret tt
  | e :: rest => emit e;; emit_all rest
  end.

(** [print(text)] and [print(colored(text, color, self.ct))] *)
Definition print (text : str) : M unit := emit (EvPrint text).
Definition print_colored (text color : str) : M unit := emit (EvPrintColored text color).

(** The interpreter, the terminal, the driver and the code of the package
    that is outside of these two files.  The module takes [colored],
    [print_exception], [KeyParser], [eafile] and [time] from
    [from easyaccess.eautils.ea_utils import *]. *)
Record Env := {
  getpass : str -> str;
  alnum_beyond : char -> bool;
  parse_float : str -> option pyfloat;
  upper : str -> str;
  cx_connect : str -> str -> dsn_t -> result unit;
  con_close : connection -> result unit;
  callproc : str -> list arg -> result unit;
  query_and_print : str -> result unit;
  write_desconfig : config -> result unit;
  check_table_exists : DB -> str -> bool;
  read_file : str -> result (data_obj * bool);
  get_dtypes : source -> result (list dtype);
  create_table : str -> list str -> list dtype -> DB -> result unit * DB;
  insert_data : str -> list str -> list row -> list dtype -> Z -> DB -> result unit * DB;
  drop_table : str -> DB -> result unit * DB
}.

(** [config.get(section, option)] *)
Definition config_get (c : config) (section option : str) : result str :=
  match c !! section with
  | None => Raise (LibError (lit "NoSectionError"))
  | Some options =>
      match options !! option with
      | None => Raise (LibError (lit "NoOptionError"))
      | Some v => Ok v
      end
  end.

(** [config.set(section, option, value)] *)
Definition config_set (c : config) (section option value : str) : result config :=
  match c !! section with
  | None => Raise (LibError (lit "NoSectionError"))
  | Some options => Ok (<[section := <[option := value]> options]> c)
  end.

(** [str(e)] *)
Definition exn_str (e : exn) : str :=
  match e with
  | IOError msg => msg
  | NameError name => lit "name '" ++ name ++ lit "' is not defined"
  | UnboundLocalError name => lit "local variable '" ++ name ++ lit "' referenced before assignment"
  | LibError msg => msg
  | _ => []
  end.

(** ** The commands of [DB_Func] *)

Section Commands.
Context (E : Env).

(** *** [do_execproc] *)

(** The body of the [for arg in argument_list] loop. *)
Definition execproc_argument (a : str) : arg :=
  if startswith [34%N] a || startswith [39%N] a then ArgStr (slice a 1 (-1))
  else match parse_float E a with
       | Some f => ArgFloat f
       | None => ArgStr a
       end.

(** Lines 46 to 59: the line without semicolons and whitespace, the name
    of the procedure and its arguments. *)
Definition execproc_parse (line : str) : result (str * str * list arg) :=
  let line := remove_char 59%N line in
  let line := join [] (split_ws line) in
  i ← index 40%N line;
  let proc_name := slice line 0 i in
  i ← index 40%N line;
  j ← index 41%N line;
  let argument_list := split_on 44%N (slice line (i + 1) j) in
  let arguments := map execproc_argument argument_list in
  Ok (line, proc_name, arguments).

Definition do_execproc (line : str) : M unit :=
  if str_eqb line [] then emit (EvHelp (lit "execproc"))
  else
    '(line, proc_name, arguments) ← lift (execproc_parse line);
    j ← lift (index 41%N line);
    if -1 <? find_sub (lit "describe") (slice_from line j) then
      let comm := nl ++ lit " Description of procedure '" ++ proc_name ++ lit "' " in
      let query :=
        nl ++ lit "                select argument_name, data_type,position,in_out from all_arguments where"
           ++ nl ++ lit "                 object_name = '" ++ upper E proc_name
           ++ lit "' order by position" in
      emit (EvQueryAndPrint query (Some comm) None (Some (lit "Procedure does not exist")));;
      lift (query_and_print E query)
    else
      try_except
        (emit (EvCallproc proc_name arguments);;
         lift (callproc E proc_name arguments);;
         print_colored (lit "Done!") (lit "green"))
        (fun e => emit (EvPrintException e)).

(** *** [do_set_password] *)

Definition whitespace_message : str :=
  nl ++ lit "Password contains whitespace, not set" ++ nl.

Definition do_set_password (arg : str) : M unit :=
  print [];;
  emit (EvGetpass (lit "Enter new password:"));;
  let pw1 := getpass E (lit "Enter new password:") in
  if search_nonword (alnum_beyond E) pw1 then
    print_colored whitespace_message (lit "red")
  else if str_eqb pw1 [] then
    print_colored (nl ++ lit "Password cannot be blank" ++ nl) (lit "red")
  else
    emit (EvGetpass (lit "Re-Enter new password:"));;
    let pw2 := getpass E (lit "Re-Enter new password:") in
    print [];;
    if negb (str_eqb pw1 pw2) then
      print_colored (lit "Passwords don't match, not set" ++ nl) (lit "red")
    else
      s ← get_self;
      let query := lit "alter user " ++ user s ++ lit " identified by "
                     ++ [34%N] ++ pw1 ++ [34%N] ++ lit "  " in
      let confirm := lit "Password changed in " ++ upper E (dbname s) in
      try_except
        (emit (EvQueryAndPrint query None (Some confirm) None);;
         lift (query_and_print E query);;
         s ← get_self;
         c ← lift (config_set (desconfig s) (lit "db-" ++ dbname s) (lit "passwd") pw1);
         modify_self (set_desconfig c);;
         s ← get_self;
         emit (EvWriteDesconfig (desconfig s));;
         lift (write_desconfig E (desconfig s)))
        (fun e =>
           s ← get_self;
           let confirm := lit "Password could not be changed in "
                            ++ upper E (dbname s) ++ nl in
           print_colored confirm (lit "red");;
           emit (EvPrintExcInfo e)).

(** *** [do_change_db] *)

(** The four assignments in the first [try] block. *)
Definition change_db_lookup : M unit :=
  s ← get_self;
  v ← lift (config_get (desconfig s) (lit "db-" ++ dbname s) (lit "user"));
  modify_self (set_user v);;
  s ← get_self;
  v ← lift (config_get (desconfig s) (lit "db-" ++ dbname s) (lit "passwd"));
  modify_self (set_password v);;
  s ← get_self;
  v ← lift (config_get (desconfig s) (lit "db-" ++ dbname s) (lit "server"));
  modify_self (set_dbhost v);;
  s ← get_self;
  v ← lift (config_get (desconfig s) (lit "db-" ++ dbname s) (lit "name"));
  modify_self (set_service_name v).

(** ["DB {} does not exist in your desservices file".format(key_db)] *)
Definition not_in_desservices_message (key_db : str) : str :=
  lit "DB " ++ key_db ++ lit " does not exist in your desservices file".

Definition could_not_connect_message : str :=
  nl ++ lit " ** Could not successfully connect to DB. Try again later. Aborting. ** " ++ nl.

(** [for tries in range(..)]: the result is the flag [connected]. *)
Fixpoint change_db_connect (tries : list nat) : M bool :=
  match tries with
  | [] => mret false
  | _ :: rest =>
      connected ←
        try_except
          (s ← get_self;
           emit (EvConnect (user s) (password s) (dsn s));;
           lift (cx_connect E (user s) (password s) (dsn s));;
           modify_self (set_con {| con_user := user s; con_dsn := dsn s;
                                   con_autocommit := autocommit s;
                                   con_closed := false |});;
           mret true)
          (fun e =>
             let lasterr := strip (exn_str e) in
             print_colored (lit "Error when trying to connect to database: " ++ lasterr)
                           (lit "red");;
             print (nl ++ lit "   Retrying..." ++ nl);;
             emit (EvSleep 5);;
             mret false);
      if connected : bool then mret true else change_db_connect rest
  end.

Definition do_change_db (line : str) : M unit :=
  if str_eqb line [] then emit (EvHelp (lit "change_db"))
  else
    let line := join (lit " ") (split_ws line) in
    key_db ← lift (match split_ws line with
                   | k :: _ => Ok k
                   | [] => Raise IndexError
                   end);
    if str_in key_db [lit "dessci"; lit "desoper"; lit "destest"] then
      s ← get_self;
      if str_eqb key_db (dbname s) then
        print_colored (lit "Already connected to : " ++ key_db) (lit "green")
      else
        modify_self (set_dbname key_db);;
        found ← try_except
                  (change_db_lookup;; mret true)
                  (fun _ =>
                     print_colored (not_in_desservices_message key_db) (lit "red");;
                     mret false);
        if found : bool then
          modify_self (fun s => set_dsn {| dsn_host := dbhost s; dsn_port := port s;
                                           dsn_service := service_name s |} s);;
          s ← get_self;
          (if negb (quiet s)
           then print (lit "Connecting to DB ** " ++ dbname s ++ lit " ** ...")
           else mret tt);;
          emit (EvClose (con s));;
          lift (con_close E (con s));;
          modify_self (fun s => set_con {| con_user := con_user (con s);
                                           con_dsn := con_dsn (con s);
                                           con_autocommit := con_autocommit (con s);
                                           con_closed := true |} s);;
          connected ← change_db_connect (seq 0 1);
          if negb connected then
            print could_not_connect_message;;
            os_exit 0
          else
            modify_self (fun s => set_cur {| cur_con := con s; arraysize := prefetch s |} s);;
            print [];;
            print (lit "Run refresh_metadata_cache to reload the auto-completion metatada");;
            emit EvSetMessages
        else mret tt
    else
      print_colored (lit "DB " ++ key_db
                       ++ lit " does not exist or you don't have access to it")
                    (lit "red").

(** *** [do_load_table] and [do_append_table]

    The two commands are modelled from the point where the options are
    resolved (line 413 and line 608): [filename] is what
    [eafile.get_filename] returned, [table] the [--tablename] option,
    [chunk] the number of rows per chunk, if any. *)

(** [data.file_type] *)
Definition file_type (data : data_obj) : str :=
  match data with
  | FitsFile _ => lit "fits"
  | _ => lit "pandas"
  end.

(** [df = data.get_chunk(chunk)] or [df = data], up to [len(df)]: the
    frame, and the reader after the call.  An object without [get_chunk]
    or without a length raises. *)
Definition pandas_next (iterator : bool) (data : data_obj)
  : result DataFrame * data_obj :=
  if iterator then
    match data with
    | PandasReader [] => (Raise StopIteration, data)
    | PandasReader (c :: rest) => (c, PandasReader rest)
    | _ => (Raise AttributeError, data)
    end
  else
    match data with
    | PandasFrame df => (Ok df, data)
    | _ => (Raise TypeError, data)
    end.

(** What a pass through the first [try] block of a loop leaves: [None]
    for [break], else [dtypes], [columns], [values] and [total_rows]. *)
Abbreviation chunk_read :=
  (option (option (list dtype) * option (list str) * list row * Z)).

(** The first [try] block of the pandas loops. *)
Definition pandas_try (iterator : bool) (data : data_obj) (iteration total_rows : Z)
    (dtypes : option (list dtype)) : result chunk_read * data_obj :=
  let '(r, data') := pandas_next iterator data in
  (df ← r;
   if len (df_values df) =? 0 then Ok None
   else
     dtypes ← (if iteration =? 0
               then dt ← get_dtypes E (PandasObject df); Ok (Some dt)
               else Ok dtypes);
     let columns := map col_name (df_columns df) in
     let values := df_values df in
     Ok (Some (dtypes, Some columns, values, total_rows + len (df_values df))),
   data').

(** [hdu[start:stop].tolist()]: the rows of a table, sliced by the Python
    convention. *)
Definition hdu_slice (h : HDU) (start stop : Z) : result (list row) :=
  match h with
  | ImageHDU => Raise AttributeError
  | TableHDU _ rows => Ok (slice rows start stop)
  end.

(** [hdu.get_nrows()] *)
Definition hdu_get_nrows (h : HDU) : result Z :=
  match h with
  | ImageHDU => Raise AttributeError
  | TableHDU _ rows => Ok (len rows)
  end.

(** The first [try] block of the FITS loops ([start] is advanced by the
    caller). *)
Definition fits_try (f : FITS) (iteration total_rows start chunk : Z)
    (dtypes : option (list dtype)) (columns : option (list str))
  : result chunk_read :=
  '(dtypes, columns) ←
     (if iteration =? 0
      then dt ← get_dtypes E (FitsObject f);
           h ← fits_getitem f 1;
           cols ← hdu_get_colnames h;
           Ok (Some dt, Some cols)
      else Ok (dtypes, columns));
  h ← fits_getitem f 1;
  values ← hdu_slice h start (start + chunk);
  if len values =? 0 then Ok None
  else Ok (Some (dtypes, columns, values, total_rows + len values)).

(** A local variable that is read: [UnboundLocalError] when no pass has
    assigned it. *)
Definition local {A} (name : string) (v : option A) : M A :=
  match v with
  | Some a => mret a
  | None => raise (UnboundLocalError (lit name))
  end.

Definition call_create_table (table : str) (columns : option (list str))
    (dtypes : option (list dtype)) : M unit :=
  columns ← local "columns" columns;
  dtypes ← local "dtypes" dtypes;
  emit (EvCreateTable table columns dtypes);;
  run_db (create_table E table columns dtypes).

Definition call_insert_data (table : str) (columns : option (list str))
    (values : list row) (dtypes : option (list dtype)) (iteration : Z) : M unit :=
  columns ← local "columns" columns;
  dtypes ← local "dtypes" dtypes;
  emit (EvInsertData table columns values dtypes iteration);;
  run_db (insert_data E table columns values dtypes iteration).

Definition call_drop_table (table : str) : M unit :=
  emit (EvDropTable table);;
  run_db (drop_table E table).

(** The [except] blocks of [do_load_table]: report, drop the table, leave
    the command. *)
Definition load_failed (table : str) (e : exn) : M bool :=
  emit (EvPrintException e);;
  call_drop_table table;;
  mret false.

(** The rest of a pass, the same in both loops of [do_load_table]: create
    the table on iteration 0, then insert the chunk.  The result tells
    whether the command goes on ([False] is a [return] from an [except]
    block). *)
Definition load_chunk (table : str) (iteration : Z) (columns : option (list str))
    (values : list row) (dtypes : option (list dtype)) : M bool :=
  created ← (if iteration =? 0
             then try_except
                    (call_create_table table columns dtypes;; mret true)
                    (load_failed table)
             else mret true);
  if created : bool then
    try_except
      (call_insert_data table columns values dtypes iteration;; mret true)
      (load_failed table)
  else mret false.

(** The pandas loop of [do_load_table].  The result is [total_rows] when
    the loop is left by [break] or by its condition, and [None] when the
    command returns from inside it. *)
Fixpoint load_pandas (fuel : nat) (table : str) (iterator : bool) (data : data_obj)
    (iteration total_rows : Z) (dtypes : option (list dtype)) : M (option Z) :=
  match fuel with
  | O => out_of_fuel
  | S fuel =>
      let '(r, data) := pandas_try iterator data iteration total_rows dtypes in
      match r with
      | Raise _ => mret (Some total_rows)
      | Ok None => mret (Some total_rows)
      | Ok (Some (dtypes, columns, values, total_rows)) =>
          inserted ← load_chunk table iteration columns values dtypes;
          if inserted : bool then
            if negb iterator then mret (Some total_rows)
            else load_pandas fuel table iterator data (iteration + 1) total_rows dtypes
          else mret None
      end
  end.

(** The FITS loop of [do_load_table]. *)
Fixpoint load_fits (fuel : nat) (table : str) (f : FITS) (chunk start : Z)
    (iteration total_rows : Z) (dtypes : option (list dtype))
    (columns : option (list str)) : M (option Z) :=
  match fuel with
  | O => out_of_fuel
  | S fuel =>
      match fits_try f iteration total_rows start chunk dtypes columns with
      | Raise _ => mret (Some total_rows)
      | Ok None => mret (Some total_rows)
      | Ok (Some (dtypes, columns, values, total_rows)) =>
          inserted ← load_chunk table iteration columns values dtypes;
          if inserted : bool then
            load_fits fuel table f chunk (start + chunk) (iteration + 1)
                      total_rows dtypes columns
          else mret None
      end
  end.

(** The message that closes a load: [total_rows] rows in [table]. *)
Definition loaded_message (table : str) (total_rows : Z) : str :=
  nl ++ lit " ** Table " ++ upper E table ++ lit " loaded successfully with "
     ++ str_of_int total_rows ++ lit " rows." ++ nl.

(** [table] as the command names it: [--tablename], else the [name]
    argument, else the base of the file name. *)
Definition table_name (filename : str) (table name : option str) : str :=
  match table with
  | None => match name with
            | None => (splitext (basename filename)).1
            | Some n => n
            end
  | Some t => t
  end.

(** The six [print] calls that close a load. *)
Definition report_events (table : str) (total_rows : Z) : list event :=
  [EvPrintColored (loaded_message table total_rows) (lit "green");
   EvPrintColored (lit " You may want to refresh the metadata so your new table appears during"
                     ++ nl ++ lit " autocompletion") (lit "cyan");
   EvPrintColored (lit " DESDB ~> refresh_metadata_cache;") (lit "cyan");
   EvPrint [];
   EvPrintColored (lit " To make this table public run:") (lit "blue");
   EvPrintColoredAnd (lit " DESDB ~> grant select on " ++ upper E table
                        ++ lit " to DES_READER;") (lit "blue") nl].

Definition load_report (table : str) (total_rows : Z) : M unit :=
  emit_all (report_events table total_rows).

(** [data, iterator = eafile.read_file(filename)] inside its [try]. *)
Definition call_read_file (filename : str) : M (option (data_obj * bool)) :=
  try_except
    (emit (EvReadFile filename);;
     r ← lift (read_file E filename);
     mret (Some r))
    (fun e => emit (EvPrintException e);; mret None).

(** The two loops, one after the other: [None] when the command returned
    from inside a loop. *)
Definition load_loops (fuel : nat) (table : str) (data : data_obj) (iterator : bool)
    (chunk : option Z) : M (option Z) :=
  r ← (if str_eqb (file_type data) (lit "pandas")
       then load_pandas fuel table iterator data 0 0 None
       else mret (Some 0));
  match r with
  | None => mret None
  | Some total_rows =>
      if str_eqb (file_type data) (lit "fits") then
        match data with
        | FitsFile f =>
            chunk ← match chunk with
                    | None => h ← lift (fits_getitem f 1); lift (hdu_get_nrows h)
                    | Some c => mret c
                    end;
            load_fits fuel table f chunk 0 0 total_rows None None
        | _ => mret (Some total_rows)
        end
      else mret (Some total_rows)
  end.

Definition do_load_table (fuel : nat) (filename table name : option str)
    (chunk : option Z) : M unit :=
  match filename with
  | None => mret tt
  | Some filename =>
      let '(base, ext) := splitext (basename filename) in
      if str_eqb ext (lit ".h5") && bool_decide (chunk ≠ None) then
        print_colored (nl ++ lit "HDF5 file upload with chunksize is not supported yet. Try without --chunksize" ++ nl)
                      (lit "red")
      else
        let table := table_name filename table name in
        emit (EvCheckTableExists table);;
        d ← get_db;
        if check_table_exists E d table then
          print_colored (nl ++ lit " Table already exists. Table can be removed with:") (lit "red");;
          print_colored (lit " DESDB ~> DROP TABLE " ++ upper E table ++ lit ";" ++ nl) (lit "red")
        else
          r ← call_read_file filename;
          match r with
          | None => mret tt
          | Some (data, iterator) =>
              r ← load_loops fuel table data iterator chunk;
              match r with
              | None => mret tt
              | Some total_rows => load_report table total_rows
              end
          end
  end.

(** The [except] blocks of [do_append_table]: report and leave the
    command. *)
Definition append_failed (e : exn) : M bool :=
  emit (EvPrintException e);;
  mret false.

(** The rest of a pass, the same in both loops of [do_append_table]:
    insert the chunk. *)
Definition append_chunk (table : str) (iteration : Z) (columns : option (list str))
    (values : list row) (dtypes : option (list dtype)) : M bool :=
  try_except
    (call_insert_data table columns values dtypes iteration;; mret true)
    append_failed.

(** The pandas loop of [do_append_table]. *)
Fixpoint append_pandas (fuel : nat) (table : str) (iterator : bool) (data : data_obj)
    (iteration total_rows : Z) (dtypes : option (list dtype)) : M (option Z) :=
  match fuel with
  | O => out_of_fuel
  | S fuel =>
      let '(r, data) := pandas_try iterator data iteration total_rows dtypes in
      match r with
      | Raise _ => mret (Some total_rows)
      | Ok None => mret (Some total_rows)
      | Ok (Some (dtypes, columns, values, total_rows)) =>
          inserted ← append_chunk table iteration columns values dtypes;
          if inserted : bool then
            if negb iterator then mret (Some total_rows)
            else append_pandas fuel table iterator data (iteration + 1) total_rows dtypes
          else mret None
      end
  end.

(** The FITS loop of [do_append_table]. *)
Fixpoint append_fits (fuel : nat) (table : str) (f : FITS) (chunk start : Z)
    (iteration total_rows : Z) (dtypes : option (list dtype))
    (columns : option (list str)) : M (option Z) :=
  match fuel with
  | O => out_of_fuel
  | S fuel =>
      match fits_try f iteration total_rows start chunk dtypes columns with
      | Raise _ => mret (Some total_rows)
      | Ok None => mret (Some total_rows)
      | Ok (Some (dtypes, columns, values, total_rows)) =>
          inserted ← append_chunk table iteration columns values dtypes;
          if inserted : bool then
            append_fits fuel table f chunk (start + chunk) (iteration + 1)
                        total_rows dtypes columns
          else mret None
      end
  end.

Definition appended_message (table : str) (total_rows : Z) : str :=
  nl ++ lit " ** Table " ++ upper E table ++ lit " appended successfully with "
     ++ str_of_int total_rows ++ lit " rows.".

Definition append_loops (fuel : nat) (table : str) (data : data_obj) (iterator : bool)
    (chunk : option Z) : M (option Z) :=
  r ← (if str_eqb (file_type data) (lit "pandas")
       then append_pandas fuel table iterator data 0 0 None
       else mret (Some 0));
  match r with
  | None => mret None
  | Some total_rows =>
      if str_eqb (file_type data) (lit "fits") then
        match data with
        | FitsFile f =>
            chunk ← match chunk with
                    | None => h ← lift (fits_getitem f 1); lift (hdu_get_nrows h)
                    | Some c => mret c
                    end;
            append_fits fuel table f chunk 0 0 total_rows None None
        | _ => mret (Some total_rows)
        end
      else mret (Some total_rows)
  end.

Definition do_append_table (fuel : nat) (filename table name : option str)
    (chunk : option Z) : M unit :=
  match filename with
  | None => mret tt
  | Some filename =>
      let '(base, ext) := splitext (basename filename) in
      if str_eqb ext (lit ".h5") && bool_decide (chunk ≠ None) then
        print_colored (nl ++ lit "HDF5 file upload with chunksize is not supported yet. Try without --chunksize" ++ nl)
                      (lit "red")
      else
        let table := table_name filename table name in
        emit (EvCheckTableExists table);;
        d ← get_db;
        if negb (check_table_exists E d table) then
          print (nl ++ lit " Table does not exist. Table can be created with:"
                    ++ nl ++ lit " DESDB ~> CREATE TABLE " ++ upper E table
                    ++ lit " (COL1 TYPE1(SIZE), ..., COLN TYPEN(SIZE));" ++ nl)
        else
          r ← call_read_file filename;
          match r with
          | None => mret tt
          | Some (data, iterator) =>
              r ← append_loops fuel table data iterator chunk;
              match r with
              | None => mret tt
              | Some total_rows =>
                  print_colored (appended_message table total_rows) (lit "green")
              end
          end
  end.

End Commands.

(** ** The words of the specification *)

(** A word of a line: not empty, and without whitespace. *)
Definition is_word (w : str) : Prop :=
  w <> [] /\ Forall (fun c => isspace c = false) w.

(** The names [do_change_db] accepts. *)
Definition database_names : list str := [lit "dessci"; lit "desoper"; lit "destest"].

(** A world with more events in its trace, and with another [self]. *)
Definition with_events (w : world) (evs : list event) : world :=
  {| self := self w; db := db w; trace := trace w ++ evs |}.

Definition with_self (w : world) (s : Self) : world :=
  {| self := s; db := db w; trace := trace w |}.

Definition is_connect (e : event) : bool :=
  match e with
  | EvConnect _ _ _ => true
  | _ => false
  end.

(** The attempts to connect among some events. *)
Definition connect_attempts (evs : list event) : list event :=
  List.filter is_connect evs.

(** Every attempt to connect comes after a [close()]; [closed] tells
    whether one was seen. *)
Fixpoint connects_after_close (closed : bool) (evs : list event) : bool :=
  match evs with
  | [] => true
  | EvClose _ :: rest => connects_after_close true rest
  | EvConnect _ _ _ :: rest => closed && connects_after_close closed rest
  | _ :: rest => connects_after_close closed rest
  end.

(** A computation that never ends the process, whatever the world. *)
Definition no_exit {A} (m : M A) : Prop :=
  forall w c, (m w).1 <> Exited c.

(** A computation that never stops for lack of fuel. *)
Definition no_timeout {A} (m : M A) : Prop :=
  forall w, (m w).1 <> OutOfFuel.

(** A character of [[A-Za-z0-9_]]. *)
Definition ascii_word (c : char) : bool :=
  ((48 <=? c) && (c <=? 57) || (65 <=? c) && (c <=? 90)
   || (97 <=? c) && (c <=? 122) || (c =? 95))%N.

(** The events by which [do_set_password] changes the password: the
    [alter user] query and the write of the configuration file. *)
Definition changes_password (e : event) : bool :=
  match e with
  | EvQueryAndPrint _ _ _ _ => true
  | EvWriteDesconfig _ => true
  | _ => false
  end.

(** A chunk as a loop hands it to [create_table] and [insert_data]. *)
Record chunk := {
  ch_columns : list str;
  ch_values : list row;
  ch_dtypes : list dtype
}.

(** The helper calls of a loop of [do_load_table] that runs to its end
    over [chunks], from [iteration] on: [create_table] on iteration 0,
    and one [insert_data] for each chunk. *)
Fixpoint load_events (table : str) (iteration : Z) (chunks : list chunk) : list event :=
  match chunks with
  | [] => []
  | c :: rest =>
      (if iteration =? 0
       then [EvCreateTable table (ch_columns c) (ch_dtypes c)]
       else [])
      ++ EvInsertData table (ch_columns c) (ch_values c) (ch_dtypes c) iteration
      :: load_events table (iteration + 1) rest
  end.

(** The same for [do_append_table]: one [insert_data] for each chunk. *)
Fixpoint append_events (table : str) (iteration : Z) (chunks : list chunk) : list event :=
  match chunks with
  | [] => []
  | c :: rest =>
      EvInsertData table (ch_columns c) (ch_values c) (ch_dtypes c) iteration
      :: append_events table (iteration + 1) rest
  end.





(** A message in green: the report of a load that went through. *)
Definition is_success_report (e : event) : bool :=
  match e with
  | EvPrintColored _ color => str_eqb color (lit "green")
  | _ => false
  end.

(** [insert_data] appends: a call that returns has added its rows at the
    end of the table, a call that raises has changed nothing. *)
Definition appends_rows (E : Env) : Prop :=
  forall table columns values dtypes iteration (d : DB),
    match insert_data E table columns values dtypes iteration d with
    | (Ok _, d') => d' = <[table := default [] (d !! table) ++ values]> d
    | (Raise _, d') => d' = d
    end.

(** The tables after [insert_data] has appended the rows of [frames] to
    [table], one frame after the other. *)
Definition rows_appended (table : str) (frames : list DataFrame) (d : DB) : DB :=
  foldl (fun d f => <[table := default [] (d !! table) ++ df_values f]> d) d frames.

(** The rows of the table that the loops read from a FITS file, [fits[1]]. *)
Definition fits_rows (f : FITS) : list row :=
  match hdus f !! 1%nat with
  | Some (TableHDU _ rows) => rows
  | _ => []
  end.

(** A bound on the passes of a FITS loop that still find rows, for a
    table of [n] rows read from [start] in slices of [chunk] rows. *)
Definition passes_left (n chunk start : Z) : nat :=
  if 0 <? chunk then Z.to_nat (n - start)
  else if 0 <=? start then 1%nat else 0%nat.

(** Fuel that lets the loops over [data] run to their end. *)
Definition enough_fuel (data : data_obj) (chunk : option Z) : nat :=
  match data with
  | PandasFrame _ => 1
  | PandasReader chunks => S (length chunks)
  | FitsFile f =>
      let n := len (fits_rows f) in
      S (passes_left n (default n chunk) 0)
  end.

(** The chunk that a frame makes. *)
Definition chunk_of_frame (dtypes : list dtype) (df : DataFrame) : chunk :=
  {| ch_columns := map col_name (df_columns df);
     ch_values := df_values df;
     ch_dtypes := dtypes |}.


(** The text before the first [c]. *)
Fixpoint before (c : char) (s : str) : str :=
  match s with
  | [] => []
  | x :: r => if N.eqb x c then [] else x :: before c r
  end.

(** A line without its semicolons and whitespace. *)
Definition cleaned (line : str) : str :=
  List.filter (fun c => negb (N.eqb c 59) && negb (isspace c)) line.


(** An argument without its first and its last character. *)
Definition strip_ends (a : str) : str := removelast (tail a).



(** ** Sample shells and environments, for the examples *)

(** A shell connected to [dessci], with [dessci] and [desoper] in its
    desservices file. *)
Definition sample_dsn : dsn_t :=
  {| dsn_host := lit "desdb.example.org"; dsn_port := 1521; dsn_service := lit "dessci" |}.

Definition sample_con : connection :=
  {| con_user := lit "alice"; con_dsn := sample_dsn; con_autocommit := true;
     con_closed := false |}.

Definition sample_config : config :=
  {[ lit "db-dessci" :=
       list_to_map [(lit "user", lit "alice"); (lit "passwd", lit "secret1");
                    (lit "server", lit "desdb.example.org"); (lit "name", lit "dessci")];
     lit "db-desoper" :=
       list_to_map [(lit "user", lit "alice"); (lit "passwd", lit "secret2");
                    (lit "server", lit "desoper.example.org"); (lit "name", lit "desoper")] ]}.

Definition sample_self : Self :=
  {| dbname := lit "dessci"; user := lit "alice"; password := lit "secret1";
     dbhost := lit "desdb.example.org"; service_name := lit "dessci"; port := 1521;
     dsn := sample_dsn; con := sample_con;
     cur := {| cur_con := sample_con; arraysize := 10000 |};
     desconfig := sample_config; quiet := false; autocommit := true;
     prefetch := 10000; ct := true |}.

Definition sample_world : world := {| self := sample_self; db := ∅; trace := [] |}.

(** A world in which the table [example] exists, with one row. *)
Definition sample_world_with_table : world :=
  {| self := sample_self;
     db := {[ lit "example" := [[CFloat (lit "9.9"); CFloat (lit "0.9")]] ]};
     trace := [] |}.

(** An environment in which everything succeeds: the helpers keep the
    tables in [db], [insert_data] appends the rows, and [float] knows the
    number 10. *)
Definition sample_env : Env :=
  {| getpass := fun _ => lit "s3cret";
     alnum_beyond := fun _ => false;
     parse_float := fun a =>
       if str_eqb a (lit "10") then Some {| float_bits := 4621819117588971520 |} else None;
     upper := fun s => s;
     cx_connect := fun _ _ _ => Ok tt;
     con_close := fun _ => Ok tt;
     callproc := fun _ _ => Ok tt;
     query_and_print := fun _ => Ok tt;
     write_desconfig := fun _ => Ok tt;
     check_table_exists := fun d t => bool_decide (is_Some (d !! t));
     read_file := fun _ => Raise (IOError []);
     get_dtypes := fun _ => Ok [];
     create_table := fun t _ _ d => (Ok tt, <[t := []]> d);
     insert_data := fun t _ v _ _ d => (Ok tt, <[t := default [] (d !! t) ++ v]> d);
     drop_table := fun t d => (Ok tt, delete t d) |}.

(** An environment with another terminal and another driver. *)
Definition with_terminal (typed : str -> str)
    (connect : str -> str -> dsn_t -> result unit) (E : Env) : Env :=
  {| getpass := typed;
     alnum_beyond := alnum_beyond E;
     parse_float := parse_float E;
     upper := upper E;
     cx_connect := connect;
     con_close := con_close E;
     callproc := callproc E;
     query_and_print := query_and_print E;
     write_desconfig := write_desconfig E;
     check_table_exists := check_table_exists E;
     read_file := read_file E;
     get_dtypes := get_dtypes E;
     create_table := create_table E;
     insert_data := insert_data E;
     drop_table := drop_table E |}.

(** An environment with another file, and another [insert_data]. *)
Definition with_file (file : result (data_obj * bool)) (dtypes : list dtype)
    (insert : str -> list str -> list row -> list dtype -> Z -> DB -> result unit * DB)
    (E : Env) : Env :=
  {| getpass := getpass E;
     alnum_beyond := alnum_beyond E;
     parse_float := parse_float E;
     upper := upper E;
     cx_connect := cx_connect E;
     con_close := con_close E;
     callproc := callproc E;
     query_and_print := query_and_print E;
     write_desconfig := write_desconfig E;
     check_table_exists := check_table_exists E;
     read_file := fun _ => file;
     get_dtypes := fun _ => Ok dtypes;
     create_table := create_table E;
     insert_data := insert;
     drop_table := drop_table E |}.

(** The database server does not answer. *)
Definition unreachable_env : Env :=
  with_terminal (getpass sample_env)
    (fun _ _ _ => Raise (LibError (lit "ORA-12541: TNS:no listener"))) sample_env.

(** The user types the one-letter password U+00E9 (e with an acute
    accent) twice. *)
Definition accented_env : Env :=
  with_terminal (fun _ => [233%N]) (cx_connect sample_env) sample_env.

Definition f8 : dtype := {| kind := 102%N; itemsize := 8 |}.

Definition sample_columns : list column :=
  [{| col_name := lit "RA"; col_dtype := f8; col_str_len_max := Raise AttributeError |};
   {| col_name := lit "DEC"; col_dtype := f8; col_str_len_max := Raise AttributeError |}].

Definition sample_frame (values : list row) : DataFrame :=
  {| df_columns := sample_columns; df_values := values |}.

Definition first_rows : list row :=
  [[CFloat (lit "1.23"); CFloat (lit "0.13")]; [CFloat (lit "0.13"); CFloat (lit "0.01")]].

Definition more_rows : list row := [[CFloat (lit "2.5"); CFloat (lit "0.7")]].


(** The file is read in two chunks, of two rows and of one row. *)
Definition chunked_file : result (data_obj * bool) :=
  Ok (PandasReader [Ok (sample_frame first_rows); Ok (sample_frame more_rows)], true).


(** The same file, but [insert_data] fails from the second chunk on and
    leaves the tables as they are. *)
Definition failing_insert_env : Env :=
  with_file chunked_file [f8; f8]
    (fun t c v dt iteration d =>
       if iteration =? 0 then insert_data sample_env t c v dt iteration d
       else (Raise (LibError (lit "ORA-01653: unable to extend table")), d))
    sample_env.

(** *** Words for the properties of the loads *)

(** Helpers that do their work: [create_table] leaves an empty table,
    [insert_data] appends the rows, [drop_table] removes the table, and
    none of them raises. *)
Definition helpers_succeed (E : Env) : Prop :=
  (forall t c dt (d : DB), create_table E t c dt d = (Ok tt, <[t := []]> d)) /\
  (forall t c v dt i (d : DB),
     insert_data E t c v dt i d = (Ok tt, <[t := default [] (d !! t) ++ v]> d)) /\
  (forall t (d : DB), drop_table E t d = (Ok tt, delete t d)).

(** Helpers that may fail, but keep the tables in order: a failed
    [create_table] touches no other table, a failed [insert_data] changes
    nothing, and [drop_table] removes the table. *)
Definition keeps_tables (E : Env) : Prop :=
  (forall t c dt (d : DB),
     match create_table E t c dt d with
     | (Ok _, d') => d' = <[t := []]> d
     | (Raise _, d') => forall t', t' <> t -> d' !! t' = d !! t'
     end) /\
  appends_rows E /\
  (forall t (d : DB), drop_table E t d = (Ok tt, delete t d)).

(** A reader stops at the end of the file, at a chunk that cannot be
    read, and at a chunk without rows. *)
Definition stops (chunks : list (result DataFrame)) : Prop :=
  match chunks with
  | [] => True
  | Raise _ :: _ => True
  | Ok f :: _ => df_values f = []
  end.

(** *** The chunks of a file

    What the loops of [do_load_table] and [do_append_table] are to hand
    to the helpers, told from the object that [eafile.read_file]
    returned alone: these definitions follow the words of the
    specification ("iterate over the chunks"), not the loops. *)











(** *** More samples *)

(** The shell is connected to a database that has no section in the
    desservices file. *)
Definition destest_world : world :=
  with_self sample_world (set_dbname (lit "destest") sample_self).

(** The file is read in chunks, and the second chunk cannot be read. *)
Definition broken_file : result (data_obj * bool) :=
  Ok (PandasReader [Ok (sample_frame first_rows);
                    Raise (LibError (lit "Error tokenizing data"));
                    Ok (sample_frame more_rows)], true).

Definition broken_file_env : Env :=
  with_file broken_file [f8; f8] (insert_data sample_env) sample_env.

(** A FITS file with a primary image and a table of three rows. *)
Definition sample_fits : FITS :=
  {| hdus := [ImageHDU;
              TableHDU [(lit "RA", f8); (lit "DEC", f8)] (first_rows ++ more_rows)] |}.

Definition fits_env : Env :=
  with_file (Ok (FitsFile sample_fits, false)) [f8; f8] (insert_data sample_env) sample_env.

End DbDo.

(** ** [easyaccess/eautils/fileio.py]: the writers *)

Module FileioWrite.
Import OsPath Fileio.

(** ['%06d' % n]: the decimal digits of [n], with zeros in front up to a
    width of six characters, the sign included. *)
Definition zero_pad (width : nat) (digits : str) : str :=
  repeat 48%N (width - length digits) ++ digits.

Definition fmt_06d (n : Z) : str :=
  if n <? 0 then 45%N :: zero_pad 5 (str_of_int (- n)) else zero_pad 6 (str_of_int n).

(** [base + '_%06d' % fileindex + ext] *)
Definition indexed_name (base ext : str) (fileindex : Z) : str :=
  base ++ lit "_" ++ fmt_06d fileindex ++ ext.

(** An entry of the description of a query ([cursor.description]); the
    code reads its first two fields, the name and the type of a column. *)
Record descriptor := { d_name : str; d_type : str }.

(** The record array that [write_fitsio] builds with numpy. *)
Record recarray := { ra_names : list str; ra_rows : list row }.

(** What one call has written to a file. *)
Inductive block :=
| CsvText (df : DataFrame) (sep : str) (header : bool)
| HdfData (df : DataFrame) (header : bool)
| FitsRows (arr : recarray).

(** The files, by path: what each one holds, block after block. *)
Abbreviation FS := (gmap str (list block)).

(** The libraries that write: pandas ([DataFrame.to_csv] and [to_hdf],
    with the separator, the mode and the header flag that the code
    passes), numpy and [eatypes] (lines 190 to 211 of [write_fitsio],
    which build the record array from the description and the frame;
    what line 198 prints is not part of the model),
    [fitsio] ([fitsio.write] with [clobber=True], and [FITS(.., 'rw')]
    followed by [fits[1].append] and [close]), and the size in bytes that
    the operating system reports for a file with a given content. *)
Record Writers := {
  to_csv : str -> DataFrame -> str -> str -> bool -> FS -> result unit * FS;
  to_hdf : str -> DataFrame -> str -> bool -> FS -> result unit * FS;
  np_recarray : list descriptor -> DataFrame -> result recarray;
  fitsio_write : str -> recarray -> FS -> result unit * FS;
  fitsio_append : str -> recarray -> FS -> result unit * FS;
  file_bytes : list block -> Z
}.

(** Code that works on the files and may raise. *)
Definition IO (A : Type) : Type := FS -> result A * FS.

#[global] Instance IO_ret : MRet IO := fun A a fs => (Ok a, fs).

#[global] Instance IO_bind : MBind IO := fun A B k m fs =>
  match m fs with
  | (Ok a, fs') => k a fs'
  | (Raise e, fs') => (Raise e, fs')
  end.

Definition io_lift {A} (r : result A) : IO A := fun fs => (r, fs).

Definition io_raise {A} (e : exn) : IO A := fun fs => (Raise e, fs).

(** A local variable that is read. *)
Definition io_local {A} (name : string) (v : option A) : IO A :=
  match v with
  | Some a => mret a
  | None => io_raise (UnboundLocalError (lit name))
  end.

(** [FileNotFoundError], a subclass of [OSError], which is what [IOError]
    names in Python 3. *)
Definition no_such_file (path : str) : exn :=
  IOError (lit "[Errno 2] No such file or directory: " ++ quoted path).

(** [os.path.exists(path)] *)
Definition path_exists (path : str) : IO bool := fun fs =>
  (Ok (bool_decide (is_Some (fs !! path))), fs).

(** [os.remove(path)] *)
Definition os_remove (path : str) : IO unit := fun fs =>
  match fs !! path with
  | Some _ => (Ok tt, delete path fs)
  | None => (Raise (no_such_file path), fs)
  end.

(** [os.rename(src, dst)]: a file that is at [dst] is replaced. *)
Definition os_rename (src dst : str) : IO unit := fun fs =>
  match fs !! src with
  | Some content => (Ok tt, <[dst := content]> (delete src fs))
  | None =>
      (Raise (IOError (lit "[Errno 2] No such file or directory: " ++ quoted src
                         ++ lit " -> " ++ quoted dst)), fs)
  end.

(** [float(n)] for an integer [n] that is not negative and below
    [2 ** 1024], as an integer: the nearest number with 53 significant
    bits, ties going to the even one. *)
Definition float_of_int (n : Z) : Z :=
  let e := Z.log2 n - 52 in
  if e <=? 0 then n
  else
    let q := n / 2 ^ e in
    let r := n mod 2 ^ e in
    let half := 2 ^ (e - 1) in
    (if (half <? r) || ((r =? half) && Z.odd q) then q + 1 else q) * 2 ^ e.

(** [float(size) / (2. ** 20) > max_mb], for an integer [max_mb]: the
    division by a power of two is exact, and Python compares a float and
    an integer by their values. *)
Definition exceeds (size max_mb : Z) : bool := max_mb * 2 ^ 20 <? float_of_int size.

Section Writing.
Context (W : Writers).

(** [os.path.getsize(path)] *)
Definition getsize (path : str) : IO Z := fun fs =>
  match fs !! path with
  | Some content => (Ok (file_bytes W content), fs)
  | None => (Raise (no_such_file path), fs)
  end.

Definition write_pandas (filename : str) (df : DataFrame) (fileindex : Z) (mode : str)
    (header : bool) : IO unit :=
  let '(base, ext) := splitext filename in
  io_lift (check_filetype filename (Some PANDAS_EXTS));;
  (if str_eqb ext (lit ".csv") then to_csv W filename df (lit ",") mode header
   else mret tt);;
  (if str_eqb ext (lit ".tab") then to_csv W filename df (lit " ") mode header
   else mret tt);;
  (if str_eqb ext (lit ".h5") then to_hdf W filename df mode header
   else mret tt).

(** [Exception("Illegal write mode!")] is carried by [LibError]. *)
Definition write_fitsio (filename : str) (df : DataFrame) (desc : list descriptor)
    (fileindex : Z) (mode : str) : IO unit :=
  io_lift (check_filetype filename (Some FITS_EXTS));;
  arr ← io_lift (np_recarray W desc df);
  if str_eqb mode (lit "w") then
    there ← path_exists filename;
    (if there : bool then os_remove filename else mret tt);;
    fitsio_write W filename arr
  else if str_eqb mode (lit "a") then
    fitsio_append W filename arr
  else
    let msg := lit "Illegal write mode!" in
    io_raise (LibError msg).

(** The block [if mode == 'a'] of [write_file]: the index, the file to
    write to, the mode and the header flag that it leaves. *)
Definition write_file_append (filename base ext : str) (fileindex : Z) (max_mb : Z)
  : IO (Z * str * str * option bool) :=
  let thisfile := if fileindex =? 1 then filename
                  else indexed_name base ext fileindex in
  size ← getsize thisfile;
  if exceeds size max_mb then
    (if fileindex =? 1 then
       let lastfile := indexed_name base ext fileindex in
       os_rename filename lastfile
     else mret tt);;
    let fileindex := fileindex + 1 in
    let thisfile := indexed_name base ext fileindex in
    mret (fileindex, thisfile, lit "w", Some true)
  else
    mret (fileindex, thisfile, lit "a", Some false).

(** The end of [write_file]: the writer that goes with the extension. *)
Definition write_file_dispatch (ext fileout : str) (data : DataFrame)
    (desc : list descriptor) (fileindex : Z) (mode : str) (header : option bool)
  : IO unit :=
  (if str_in ext PANDAS_EXTS then
     header ← io_local "header" header;
     write_pandas fileout data fileindex mode header
   else mret tt);;
  (if str_in ext FITS_EXTS then write_fitsio fileout data desc fileindex mode
   else mret tt).

Definition write_file (filename : str) (data : DataFrame) (desc : list descriptor)
    (fileindex : Z) (mode : str) (max_mb : Z) : IO Z :=
  let '(base, ext) := splitext filename in
  io_lift (check_filetype filename (Some FILE_EXTS));;
  let fileout := filename in
  let header := if str_eqb mode (lit "w") then Some true else None in
  '(fileindex, fileout, mode, header) ←
    (if str_eqb mode (lit "a") then write_file_append filename base ext fileindex max_mb
     else mret (fileindex, fileout, mode, header));
  write_file_dispatch ext fileout data desc fileindex mode header;;
  mret fileindex.

End Writing.

(** *** Words for the properties *)

(** Writers that write: mode ['w'] leaves the one block in the file, mode
    ['a'] adds the block at the end of a file that exists. *)
Definition writes_files (W : Writers) : Prop :=
  (forall f df sep h (fs : FS),
     to_csv W f df sep (lit "w") h fs = (Ok tt, <[f := [CsvText df sep h]]> fs)) /\
  (forall f df sep h (fs : FS) c,
     fs !! f = Some c ->
     to_csv W f df sep (lit "a") h fs = (Ok tt, <[f := c ++ [CsvText df sep h]]> fs)) /\
  (forall f df h (fs : FS),
     to_hdf W f df (lit "w") h fs = (Ok tt, <[f := [HdfData df h]]> fs)) /\
  (forall f df h (fs : FS) c,
     fs !! f = Some c ->
     to_hdf W f df (lit "a") h fs = (Ok tt, <[f := c ++ [HdfData df h]]> fs)) /\
  (forall f arr (fs : FS),
     fitsio_write W f arr fs = (Ok tt, <[f := [FitsRows arr]]> fs)) /\
  (forall f arr (fs : FS) c,
     fs !! f = Some c ->
     fitsio_append W f arr fs = (Ok tt, <[f := c ++ [FitsRows arr]]> fs)).

(** The block that a call of [write_file] leaves for a file with the
    extension [ext]. *)
Definition written (W : Writers) (ext : str) (data : DataFrame) (desc : list descriptor)
    (header : bool) : option block :=
  if str_eqb ext (lit ".csv") then Some (CsvText data (lit ",") header)
  else if str_eqb ext (lit ".tab") then Some (CsvText data (lit " ") header)
  else if str_eqb ext (lit ".h5") then Some (HdfData data header)
  else if str_eqb ext (lit ".fits") then
    match np_recarray W desc data with
    | Ok arr => Some (FitsRows arr)
    | Raise _ => None
    end
  else None.

(** The file of the series of [filename] that has the number [k]. *)
Definition numbered (filename : str) (k : Z) : str :=
  indexed_name (splitext filename).1 (splitext filename).2 k.

(** The file that receives the data when the index is [fileindex]. *)
Definition current_file (filename : str) (fileindex : Z) : str :=
  if fileindex =? 1 then filename else numbered filename fileindex.

(** Everything that the files of a series hold when the index is
    [fileindex]: the content of [filename] while the index is 1, and then
    the contents of the files numbered 1 to [fileindex], in this order. *)
Definition output (filename : str) (fileindex : Z) (fs : FS) : list block :=
  if fileindex =? 1 then default [] (fs !! filename)
  else concat (map (fun k => default [] (fs !! numbered filename k)) (seqZ 1 fileindex)).

(** The number that a string of digits writes. *)
Definition digits_value (s : str) : Z :=
  fold_left (fun acc c => 10 * acc + (Z.of_N c - 48)) s 0.

(** Writers for the examples: the files are written, a block counts for a
    million bytes, and the record array takes the rows of the frame. *)
Definition sample_writers : Writers :=
  {| to_csv := fun f df sep mode h fs =>
       if str_eqb mode (lit "w") then (Ok tt, <[f := [CsvText df sep h]]> fs)
       else (Ok tt, <[f := default [] (fs !! f) ++ [CsvText df sep h]]> fs);
     to_hdf := fun f df mode h fs =>
       if str_eqb mode (lit "w") then (Ok tt, <[f := [HdfData df h]]> fs)
       else (Ok tt, <[f := default [] (fs !! f) ++ [HdfData df h]]> fs);
     np_recarray := fun desc df =>
       Ok {| ra_names := map d_name desc; ra_rows := df_values df |};
     fitsio_write := fun f arr fs => (Ok tt, <[f := [FitsRows arr]]> fs);
     fitsio_append := fun f arr fs =>
       (Ok tt, <[f := default [] (fs !! f) ++ [FitsRows arr]]> fs);
     file_bytes := fun content => 1000000 * len content |}.

End FileioWrite.

(** ** [easyaccess/eautils/dbdo_utils.py]: the import of the module *)

Module DesFile.

(** What [os.stat] tells about a file: its mode (type and permission
    bits), and whether [os.chmod] is permitted on it (the file belongs to
    the user, or the user is root). *)
Record inode := { st_mode : Z; owned : bool }.

(** The process and its surroundings: the environment variables, the
    files by their paths, and the lines printed so far. *)
Record host := {
  environ : gmap str str;
  files : gmap str inode;
  stdout : list str
}.

(** [os.path.join(a, b)] of [posixpath] *)
Definition os_path_join (a b : str) : str :=
  if startswith [OsPath.sep] b then b
  else if str_eqb a [] || str_eqb (slice_from a (-1)) [OsPath.sep] then a ++ b
  else a ++ [OsPath.sep] ++ b.

(** [stat.S_IMODE(mode)]: [mode & 0o7777] *)
Definition S_IMODE (mode : Z) : Z := Z.land mode 4095.

(** [os.chmod(path, mode)]: the permission bits of the file are replaced,
    its type bits stay. *)
Definition os_chmod (path : str) (mode : Z) (h : host) : result unit * host :=
  match files h !! path with
  | None =>
      (Raise (IOError (lit "[Errno 2] No such file or directory: " ++ Fileio.quoted path)), h)
  | Some f =>
      if owned f then
        (Ok tt,
         {| environ := environ h;
            files := <[path := {| st_mode := Z.lor (Z.ldiff (st_mode f) 4095)
                                                   (Z.land mode 4095);
                                  owned := owned f |}]> (files h);
            stdout := stdout h |})
      else
        (Raise (IOError (lit "[Errno 1] Operation not permitted: " ++ Fileio.quoted path)), h)
  end.

Definition print (text : str) (h : host) : host :=
  {| environ := environ h; files := files h; stdout := stdout h ++ [text] |}.

(** Lines 13 to 15: the path of the desservices file.  [os.path.join]
    raises [TypeError] when [HOME] is not set. *)
Definition desfile_path (env : gmap str str) : result str :=
  let desfile := env !! lit "DES_SERVICES" in
  match desfile with
  | Some (c :: rest) => Ok (c :: rest)
  | _ =>
      match env !! lit "HOME" with
      | Some home => Ok (os_path_join home (lit ".desservices.ini"))
      | None => Raise TypeError
      end
  end.

(** Lines 13 to 20, which run when the module is imported: the value of
    [desfile], and the host as the block leaves it. *)
Definition import_module (h : host) : result str * host :=
  match desfile_path (environ h) with
  | Raise e => (Raise e, h)
  | Ok desfile =>
      match files h !! desfile with
      | Some f =>
          let amode := S_IMODE (st_mode f) in
          if negb (amode =? 2 ^ 8 + 2 ^ 7) then
            let h := print (lit "Changing permissions to des_service file to read/write by user") h in
            match os_chmod desfile (2 ^ 8 + 2 ^ 7) h with
            | (Ok _, h) => (Ok desfile, h)
            | (Raise e, h) => (Raise e, h)
            end
          else (Ok desfile, h)
      | None => (Ok desfile, h)
      end
  end.

(** A host for the examples: the desservices file of [alice] is a regular
    file that everybody can read ([0o100644]). *)
Definition sample_host : host :=
  {| environ := {[ lit "HOME" := lit "/home/alice" ]};
     files := {[ lit "/home/alice/.desservices.ini" := {| st_mode := 33188; owned := true |} ]};
     stdout := [] |}.

End DesFile.

(** ** [easyaccess/eautils/dbdo_utils.py]: more commands of [DB_Func] *)

Module DbCommands.
Import OsPath Fileio DbDo.

(** What [parse_args] returns for the parsers of [do_load_table] and
    [do_append_table]: the positional [filename] and the options
    [--tablename], [--chunksize], [--memsize] and [--help]. *)
Record load_args := {
  a_filename : str;
  a_tablename : option str;
  a_chunksize : option Z;
  a_memsize : option Z;
  a_help : bool
}.

(** A value in a row that [query_results] returns: [None], or a value by
    what [str] makes of it. *)
Abbreviation value := (option str).

(** More of the code that is outside of these two files:
    - [parse_args] of the [KeyParser] that the two load commands build
      with the same arguments; [Ok None] is a parser that leaves with
      [SystemExit];
    - [eafile.get_filename] and [eafile.get_chunksize];
    - [self.get_tablename_tuple], which returns schema, table and link;
    - [self.query_results], the rows of a query;
    - [colored(text, color, self.ct)] as a string;
    - what [self.query_and_print] returns for a query, when it returns.
    What these calls print is not part of the model. *)
Record Shell := {
  parse_args : list str -> result (option load_args);
  get_filename : str -> result (option str);
  get_chunksize : option str -> Z -> result Z;
  get_tablename_tuple : str -> result (str * str * option str);
  query_results : str -> result (list (list value));
  colored : str -> str -> bool -> str;
  returned_df : str -> option DataFrame
}.

(** [l[i]] for an index that is not negative. *)
Definition getitem {A} (l : list A) (i : nat) : result A :=
  match l !! i with
  | Some a => Ok a
  | None => Raise IndexError
  end.

(** ['%s' % v] *)
Definition format_value (v : value) : str :=
  match v with
  | Some s => s
  | None => lit "None"
  end.

Section Commands.
Context (E : Env) (Sh : Shell).

(** *** [do_find_user]

    The call of [query_and_print] is recorded with its query; the flags
    [print_time] and [clear] are not part of the event. *)

Definition do_find_user (line : str) : M unit :=
  if str_eqb line [] then emit (EvHelp (lit "find_user"))
  else
    let line := join (lit " ") (split_ws line) in
    let keys := split_ws line in
    s ← get_self;
    let query : option str := None in
    let query := if str_in (dbname s) [lit "dessci"; lit "desoper"]
                 then Some (lit "select * from des_users where ") else query in
    let query := if contains (dbname s) (lit "destest")
                 then Some (lit "select * from dba_users where ") else query in
    query ← (if 1 <=? len keys then
               q ← local "query" query;
               k ← lift (getitem keys 0);
               let q := q ++ (lit "upper(firstname) like upper('" ++ k ++ lit "') or ") in
               k ← lift (getitem keys 0);
               let q := q ++ (lit "upper(lastname) like upper('" ++ k ++ lit "') or ") in
               k ← lift (getitem keys 0);
               let q := q ++ (lit "upper(username) like upper ('" ++ k ++ lit "')") in
               mret (Some q)
             else mret query);
    query ← local "query" query;
    emit (EvQueryAndPrint query None None None);;
    lift (query_and_print E query).

(** *** [do_describe_table] *)

(** [link] with ["@"] in front, or the empty string when [link] is empty
    or [None]. *)
Definition link_suffix (link : option str) : str :=
  match link with
  | Some (c :: rest) => lit "@" ++ c :: rest
  | _ => []
  end.

(** The body of the first [try] block: schema, table, link and the
    comment of the table. *)
Definition table_comment (tablename : str) : result (str * str * str * value) :=
  '(schema, table, link) ← get_tablename_tuple Sh tablename;
  let link := link_suffix link in
  let qcom := nl
    ++ lit "            select comments from all_tab_comments" ++ link ++ lit " atc" ++ nl
    ++ lit "            where atc.table_name = '" ++ table ++ lit "'" in
  rows ← query_results Sh qcom;
  first ← getitem rows 0;
  comment_table ← getitem first 0;
  Ok (schema, table, link, comment_table).

(** The body of the second [try] block, for a materialized view. *)
Definition mview_comment (tablename : str) : result (str * str * str * value) :=
  '(schema, table, link) ← get_tablename_tuple Sh tablename;
  let link := link_suffix link in
  let qcom := nl
    ++ lit "                select comments from all_mview_comments" ++ link ++ lit " atc" ++ nl
    ++ lit "                where atc.mview_name = '" ++ table ++ lit "'" in
  rows ← query_results Sh qcom;
  first ← getitem rows 0;
  comment_table ← getitem first 0;
  Ok (schema, table, link, comment_table).

(** The third [try] block: the number of rows, as a string. *)
Definition numrows (schema table : str) : str :=
  let qnum := nl
    ++ lit "            select to_char(num_rows) from all_tables where" ++ nl
    ++ lit "            table_name='" ++ table ++ lit "' and  owner = '" ++ schema ++ lit "' " in
  match (rows ← query_results Sh qnum;
         first ← getitem rows 0;
         getitem first 0) with
  | Ok (Some numrows_table) => numrows_table
  | Ok None => lit "Not available"
  | Raise _ => lit "Not available"
  end.

(** The query for the columns; [like] is the line that selects the
    columns of a pattern. *)
Definition columns_query (schema table link like : str) : str :=
  nl
  ++ lit "            select atc.column_name, atc.data_type," ++ nl
  ++ lit "            case atc.data_type" ++ nl
  ++ lit "            when 'NUMBER' then '(' || atc.data_precision || ',' || atc.data_scale || ')'" ++ nl
  ++ lit "            when 'VARCHAR2' then atc.CHAR_LENGTH || ' characters'" ++ nl
  ++ lit "            else atc.data_length || ''  end as DATA_FORMAT," ++ nl
  ++ lit "            acc.comments" ++ nl
  ++ lit "            from all_tab_cols" ++ link ++ lit " atc , all_col_comments" ++ link ++ lit " acc" ++ nl
  ++ lit "            where atc.owner = '" ++ schema ++ lit "' and atc.table_name = '" ++ table ++ lit "'" ++ nl
  ++ lit "            and acc.owner = '" ++ schema ++ lit "' and acc.table_name = '" ++ table ++ lit "'" ++ nl
  ++ lit "            and acc.column_name = atc.column_name" ++ nl
  ++ like
  ++ lit "            order by atc.column_name" ++ nl
  ++ lit "            ".

(** Lines 214 to 219: the second word replaces the argument [extra], and
    the word after [with] is the pattern. *)
Definition describe_words (arg : str) (extra : option str) : option str * option str :=
  let pattern : option str := None in
  match getitem (split_ws arg) 1 with
  | Raise _ => (extra, pattern)
  | Ok extra =>
      if str_eqb (upper E extra) (lit "WITH") then
        match getitem (split_ws arg) 2 with
        | Raise _ => (Some extra, pattern)
        | Ok word => (Some extra, Some (upper E word))
        end
      else (Some extra, pattern)
  end.

Definition err_msg : str :=
  lit "Table does not exist or it is not accessible by user or pattern do not match".

(** The argument [clear] is handed on to [query_and_print] and is not part
    of the event. *)
Definition do_describe_table (arg : str) (clear : bool) (extra : option str)
    (return_df : bool) : M (option DataFrame) :=
  if str_eqb arg [] then emit (EvHelp (lit "describe_table"));; mret None
  else
    let arg := remove_char 59%N arg in
    let arg := join (lit " ") (split_ws arg) in
    tablename ← lift (getitem (split_ws arg) 0);
    let tablename := upper E tablename in
    let '(extra, pattern) := describe_words arg extra in
    match rtry (table_comment tablename) (fun _ => mview_comment tablename) with
    | Raise _ =>
        print_colored (lit "Table not found.") (lit "red");;
        mret None
    | Ok (schema, table, link, comment_table) =>
        let numrows_table := numrows schema table in
        s ← get_self;
        let '(comm, q) :=
          match pattern with
          | Some (c :: rest) =>
              let pattern := c :: rest in
              let comm := lit "Description of %(table)s with " in
              let comm := comm ++ (lit "pattern " ++ pattern ++ lit " commented as: '"
                                     ++ format_value comment_table ++ lit "'") in
              let comm := comm ++ (nl ++ lit "Estimated number of rows:"
                                     ++ colored Sh (lit " " ++ numrows_table) (lit "green") (ct s)) in
              (comm,
               columns_query schema table link
                 (lit "            and atc.column_name like '" ++ pattern ++ lit "'" ++ nl))
          | _ =>
              let comm := lit "Description of " ++ table ++ lit " commented as: '"
                            ++ format_value comment_table ++ lit "'" in
              let comm := comm ++ (nl ++ lit "Estimated number of rows:"
                                     ++ colored Sh (lit " " ++ numrows_table) (lit "green") (ct s)) in
              (comm, columns_query schema table link [])
          end in
        let extra := match extra with None => comm | Some extra => extra end in
        emit (EvQueryAndPrint q (Some extra) None (Some err_msg));;
        lift (query_and_print E q);;
        let df := returned_df Sh q in
        if return_df then mret df else mret None
    end.

(** *** [do_find_tables] and [do_find_tables_with_column] *)



(** *** [do_load_table] and [do_append_table], from their first line *)

Definition invalid_chars : list str := [lit "-"; lit "$"; lit "~"; lit "@"; lit "*"].

(** [any((char in invalid_chars) for char in s)] *)
Definition any_invalid (s : str) : bool :=
  existsb (fun char => str_in [char] invalid_chars) s.

(** The loop [for obj in [table, name]], with the report of a file name
    that cannot name a table: [false] when the command has returned. *)
Fixpoint check_names (report : M unit) (filename : option str) (objs : list (option str))
  : M bool :=
  match objs with
  | [] => mret true
  | obj :: rest =>
      match obj with
      | None =>
          chars ← lift (match filename with
                        | Some f => Ok f
                        | None => Raise TypeError
                        end);
          if any_invalid chars then report;; mret false
          else check_names report filename rest
      | Some obj =>
          if any_invalid obj then
            print_colored (nl ++ lit "Invalid table name" ++ nl) (lit "red");;
            mret false
          else check_names report filename rest
      end
  end.

(** Lines 401 to 412 (and 595 to 606): the number of rows of a chunk. *)
Definition resolve_chunk (filename : option str) (args : load_args)
    (chunksize memsize : option Z) : result (option Z) :=
  let chunk := a_chunksize args in
  let memchunk := a_memsize args in
  let chunk := match chunksize with Some c => Some c | None => chunk end in
  let memchunk := match memsize with Some m => Some m | None => memchunk end in
  match memchunk with
  | Some memchunk =>
      memchunk_rows ← get_chunksize Sh filename memchunk;
      match chunk with
      | Some chunk => Ok (Some (Z.min chunk memchunk_rows))
      | None => Ok (Some memchunk_rows)
      end
  | None => Ok chunk
  end.

(** [do_load_table(line, name, chunksize, memsize)]: lines 365 to 412,
    and then the rest of the command, which is [do_load_table] above. *)
Definition do_load_table_line (fuel : nat) (line : str) (name : option str)
    (chunksize memsize : option Z) : M unit :=
  let line := remove_char 59%N line in
  r ← lift (parse_args Sh (split_ws line));
  match r with
  | None => emit (EvHelp (lit "load_table"))
  | Some load_args =>
      if a_help load_args then emit (EvHelp (lit "load_table"))
      else
        filename ← lift (get_filename Sh (a_filename load_args));
        let table := a_tablename load_args in
        go_on ← check_names
                  (print [];;
                   print_colored (lit "Invalid table name, change filename or use --tablename"
                                    ++ nl) (lit "red"))
                  filename [table; name];
        if go_on : bool then
          chunk ← lift (resolve_chunk filename load_args chunksize memsize);
          do_load_table E fuel filename table name chunk
        else mret tt
  end.

(** [do_append_table(line, name, chunksize, memsize)]: lines 560 to 606,
    and then [do_append_table] above. *)
Definition do_append_table_line (fuel : nat) (line : str) (name : option str)
    (chunksize memsize : option Z) : M unit :=
  let line := remove_char 59%N line in
  r ← lift (parse_args Sh (split_ws line));
  match r with
  | None => emit (EvHelp (lit "append_table"))
  | Some append_args =>
      if a_help append_args then emit (EvHelp (lit "append_table"))
      else
        filename ← lift (get_filename Sh (a_filename append_args));
        let table := a_tablename append_args in
        go_on ← check_names
                  (print_colored (nl ++ lit "Invalid table name, change filename or use --tablename"
                                    ++ nl) (lit "red"))
                  filename [table; name];
        if go_on : bool then
          chunk ← lift (resolve_chunk filename append_args chunksize memsize);
          do_append_table E fuel filename table name chunk
        else mret tt
  end.

(** *** [do_add_comment] *)

(** [comm[0] == "'"], and then [comm[1:-1]] *)
Definition unquote (comm : str) : result str :=
  c ← getitem comm 0;
  if N.eqb c 39%N then Ok (slice comm 1 (-1)) else Ok comm.

(** In the message for a column without a table, the code formats the
    coloured text ([colored(..) % col]); the model puts the name into the
    text that is coloured. *)
Definition do_add_comment (line : str) : M unit :=
  let line := join (lit " ") (split_ws line) in
  let keys := split_ws line in
  let oneline := join [] keys in
  if -1 <? find_sub (lit "table") oneline then
    if len keys =? 1 then
      print_colored (nl ++ lit "Missing table name" ++ nl) (lit "red")
    else
      table ← lift (getitem keys 1);
      if len keys =? 2 then
        print_colored (nl ++ lit "Missing comment for table " ++ table ++ nl) (lit "red")
      else
        let comm := join (lit " ") (slice_from keys 2) in
        comm ← lift (unquote comm);
        let qcom := lit "comment on table " ++ table ++ lit " is '" ++ comm ++ lit "'" in
        let message := lit "Comment added to table: " ++ table in
        emit (EvQueryAndPrint qcom None (Some message) None);;
        lift (query_and_print E qcom)
  else if -1 <? find_sub (lit "column") oneline then
    if len keys =? 1 then
      print_colored (nl ++ lit "Missing column name (TABLE.COLUMN)" ++ nl) (lit "red")
    else
      col ← lift (getitem keys 1);
      if len keys =? 2 then
        print_colored (nl ++ lit "Missing comment for column " ++ col ++ nl) (lit "red")
      else if (2 <? len keys) && (find 46%N col =? -1) then
        print_colored (nl ++ lit "Missing column name for table " ++ col ++ nl) (lit "red")
      else
        let comm := join (lit " ") (slice_from keys 2) in
        comm ← lift (unquote comm);
        let qcom := lit "comment on column  " ++ col ++ lit " is '" ++ comm ++ lit "'" in
        column ← lift (getitem (split_on 46%N col) 1);
        table ← lift (getitem (split_on 46%N col) 0);
        let message := lit "Comment added to column: " ++ column ++ lit " in table " ++ table in
        emit (EvQueryAndPrint qcom None (Some message) None);;
        lift (query_and_print E qcom)
  else
    print_colored (nl ++ lit "Missing arguments" ++ nl) (lit "red");;
    emit (EvHelp (lit "add_comment")).

End Commands.

(** *** Words for the properties *)

(** The command sends [query] with [query_and_print] and ends as that
    call ends. *)
Definition query_sent (E : Env) (query : str) (extra suc_arg err_arg : option str)
    (w : world) : outcome unit * world :=
  (match query_and_print E query with
   | Ok _ => Return tt
   | Raise e => Raised e
   end,
   with_events w [EvQueryAndPrint query extra suc_arg err_arg]).

(** The comment that the words of a line make: the words with one space
    between them, without the first and the last character when the first
    one is a quote. *)
Definition comment_text (words : list str) : str :=
  let comm := join (lit " ") words in
  if startswith (lit "'") comm then slice comm 1 (-1) else comm.

(** *** Samples *)

(** A shell whose parser reads [FILE] and [FILE --tablename NAME], whose
    files exist, and whose data dictionary knows no table. *)
Definition sample_shell : Shell :=
  {| parse_args := fun words =>
       match words with
       | [f] => Ok (Some {| a_filename := f; a_tablename := None; a_chunksize := None;
                            a_memsize := None; a_help := false |})
       | [f; o; t] =>
           if str_eqb o (lit "--tablename")
           then Ok (Some {| a_filename := f; a_tablename := Some t; a_chunksize := None;
                            a_memsize := None; a_help := false |})
           else Ok None
       | _ => Ok None
       end;
     get_filename := fun f => Ok (Some f);
     get_chunksize := fun _ _ => Ok 1000;
     get_tablename_tuple := fun _ => Raise (LibError (lit "ORA-00942"));
     query_results := fun _ => Ok [];
     colored := fun text _ _ => text;
     returned_df := fun _ => None |}.

(** A shell in which [get_filename] finds no file. *)
Definition missing_file_shell : Shell :=
  {| parse_args := parse_args sample_shell;
     get_filename := fun _ => Ok None;
     get_chunksize := get_chunksize sample_shell;
     get_tablename_tuple := get_tablename_tuple sample_shell;
     query_results := query_results sample_shell;
     colored := colored sample_shell;
     returned_df := returned_df sample_shell |}.

(** A shell whose data dictionary knows every table, in the schema
    [DES_ADMIN], with a comment and a number of rows. *)
Definition catalog_shell : Shell :=
  {| parse_args := parse_args sample_shell;
     get_filename := get_filename sample_shell;
     get_chunksize := get_chunksize sample_shell;
     get_tablename_tuple := fun t => Ok (lit "DES_ADMIN", t, None);
     query_results := fun _ => Ok [[Some (lit "42")]];
     colored := colored sample_shell;
     returned_df := returned_df sample_shell |}.

(** The database refuses every statement. *)
Definition refusing_env : Env :=
  {| getpass := getpass sample_env;
     alnum_beyond := alnum_beyond sample_env;
     parse_float := parse_float sample_env;
     upper := upper sample_env;
     cx_connect := cx_connect sample_env;
     con_close := con_close sample_env;
     callproc := callproc sample_env;
     query_and_print := fun _ => Raise (LibError (lit "ORA-01031: insufficient privileges"));
     write_desconfig := write_desconfig sample_env;
     check_table_exists := check_table_exists sample_env;
     read_file := DbDo.read_file sample_env;
     get_dtypes := get_dtypes sample_env;
     create_table := create_table sample_env;
     insert_data := insert_data sample_env;
     drop_table := drop_table sample_env |}.

End DbCommands.

(** * Properties *)

Import OsPath Fileio.

(** ** Slices *)

Lemma clamp_range n i : 0 <= n -> 0 <= clamp n i <= n.
Proof. unfold clamp. intros. destruct (i <? 0); lia. Qed.

Lemma clamp_id n i : 0 <= i <= n -> clamp n i = i.
Proof. unfold clamp. intros. destruct (i <? 0) eqn:H1; lia. Qed.

Lemma len_nonneg {A} (s : list A) : 0 <= len s.
Proof. unfold len. lia. Qed.

Lemma len_app {A} (s t : list A) : len (s ++ t) = len s + len t.
Proof. unfold len. rewrite length_app. lia. Qed.

Lemma slice_inside {A} (s : list A) a b :
  0 <= a <= b -> b <= len s ->
  slice s a b = take (Z.to_nat (b - a)) (drop (Z.to_nat a) s).
Proof.
  intros Ha Hb. unfold slice. rewrite !clamp_id by lia. reflexivity.
Qed.

Lemma slice_to_app {A} (s t : list A) : slice_to (s ++ t) (len s) = s.
Proof.
  unfold slice_to. rewrite slice_inside.
  - replace (Z.to_nat (len s - 0)) with (length s) by (unfold len; lia).
    simpl. apply take_app_length.
  - pose proof (len_nonneg s). lia.
  - rewrite len_app. pose proof (len_nonneg t). lia.
Qed.

Lemma slice_from_app {A} (s t : list A) : slice_from (s ++ t) (len s) = t.
Proof.
  unfold slice_from. rewrite slice_inside.
  - rewrite len_app.
    replace (Z.to_nat (len s + len t - len s)) with (length t) by (unfold len; lia).
    replace (Z.to_nat (len s)) with (length s) by (unfold len; lia).
    rewrite drop_app_length. apply firstn_all.
  - rewrite len_app. pose proof (len_nonneg s). pose proof (len_nonneg t). lia.
  - lia.
Qed.

Lemma slice_to_zero {A} (s : list A) : slice_to s 0 = [].
Proof.
  unfold slice_to, slice. pose proof (len_nonneg s).
  rewrite clamp_id by lia. simpl. reflexivity.
Qed.

Lemma slice_one (s : str) i :
  0 <= i ->
  slice s i (i + 1) = match s !! Z.to_nat i with Some x => [x] | None => [] end.
Proof.
  intros Hi. unfold slice. pose proof (len_nonneg s) as Hn.
  destruct (Z_lt_ge_dec i (len s)) as [Hlt | Hge].
  - rewrite !clamp_id by lia.
    replace (Z.to_nat (i + 1 - i)) with 1%nat by lia.
    destruct (s !! Z.to_nat i) eqn:Hx.
    + apply take_drop_middle in Hx as Hs.
      rewrite <- Hs at 1.
      rewrite drop_app_length'. 2:{ rewrite length_take. apply lookup_lt_Some in Hx. lia. }
      reflexivity.
    + apply lookup_ge_None in Hx. unfold len in Hlt. lia.
  - assert (clamp (len s) i = len s) as -> by (unfold clamp; destruct (i <? 0) eqn:?; lia).
    assert (clamp (len s) (i + 1) = len s) as -> by (unfold clamp; destruct (i + 1 <? 0) eqn:?; lia).
    rewrite Z.sub_diag. simpl.
    destruct (s !! Z.to_nat i) eqn:Hx; [|reflexivity].
    apply lookup_lt_Some in Hx. unfold len in Hge. lia.
Qed.

(** ** [rfind] *)

Lemma rfind_from_app c s t i last :
  rfind_from c (s ++ t) i last = rfind_from c t (i + len s) (rfind_from c s i last).
Proof.
  revert i last. induction s as [|x s IH]; intros i last; simpl.
  - unfold len. simpl. f_equal. lia.
  - rewrite IH. f_equal. unfold len. simpl length. lia.
Qed.

Lemma rfind_from_absent c s i last :
  c ∉ s -> rfind_from c s i last = last.
Proof.
  revert i last. induction s as [|x s IH]; intros i last Hc; simpl; [reflexivity|].
  apply not_elem_of_cons in Hc as [Hx Hs].
  rewrite IH by assumption.
  destruct (N.eqb_spec x c); congruence.
Qed.

Lemma rfind_from_range c s i last :
  rfind_from c s i last = last \/ i <= rfind_from c s i last < i + len s.
Proof.
  revert i last. induction s as [|x s IH]; intros i last; simpl; [left; reflexivity|].
  assert (len (x :: s) = 1 + len s) as -> by (unfold len; simpl length; lia).
  pose proof (len_nonneg s).
  destruct (IH (i + 1) (if N.eqb x c then i else last)) as [-> | Hr].
  - destruct (N.eqb x c); [right; lia | left; reflexivity].
  - right. lia.
Qed.

Lemma rfind_range c s : -1 <= rfind c s < len s.
Proof.
  unfold rfind. pose proof (len_nonneg s).
  destruct (rfind_from_range c s 0 (-1)) as [-> | Hr]; lia.
Qed.

Lemma rfind_app_absent c s t : c ∉ t -> rfind c (s ++ t) = rfind c s.
Proof.
  intros Hc. unfold rfind. rewrite rfind_from_app.
  apply rfind_from_absent, Hc.
Qed.

Lemma rfind_last_occurrence c s t : c ∉ t -> rfind c (s ++ c :: t) = len s.
Proof.
  intros Hc. unfold rfind. rewrite rfind_from_app. simpl.
  rewrite N.eqb_refl. rewrite rfind_from_absent by assumption. lia.
Qed.

(** ** [splitext] *)

Lemma splitext_scan_finds p dotIndex n i0 :
  0 <= i0 -> i0 + Z.of_nat n = dotIndex ->
  (exists i x, i0 <= i < dotIndex /\ p !! Z.to_nat i = Some x /\ x <> extsep) ->
  splitext_scan p dotIndex n i0 = Some (slice_to p dotIndex, slice_from p dotIndex).
Proof.
  revert i0. induction n as [|n IH]; intros i0 H0 Hn (i & x & Hi & Hx & Hne).
  - lia.
  - simpl. rewrite slice_one by assumption.
    destruct (p !! Z.to_nat i0) as [y|] eqn:Hy.
    + unfold str_eqb. case_bool_decide as Hd; simpl; [|reflexivity].
      injection Hd as ->.
      apply IH; [lia | lia |].
      exists i, x. split; [|auto].
      assert (i <> i0) by (intros ->; congruence). lia.
    + reflexivity.
Qed.

Lemma splitext_scan_result p dotIndex n i0 r :
  splitext_scan p dotIndex n i0 = Some r ->
  r = (slice_to p dotIndex, slice_from p dotIndex).
Proof.
  revert i0. induction n as [|n IH]; intros i0; simpl; [discriminate|].
  destruct (negb _); [congruence | apply IH].
Qed.

(** The two shapes of a result of [splitext]. *)
Lemma splitext_cases p :
  splitext p = (p, []) \/
  (0 <= rfind extsep p < len p /\
   splitext p = (slice_to p (rfind extsep p), slice_from p (rfind extsep p))).
Proof.
  unfold splitext. pose proof (rfind_range sep p). pose proof (rfind_range extsep p).
  rewrite slice_to_zero.
  destruct (rfind sep p <? rfind extsep p) eqn:Hlt; [|left; reflexivity].
  destruct (splitext_scan _ _ _ _) as [r|] eqn:Hs; [|left; reflexivity].
  apply splitext_scan_result in Hs as ->. apply Z.ltb_lt in Hlt.
  right. split; [lia | reflexivity].
Qed.

Lemma slice_from_nonempty {A} (s : list A) i :
  0 <= i < len s -> slice_from s i <> [].
Proof.
  intros Hi. unfold slice_from. rewrite slice_inside by lia.
  intros Hnil. apply (f_equal length) in Hnil.
  rewrite length_take, length_drop in Hnil. simpl in Hnil. unfold len in *. lia.
Qed.

(** When [splitext] finds no extension, its first component is the whole
    name. *)
Lemma splitext_no_ext p : (splitext p).2 = [] -> (splitext p).1 = p.
Proof.
  destruct (splitext_cases p) as [-> | [Hr ->]]; simpl; [reflexivity|].
  intros Hnil. exfalso. eapply slice_from_nonempty; eauto.
Qed.

(** A name [stem ++ "." ++ e] whose last component has a character other
    than a dot before the extension splits into [stem] and ["." ++ e]. *)
Lemma splitext_stem_ext pre x post e :
  x <> extsep -> x <> sep -> sep ∉ post -> sep ∉ e -> extsep ∉ e ->
  splitext ((pre ++ x :: post) ++ extsep :: e) = (pre ++ x :: post, extsep :: e).
Proof.
  intros Hx1 Hx2 Hpost Hse He.
  set (stem := pre ++ x :: post).
  assert (Hdot : rfind extsep (stem ++ extsep :: e) = len stem)
    by (apply rfind_last_occurrence, He).
  assert (Hsep : rfind sep (stem ++ extsep :: e) = rfind sep pre).
  { rewrite rfind_app_absent.
    - unfold stem. apply rfind_app_absent.
      apply not_elem_of_cons. split; [congruence | assumption].
    - apply not_elem_of_cons. split; [|assumption]. discriminate. }
  unfold splitext. rewrite Hdot, Hsep.
  pose proof (rfind_range sep pre) as Hr.
  assert (Hlen : len stem = len pre + 1 + len post).
  { unfold stem. rewrite len_app. unfold len. simpl length. lia. }
  pose proof (len_nonneg post). pose proof (len_nonneg pre).
  assert ((rfind sep pre <? len stem) = true) as -> by (apply Z.ltb_lt; lia).
  rewrite (splitext_scan_finds _ _ _ _).
  - rewrite slice_to_app, slice_from_app. reflexivity.
  - lia.
  - lia.
  - exists (len pre), x. split; [lia|]. split; [|assumption].
    unfold stem, len. rewrite Nat2Z.id. rewrite <- app_assoc. simpl.
    apply list_lookup_middle. reflexivity.
Qed.

(** ** [check_filetype] *)

Lemma str_eqb_true a b : str_eqb a b = true <-> a = b.
Proof. unfold str_eqb. apply bool_decide_eq_true. Qed.

Lemma str_in_true x xs : str_in x xs = true <-> x ∈ xs.
Proof. unfold str_in. apply bool_decide_eq_true. Qed.

Lemma str_in_false x xs : str_in x xs = false <-> x ∉ xs.
Proof. unfold str_in. apply bool_decide_eq_false. Qed.

(** [check_filetype] looks at the extension or, without one, at the whole
    name, and at nothing else. *)
Lemma check_filetype_eq filename types :
  check_filetype filename types =
  let types := match types with None => FILE_EXTS | Some t => t end in
  if str_in (extension_or_name filename) types then Ok true
  else Raise (IOError (unrecognized_filetype (extension_or_name filename) (Some types))).
Proof.
  unfold check_filetype, extension_or_name, extension.
  pose proof (splitext_no_ext filename) as Hno.
  destruct (splitext filename) as [base ext]. simpl in *.
  destruct (str_eqb ext []) eqn:He.
  - apply str_eqb_true in He. rewrite (Hno He).
    destruct (str_in filename _); reflexivity.
  - destruct (str_in ext _); reflexivity.
Qed.

(** An extension of the tables is its own extension-or-name. *)
Lemma extension_or_name_supported e :
  e ∈ supported_extensions -> extension_or_name e = e.
Proof.
  intros He. unfold supported_extensions in He.
  repeat (apply elem_of_cons in He as [-> | He]; [vm_compute; reflexivity|]).
  by apply elem_of_nil in He.
Qed.

Lemma extension_or_name_of_extension filename :
  extension filename <> [] -> extension_or_name filename = extension filename.
Proof.
  intros Hne. unfold extension_or_name.
  destruct (str_eqb (extension filename) []) eqn:He; [|reflexivity].
  apply str_eqb_true in He. contradiction.
Qed.

Lemma pandas_exts_supported e : e ∈ PANDAS_EXTS -> e ∈ supported_extensions.
Proof.
  unfold PANDAS_EXTS, supported_extensions. intros He.
  repeat (apply elem_of_cons in He as [-> | He]; [by repeat constructor|]).
  by apply elem_of_nil in He.
Qed.

Lemma fits_exts_supported e : e ∈ FITS_EXTS -> e ∈ supported_extensions.
Proof.
  unfold FITS_EXTS, supported_extensions. intros He.
  apply list_elem_of_singleton in He as ->. by repeat constructor.
Qed.

Lemma supported_nonempty e : e ∈ supported_extensions -> e <> [].
Proof.
  unfold supported_extensions. intros He.
  repeat (apply elem_of_cons in He as [-> | He]; [discriminate|]).
  by apply elem_of_nil in He.
Qed.

Lemma read_file_dispatch R filename :
  extension filename ∈ supported_extensions ->
  read_file R filename =
  if str_in (extension filename) PANDAS_EXTS then read_pandas R filename
  else read_fitsio R filename.
Proof.
  intros He. unfold read_file, extension in *.
  destruct (splitext filename) as [base ext]. simpl in *.
  rewrite check_filetype_eq. simpl.
  rewrite (extension_or_name_supported _ He).
  assert (Hin : str_in ext FILE_EXTS = true) by (apply str_in_true; exact He).
  rewrite Hin. simpl.
  destruct (str_in ext PANDAS_EXTS) eqn:Hp; [reflexivity|].
  assert (Hf : str_in ext FITS_EXTS = true).
  { apply str_in_true. apply str_in_false in Hp.
    unfold supported_extensions, PANDAS_EXTS, FITS_EXTS in *.
    repeat (apply elem_of_cons in He as [-> | He];
            [try (exfalso; apply Hp; by repeat constructor); by repeat constructor|]).
    by apply elem_of_nil in He. }
  rewrite Hf. reflexivity.
Qed.

(** C1: [check_filetype] returns [True] for every file name whose
    extension (or, when the name has no extension, the name itself) is one
    of ['.csv'], ['.tab'], ['.h5'], ['.fits'], and raises [IOError] for
    every other one; [FILE_EXTS] is exactly these four, the first three
    read by the pandas path and ['.fits'] by the fitsio path. *)
Theorem check_filetype_supported_extensions :
  FILE_EXTS = [lit ".csv"; lit ".tab"; lit ".h5"; lit ".fits"] /\
  PANDAS_EXTS = [lit ".csv"; lit ".tab"; lit ".h5"] /\
  FITS_EXTS = [lit ".fits"] /\
  (forall filename,
     extension_or_name filename ∈ [lit ".csv"; lit ".tab"; lit ".h5"; lit ".fits"] ->
     check_filetype filename None = Ok true) /\
  (forall filename,
     extension_or_name filename ∉ [lit ".csv"; lit ".tab"; lit ".h5"; lit ".fits"] ->
     exists msg, check_filetype filename None = Raise (IOError msg)) /\
  (forall R filename,
     extension filename ∈ [lit ".csv"; lit ".tab"; lit ".h5"] ->
     read_file R filename = read_pandas R filename) /\
  (forall R filename,
     extension filename = lit ".fits" ->
     read_file R filename = read_fitsio R filename).
Proof.
  split; [reflexivity|]. split; [reflexivity|]. split; [reflexivity|].
  split; [|split; [|split]].
  - intros filename He. rewrite check_filetype_eq. simpl.
    apply (str_in_true _ FILE_EXTS) in He. rewrite He. reflexivity.
  - intros filename He. rewrite check_filetype_eq. simpl.
    apply (str_in_false _ FILE_EXTS) in He. rewrite He. eauto.
  - intros R filename He.
    rewrite read_file_dispatch by (apply pandas_exts_supported, He).
    apply (str_in_true _ PANDAS_EXTS) in He. rewrite He. reflexivity.
  - intros R filename He.
    rewrite read_file_dispatch by (rewrite He; by repeat constructor).
    rewrite He. reflexivity.
Qed.

Lemma check_filetype_supported_extensions_witness :
  check_filetype (lit "y1a1_coadd.fits") None = Ok true /\
  (exists msg, check_filetype (lit "y1a1_coadd.txt") None = Raise (IOError msg)) /\
  read_file sample_readers (lit "cat/y1a1.tab") = read_pandas sample_readers (lit "cat/y1a1.tab").
Proof.
  destruct check_filetype_supported_extensions as (_ & _ & _ & Hok & Hbad & Hpd & _).
  split; [|split].
  - apply Hok. apply str_in_true. vm_compute. reflexivity.
  - apply Hbad. apply str_in_false. vm_compute. reflexivity.
  - apply Hpd. apply str_in_true. vm_compute. reflexivity.
Defined.

Lemma lower_supported e : e ∈ supported_extensions -> lower e = e.
Proof.
  unfold supported_extensions. intros He.
  repeat (apply elem_of_cons in He as [-> | He]; [reflexivity|]).
  by apply elem_of_nil in He.
Qed.

(** The supported extensions are a dot and then neither dot nor slash. *)
Lemma supported_tail e :
  extsep :: e ∈ supported_extensions -> (sep ∉ e) /\ (extsep ∉ e).
Proof.
  unfold supported_extensions. intros He.
  repeat (apply elem_of_cons in He as [He | He];
          [vm_compute in He; injection He as ->;
           split; (intros Hin;
                   repeat (apply elem_of_cons in Hin as [Hin | Hin]; [discriminate Hin|]);
                   by apply elem_of_nil in Hin)|]).
  by apply elem_of_nil in He.
Qed.

(** A name whose last component has a character that is not a dot before
    a supported extension is accepted. *)
Lemma check_filetype_stem_ext pre x post e :
  x <> extsep -> x <> sep -> sep ∉ post ->
  extsep :: e ∈ supported_extensions ->
  check_filetype ((pre ++ x :: post) ++ extsep :: e) None = Ok true.
Proof.
  intros Hx1 Hx2 Hpost He.
  destruct (supported_tail e He) as [Hs Hd].
  rewrite check_filetype_eq. simpl.
  unfold extension_or_name, extension.
  rewrite splitext_stem_ext by assumption. simpl.
  apply (str_in_true _ FILE_EXTS) in He. rewrite He. reflexivity.
Qed.

(** C10: the match of the extension in [check_filetype] is case
    sensitive: a file name whose extension differs from a supported one
    only in the case of its letters is refused with [IOError]. *)
Theorem check_filetype_case_sensitive filename e :
  e ∈ supported_extensions ->
  differs_only_in_case (extension_or_name filename) e ->
  exists msg, check_filetype filename None = Raise (IOError msg).
Proof.
  intros He [Hne Hlow].
  rewrite check_filetype_eq. simpl.
  destruct (str_in (extension_or_name filename) FILE_EXTS) eqn:Hin; [|eauto].
  exfalso. apply str_in_true in Hin. apply Hne.
  rewrite <- (lower_supported _ Hin), Hlow. apply lower_supported, He.
Qed.

Lemma check_filetype_case_sensitive_witness :
  exists msg, check_filetype (lit "y1a1_coadd.FITS") None = Raise (IOError msg).
Proof.
  apply (check_filetype_case_sensitive (lit "y1a1_coadd.FITS") (lit ".fits")).
  - apply str_in_true. vm_compute. reflexivity.
  - split; [|vm_compute; reflexivity].
    apply (proj1 (bool_decide_eq_false _)). vm_compute. reflexivity.
Defined.

Example check_filetype_upper_csv :
  check_filetype (lit ".CSV") None
  = Raise (IOError (lit "Unrecognized file type: '.CSV'" ++ nl
                      ++ lit "Supported filetypes:" ++ nl
                      ++ lit " '.csv', '.tab', '.h5', '.fits'")).
Proof. vm_compute. reflexivity. Qed.

(** ** [read_file] *)

Lemma load_global_pd : load_global (lit "pd") = Raise (NameError (lit "pd")).
Proof. reflexivity. Qed.

(** [read_pandas] never reaches a reader: the name [pd] is unbound, and the
    bare [except] turns the [NameError] into an [IOError]. *)
Lemma read_pandas_raises R filename :
  extension filename ∈ PANDAS_EXTS ->
  read_pandas R filename = Raise (IOError (lit "Problem reading " ++ filename ++ nl)).
Proof.
  intros He. unfold read_pandas.
  assert (Heon : extension_or_name filename = extension filename).
  { apply extension_or_name_of_extension, supported_nonempty, pandas_exts_supported, He. }
  rewrite check_filetype_eq. simpl. rewrite Heon.
  unfold extension in *. destruct (splitext filename) as [base ext]. simpl in *.
  apply (str_in_true _ PANDAS_EXTS) in He as Hin. rewrite Hin. simpl.
  unfold PANDAS_EXTS in He.
  repeat (apply elem_of_cons in He as [-> | He]; [reflexivity|]).
  by apply elem_of_nil in He.
Qed.

(** C2, where the code departs from it: for every file name with a pandas
    extension ['.csv'], ['.tab'] or ['.h5'], [read_file] returns no object
    at all.  [read_pandas] evaluates [pd], a name that the module never
    binds, and its bare [except] reports the [NameError] as
    [IOError('Problem reading ...')]. *)
Theorem read_file_pandas_extension_raises R filename :
  extension filename ∈ [lit ".csv"; lit ".tab"; lit ".h5"] ->
  read_file R filename = Raise (IOError (lit "Problem reading " ++ filename ++ nl)).
Proof.
  intros He.
  rewrite read_file_dispatch by (apply pandas_exts_supported, He).
  apply (str_in_true _ PANDAS_EXTS) in He as Hin. rewrite Hin.
  apply read_pandas_raises, He.
Qed.

Lemma read_file_pandas_extension_raises_witness :
  read_file sample_readers (lit "example.csv")
  = Raise (IOError (lit "Problem reading example.csv" ++ nl)).
Proof.
  apply (read_file_pandas_extension_raises sample_readers (lit "example.csv")).
  apply str_in_true. vm_compute. reflexivity.
Defined.

(** The FITS path does return the common interface: the column names, the
    rows, and one dtype for each column. *)
Lemma read_file_fits_interface R filename f h0 columns rows rest :
  extension filename = lit ".fits" ->
  fitsio_FITS R filename = Ok f ->
  hdus f = h0 :: TableHDU columns rows :: rest ->
  exists data,
    read_file R filename = Ok data /\
    ea_get_columns data = map fst columns /\
    ea_get_values data = rows /\
    ea_get_dtypes data = map snd columns /\
    length (ea_get_dtypes data) = length (ea_get_columns data).
Proof.
  intros He Hf Hh.
  assert (Hs : extension filename ∈ supported_extensions)
    by (rewrite He; by repeat constructor).
  rewrite read_file_dispatch by assumption. rewrite He. simpl.
  unfold read_fitsio. rewrite check_filetype_eq. simpl.
  rewrite extension_or_name_of_extension by (rewrite He; discriminate).
  rewrite He. simpl. rewrite Hf. simpl.
  unfold fits_getitem. rewrite Hh. simpl.
  eexists. split; [reflexivity|]. simpl.
  rewrite !length_map. auto.
Qed.

Import DbDo.

(** ** The parse of [do_execproc] *)

Lemma join_empty_concat (parts : list str) : join [] parts = concat parts.
Proof.
  induction parts as [|p [|q rest] IH]; simpl in *.
  - reflexivity.
  - rewrite app_nil_r. reflexivity.
  - rewrite IH. reflexivity.
Qed.

Lemma split_ws_go_concat cur s :
  concat (split_ws_go cur s) = cur ++ List.filter (fun c => negb (isspace c)) s.
Proof.
  revert cur. induction s as [|x r IH]; intros cur; simpl.
  - destruct cur; simpl; rewrite ?app_nil_r; reflexivity.
  - destruct (isspace x); simpl.
    + destruct cur; simpl; rewrite IH; reflexivity.
    + rewrite IH, <- app_assoc. reflexivity.
Qed.

(** ["".join(line.split())] is the line without its whitespace. *)
Lemma join_split_ws s :
  join [] (split_ws s) = List.filter (fun c => negb (isspace c)) s.
Proof. rewrite join_empty_concat. apply split_ws_go_concat. Qed.

Lemma filter_filter_and {A} (f g : A -> bool) l :
  List.filter g (List.filter f l) = List.filter (fun x => f x && g x) l.
Proof.
  induction l as [|x l IH]; simpl; [reflexivity|].
  destruct (f x); simpl; [destruct (g x)|]; rewrite IH; reflexivity.
Qed.

Lemma clean_line line :
  join [] (split_ws (remove_char 59%N line)) = cleaned line.
Proof. rewrite join_split_ws. apply filter_filter_and. Qed.


Lemma find_from_before c s i :
  c ∈ s -> find_from c s i = i + len (before c s).
Proof.
  revert i. induction s as [|x r IH]; intros i Hin.
  - by apply elem_of_nil in Hin.
  - simpl. destruct (N.eqb_spec x c) as [->|Hne].
    + unfold len. simpl. lia.
    + apply elem_of_cons in Hin as [-> | Hin]; [contradiction|].
      rewrite IH by assumption. unfold len. simpl length. lia.
Qed.



(** [s.index(c)] is the length of the text before the first [c]. *)
Lemma index_before c s : c ∈ s -> index c s = Ok (len (before c s)).
Proof.
  intros Hin. unfold index, find. rewrite find_from_before by assumption.
  pose proof (len_nonneg (before c s)).
  destruct (0 + len (before c s) <? 0) eqn:Hlt; [apply Z.ltb_lt in Hlt; lia|].
  f_equal.
Qed.


(** [a[1:-1]] drops the first and the last character. *)
Lemma slice_strip_ends (a : str) : slice a 1 (-1) = strip_ends a.
Proof.
  unfold strip_ends. destruct a as [|x r]; [reflexivity|].
  simpl tail. unfold slice.
  assert (Hl : len (x :: r) = len r + 1) by (unfold len; simpl length; lia).
  pose proof (len_nonneg r) as Hr. rewrite Hl.
  assert (clamp (len r + 1) 1 = 1) as -> by (apply clamp_id; lia).
  assert (clamp (len r + 1) (-1) = len r) as -> by (unfold clamp; simpl; lia).
  replace (Z.to_nat 1) with 1%nat by lia. simpl drop.
  replace (Z.to_nat (len r - 1)) with (length r - 1)%nat by (unfold len; lia).
  clear. induction r as [|y r IH]; [reflexivity|].
  destruct r as [|z r]; [reflexivity|].
  simpl length in *. simpl removelast in *.
  replace (S (S (length r)) - 1)%nat with (S (length r)) by lia.
  simpl take. f_equal. rewrite <- IH. f_equal. lia.
Qed.




Example do_execproc_parse_example :
  execproc_parse sample_env (lit "myproc('a b', 10, x);")
  = Ok (lit "myproc('ab',10,x)", lit "myproc",
        [ArgStr (lit "ab"); ArgFloat {| float_bits := 4621819117588971520 |};
         ArgStr (lit "x")]).
Proof. vm_compute. reflexivity. Qed.

(** ** Words of a line *)

Lemma split_ws_go_word cur w s :
  Forall (fun c => isspace c = false) w ->
  split_ws_go cur (w ++ s) = split_ws_go (cur ++ w) s.
Proof.
  revert cur. induction w as [|c w IH]; intros cur Hw; simpl.
  - rewrite app_nil_r. reflexivity.
  - inversion Hw as [|? ? Hc Hw']; subst. rewrite Hc.
    rewrite IH by assumption. rewrite <- app_assoc. reflexivity.
Qed.

Lemma split_ws_go_words cur s :
  Forall (fun c => isspace c = false) cur ->
  Forall is_word (split_ws_go cur s).
Proof.
  revert cur. induction s as [|x r IH]; intros cur Hcur; simpl.
  - destruct cur; constructor; [|constructor]. split; [discriminate | assumption].
  - destruct (isspace x) eqn:Hx.
    + destruct cur; [apply IH; constructor|].
      constructor; [split; [discriminate | assumption]|]. apply IH. constructor.
    + apply IH. apply Forall_app. split; [assumption|]. repeat constructor. exact Hx.
Qed.

Lemma split_ws_words s : Forall is_word (split_ws s).
Proof. apply split_ws_go_words. constructor. Qed.

(** Splitting the words joined by single spaces gives the words back. *)
Lemma split_ws_join ws :
  Forall is_word ws -> split_ws (join (lit " ") ws) = ws.
Proof.
  unfold split_ws. induction 1 as [|w ws [Hne Hw] Hws IH]; [reflexivity|].
  destruct ws as [|w' ws'].
  - simpl. rewrite <- (app_nil_r w) at 1.
    rewrite split_ws_go_word by assumption. simpl.
    destruct w; [contradiction | reflexivity].
  - change (join (lit " ") (w :: w' :: ws'))
      with (w ++ 32%N :: join (lit " ") (w' :: ws')).
    rewrite split_ws_go_word by assumption. simpl app.
    cbn [split_ws_go]. change (isspace 32%N) with true. cbv iota.
    destruct w; [contradiction|]. rewrite IH. reflexivity.
Qed.

(** [" ".join(line.split()).split()] is [line.split()]. *)
Lemma split_ws_normalized line :
  split_ws (join (lit " ") (split_ws line)) = split_ws line.
Proof. apply split_ws_join, split_ws_words. Qed.

(** ** [do_change_db] *)

#[local] Opaque lit.

Ltac run :=
  unfold mbind, M_bind, mret, M_ret, try_except, print, print_colored, emit,
    get_self, modify_self, get_db, run_db, lift, raise, os_exit, out_of_fuel; simpl.

Lemma first_word_nonempty line key :
  head (split_ws line) = Some key -> str_eqb line [] = false.
Proof.
  intros Hk. apply bool_decide_eq_false. intros ->. discriminate.
Qed.

(** The command up to the choice of the database: a line whose first word
    is a known name other than the current one sets [self.dbname] and
    goes on to the lookup. *)
Lemma do_change_db_known E line key w :
  head (split_ws line) = Some key ->
  key ∈ database_names ->
  key <> dbname (self w) ->
  do_change_db E line w =
  let w1 := with_self w (set_dbname key (self w)) in
  match change_db_lookup w1 with
  | (Raised _, w2) =>
      (Return tt, with_events w2 [EvPrintColored (not_in_desservices_message key) (lit "red")])
  | (Return _, w2) =>
      let s2 := set_dsn {| dsn_host := dbhost (self w2); dsn_port := port (self w2);
                            dsn_service := service_name (self w2) |} (self w2) in
      let w3 := with_events (with_self w2 s2)
                  ((if negb (quiet s2)
                    then [EvPrint (lit "Connecting to DB ** " ++ dbname s2 ++ lit " ** ...")]
                    else []) ++ [EvClose (con s2)]) in
      match con_close E (con s2) with
      | Raise e => (Raised e, w3)
      | Ok _ =>
          let closed := {| con_user := con_user (con s2); con_dsn := con_dsn (con s2);
                           con_autocommit := con_autocommit (con s2);
                           con_closed := true |} in
          match change_db_connect E (seq 0 1) (with_self w3 (set_con closed s2)) with
          | (Return true, w4) =>
              (Return tt,
               with_events
                 (with_self w4 (set_cur {| cur_con := con (self w4);
                                           arraysize := prefetch (self w4) |} (self w4)))
                 [EvPrint [];
                  EvPrint (lit "Run refresh_metadata_cache to reload the auto-completion metatada");
                  EvSetMessages])
          | (Return false, w4) =>
              (Exited 0, with_events w4 [EvPrint could_not_connect_message])
          | (Raised e, w4) => (Raised e, w4)
          | (Exited c, w4) => (Exited c, w4)
          | (OutOfFuel, w4) => (OutOfFuel, w4)
          end
      end
  | (Exited c, w2) => (Exited c, w2)
  | (OutOfFuel, w2) => (OutOfFuel, w2)
  end.
Proof.
  intros Hk Hin Hne. unfold do_change_db.
  remember (change_db_connect E (seq 0 1)) as connect eqn:Hconnect. clear Hconnect.
  rewrite (first_word_nonempty _ _ Hk), split_ws_normalized.
  destruct (split_ws line) as [|k rest]; [discriminate|]. injection Hk as ->.
  apply (str_in_true _ database_names) in Hin. unfold database_names in Hin.
  run. rewrite Hin.
  assert (str_eqb key (dbname (self w)) = false) as ->
      by (apply bool_decide_eq_false; exact Hne).
  unfold with_self, with_events. simpl.
  destruct (change_db_lookup _) as [[[]| | |] w2]; simpl; try reflexivity.
  destruct (quiet (self w2)); simpl.
  - destruct (con_close E (con (self w2))); simpl; [|reflexivity].
    destruct (connect _) as [[[|]| | |] w4]; simpl; try reflexivity.
    rewrite <- !app_assoc. reflexivity.
  - destruct (con_close E (con (self w2))); simpl; [|rewrite <- !app_assoc; reflexivity].
    rewrite <- !app_assoc. simpl.
    destruct (connect _) as [[[|]| | |] w4]; simpl; try reflexivity.
    rewrite <- !app_assoc. reflexivity.
Qed.

(** The lookup touches neither the trace nor the database, and it ends by
    returning or by raising. *)
Lemma change_db_lookup_cases w :
  exists o s, change_db_lookup w = (o, with_self w s) /\
              con s = con (self w) /\ dbname s = dbname (self w) /\
              (o = Return tt \/ exists e, o = Raised e).
Proof.
  destruct w as [s0 d t]. unfold change_db_lookup, with_self. run.
  repeat (match goal with
          | |- context [config_get ?c ?a ?b] => destruct (config_get c a b); simpl
          end);
    eexists _, _; (split; [reflexivity|]); simpl; eauto.
Qed.

Lemma change_db_lookup_no_section w :
  desconfig (self w) !! (lit "db-" ++ dbname (self w)) = None ->
  change_db_lookup w = (Raised (LibError (lit "NoSectionError")), w).
Proof.
  intros Hnone. unfold change_db_lookup. run. unfold config_get.
  rewrite Hnone. reflexivity.
Qed.

(** [range(1)] is one attempt: a connection, or the report of the error,
    the announcement of a retry, and five seconds of sleep. *)
Lemma change_db_connect_once E w :
  change_db_connect E (seq 0 1) w =
  let s := self w in
  match cx_connect E (user s) (password s) (dsn s) with
  | Ok _ =>
      (Return true,
       with_events
         (with_self w (set_con {| con_user := user s; con_dsn := dsn s;
                                  con_autocommit := autocommit s;
                                  con_closed := false |} s))
         [EvConnect (user s) (password s) (dsn s)])
  | Raise e =>
      (Return false,
       with_events w
         [EvConnect (user s) (password s) (dsn s);
          EvPrintColored (lit "Error when trying to connect to database: "
                            ++ strip (exn_str e)) (lit "red");
          EvPrint (nl ++ lit "   Retrying..." ++ nl);
          EvSleep 5])
  end.
Proof.
  unfold with_self, with_events. simpl. run.
  destruct (cx_connect E _ _ _); simpl; [reflexivity|].
  rewrite <- !app_assoc. reflexivity.
Qed.

(** C8: [do_change_db] is not atomic on error.  Called with a valid name
    other than the current one whose section is missing from the
    desservices configuration, it reports the error and returns, but
    [self.dbname] is already the new name, while the connection (still
    open), the cursor, the user and the password are those of the old
    database. *)
Theorem do_change_db_not_atomic E line key w :
  head (split_ws line) = Some key ->
  key ∈ database_names ->
  key <> dbname (self w) ->
  desconfig (self w) !! (lit "db-" ++ key) = None ->
  let r := do_change_db E line w in
  r.1 = Return tt /\
  trace r.2 = trace w ++ [EvPrintColored (not_in_desservices_message key) (lit "red")] /\
  dbname (self r.2) = key /\
  dbname (self r.2) <> dbname (self w) /\
  con (self r.2) = con (self w) /\
  cur (self r.2) = cur (self w) /\
  user (self r.2) = user (self w) /\
  password (self r.2) = password (self w).
Proof.
  intros Hk Hin Hne Hnone. simpl.
  rewrite (do_change_db_known E line key w Hk Hin Hne). simpl.
  rewrite change_db_lookup_no_section by exact Hnone. simpl.
  repeat split; try reflexivity. exact Hne.
Qed.

Lemma connects_after_close_app closed evs1 evs2 :
  connect_attempts evs1 = [] ->
  connects_after_close closed (evs1 ++ evs2)
  = connects_after_close (closed || existsb (fun e => match e with EvClose _ => true | _ => false end) evs1) evs2.
Proof.
  revert closed. induction evs1 as [|e evs1 IH]; intros closed Hno; simpl.
  - rewrite orb_false_r. reflexivity.
  - unfold connect_attempts in *. simpl in Hno.
    destruct e; simpl in *; try discriminate; rewrite IH by assumption;
      try reflexivity.
    + rewrite orb_true_r. reflexivity.
Qed.

(** C4: called with a valid name other than the current one,
    [do_change_db] makes at most one attempt to connect to the new
    database, only after closing the existing connection, and when that
    attempt fails it reports that it could not connect (and ends the
    process). *)
Theorem do_change_db_single_attempt E line key w :
  head (split_ws line) = Some key ->
  key ∈ database_names ->
  key <> dbname (self w) ->
  exists evs,
    trace (do_change_db E line w).2 = trace w ++ evs /\
    (length (connect_attempts evs) <= 1)%nat /\
    connects_after_close false evs = true /\
    (forall u p d,
       EvConnect u p d ∈ evs ->
       cx_connect E u p d <> Ok tt ->
       EvPrint could_not_connect_message ∈ evs /\
       (do_change_db E line w).1 = Exited 0).
Proof.
  intros Hk Hin Hne.
  rewrite (do_change_db_known E line key w Hk Hin Hne). cbv zeta.
  destruct (change_db_lookup_cases (with_self w (set_dbname key (self w))))
    as (o & s2 & -> & _ & _ & [-> | [e ->]]).
  2:{ eexists. split; [reflexivity|]. simpl.
      split; [lia|]. split; [reflexivity|].
      intros u p d Hc. apply list_elem_of_singleton in Hc. discriminate. }
  simpl self.
  set (s3 := set_dsn _ s2).
  set (pre := (if negb (quiet s3) then _ else []) ++ [EvClose (con s3)]).
  assert (Hpre : connect_attempts pre = [])
    by (unfold pre; destruct (quiet s3); reflexivity).
  assert (Hclosed : existsb (fun e => match e with EvClose _ => true | _ => false end) pre = true)
    by (unfold pre; destruct (quiet s3); reflexivity).
  assert (Hnot : forall u p d, EvConnect u p d ∉ pre).
  { intros u p d Hc. unfold pre in Hc. destruct (quiet s3); simpl in Hc;
      repeat (apply elem_of_cons in Hc as [Hc | Hc]; [discriminate Hc|]);
      by apply elem_of_nil in Hc. }
  destruct (con_close E (con s3)) as [[]|e].
  2:{ exists pre. split; [reflexivity|]. rewrite Hpre.
      split; [simpl; lia|]. split.
      - rewrite <- (app_nil_r pre), connects_after_close_app by assumption. reflexivity.
      - intros u p d Hc. exfalso. exact (Hnot u p d Hc). }
  rewrite change_db_connect_once. cbv zeta.
  destruct (cx_connect E _ _ _) as [[]|e] eqn:Hconn.
  - eexists (pre ++ [EvConnect _ _ _; _; _; _]). split.
    + simpl. rewrite <- !app_assoc. reflexivity.
    + unfold connect_attempts in *. rewrite List.filter_app, Hpre. simpl.
      split; [lia|]. split.
      * rewrite connects_after_close_app by assumption. rewrite Hclosed. reflexivity.
      * intros u p d Hc Hfail. exfalso.
        apply elem_of_app in Hc as [Hc | Hc]; [exact (Hnot u p d Hc)|].
        repeat (apply elem_of_cons in Hc as [Hc | Hc]; [try discriminate Hc|]);
          [|by apply elem_of_nil in Hc].
        injection Hc as -> -> ->. simpl in Hconn. congruence.
  - eexists (pre ++ [EvConnect _ _ _; _; _; _; _]). split.
    + simpl. rewrite <- !app_assoc. reflexivity.
    + unfold connect_attempts in *. rewrite List.filter_app, Hpre. simpl.
      split; [lia|]. split.
      * rewrite connects_after_close_app by assumption. rewrite Hclosed. reflexivity.
      * intros u p d Hc Hfail. split; [|reflexivity].
        apply elem_of_app. right. repeat constructor.
Qed.

Lemma do_change_db_single_attempt_witness :
  exists evs,
    trace (do_change_db unreachable_env (lit "desoper") sample_world).2
    = trace sample_world ++ evs /\
    (length (connect_attempts evs) <= 1)%nat /\
    connects_after_close false evs = true /\
    (forall u p d,
       EvConnect u p d ∈ evs ->
       cx_connect unreachable_env u p d <> Ok tt ->
       EvPrint could_not_connect_message ∈ evs /\
       (do_change_db unreachable_env (lit "desoper") sample_world).1 = Exited 0).
Proof.
  apply (do_change_db_single_attempt unreachable_env (lit "desoper") (lit "desoper")
           sample_world).
  - vm_compute. reflexivity.
  - apply str_in_true. vm_compute. reflexivity.
  - apply (proj1 (bool_decide_eq_false _)). vm_compute. reflexivity.
Defined.

Lemma do_change_db_not_atomic_witness :
  let r := do_change_db sample_env (lit "destest") sample_world in
  r.1 = Return tt /\
  trace r.2 = trace sample_world
                ++ [EvPrintColored (not_in_desservices_message (lit "destest")) (lit "red")] /\
  dbname (self r.2) = lit "destest" /\
  dbname (self r.2) <> dbname (self sample_world) /\
  con (self r.2) = con (self sample_world) /\
  cur (self r.2) = cur (self sample_world) /\
  user (self r.2) = user (self sample_world) /\
  password (self r.2) = password (self sample_world).
Proof.
  apply (do_change_db_not_atomic sample_env (lit "destest") (lit "destest") sample_world).
  - vm_compute. reflexivity.
  - apply str_in_true. vm_compute. reflexivity.
  - apply (proj1 (bool_decide_eq_false _)). vm_compute. reflexivity.
  - vm_compute. reflexivity.
Defined.


(** ** Commands that cannot end the process *)

Section NoExit.
Context {A B : Type}.

Lemma no_exit_ret (a : A) : no_exit (mret a).
Proof. intros w c. discriminate. Qed.

Lemma no_exit_raise (e : exn) : no_exit (raise e : M A).
Proof. intros w c. discriminate. Qed.

Lemma no_exit_out_of_fuel : no_exit (out_of_fuel : M A).
Proof. intros w c. discriminate. Qed.

Lemma no_exit_lift (r : result A) : no_exit (lift r).
Proof. intros w c. destruct r; discriminate. Qed.

Lemma no_exit_local name (v : option A) : no_exit (local name v).
Proof. intros w c. destruct v; discriminate. Qed.

Lemma no_exit_bind (m : M A) (k : A -> M B) :
  no_exit m -> (forall a, no_exit (k a)) -> no_exit (m ≫= k).
Proof.
  intros Hm Hk w c. unfold mbind, M_bind. specialize (Hm w).
  destruct (m w) as [[a| | |] w']; simpl in *; try discriminate.
  - apply Hk.
  - intros H. apply (Hm code). congruence.
Qed.

Lemma no_exit_try (m : M A) (h : exn -> M A) :
  no_exit m -> (forall e, no_exit (h e)) -> no_exit (try_except m h).
Proof.
  intros Hm Hh w c. unfold try_except. specialize (Hm w).
  destruct (m w) as [[a| | |] w']; simpl in *; try discriminate.
  - apply Hh.
  - intros H. apply (Hm code). congruence.
Qed.

End NoExit.

Lemma no_exit_emit e : no_exit (emit e).
Proof. intros w c. discriminate. Qed.

Lemma no_exit_get_self : no_exit get_self.
Proof. intros w c. discriminate. Qed.

Lemma no_exit_get_db : no_exit get_db.
Proof. intros w c. discriminate. Qed.

Lemma no_exit_modify_self f : no_exit (modify_self f).
Proof. intros w c. discriminate. Qed.

Lemma no_exit_run_db f : no_exit (run_db f).
Proof.
  intros w c. unfold run_db. destruct (f (db w)) as [[[]|e] d]; discriminate.
Qed.

Create HintDb no_exit.
#[local] Hint Resolve no_exit_ret no_exit_raise no_exit_out_of_fuel no_exit_lift
  no_exit_local no_exit_emit no_exit_get_self no_exit_get_db no_exit_modify_self
  no_exit_run_db : no_exit.

(** One step through the structure of a command. *)
Ltac no_exit_step :=
  match goal with
  | |- no_exit (mbind _ _) => apply no_exit_bind; [|intros]
  | |- no_exit (try_except _ _) => apply no_exit_try; [|intros]
  | |- no_exit (if ?b then _ else _) => destruct b
  | |- no_exit (match ?x with _ => _ end) => destruct x
  | |- no_exit _ => solve [auto with no_exit]
  end.

Ltac no_exit_all := repeat no_exit_step.


Lemma no_exit_call_insert_data E table columns values dtypes iteration :
  no_exit (call_insert_data E table columns values dtypes iteration).
Proof. unfold call_insert_data. no_exit_all. Qed.

Lemma no_exit_call_create_table E table columns dtypes :
  no_exit (call_create_table E table columns dtypes).
Proof. unfold call_create_table. no_exit_all. Qed.

Lemma no_exit_load_failed E table e : no_exit (load_failed E table e).
Proof. unfold load_failed, call_drop_table. no_exit_all. Qed.

Lemma no_exit_append_failed e : no_exit (append_failed e).
Proof. unfold append_failed. no_exit_all. Qed.

#[local] Hint Resolve no_exit_call_insert_data no_exit_call_create_table
  no_exit_load_failed no_exit_append_failed : no_exit.

Lemma no_exit_load_chunk E table iteration columns values dtypes :
  no_exit (load_chunk E table iteration columns values dtypes).
Proof. unfold load_chunk. no_exit_all. Qed.

Lemma no_exit_append_chunk E table iteration columns values dtypes :
  no_exit (append_chunk E table iteration columns values dtypes).
Proof. unfold append_chunk. no_exit_all. Qed.

Lemma no_exit_emit_all evs : no_exit (emit_all evs).
Proof. induction evs; simpl; no_exit_all. Qed.

#[local] Hint Resolve no_exit_load_chunk no_exit_append_chunk no_exit_emit_all : no_exit.

Lemma no_exit_load_pandas E fuel table iterator data iteration total_rows dtypes :
  no_exit (load_pandas E fuel table iterator data iteration total_rows dtypes).
Proof.
  revert data iteration total_rows dtypes.
  induction fuel as [|fuel IH]; intros; simpl; [auto with no_exit|].
  destruct (pandas_try _ _ _ _ _ _) as [[[[[[dt cols] vals] total]|]|e] data'];
    auto with no_exit.
  no_exit_all.
Qed.

Lemma no_exit_load_fits E fuel table f chunk start iteration total_rows dtypes columns :
  no_exit (load_fits E fuel table f chunk start iteration total_rows dtypes columns).
Proof.
  revert start iteration total_rows dtypes columns.
  induction fuel as [|fuel IH]; intros; simpl; [auto with no_exit|].
  destruct (fits_try _ _ _ _ _ _ _ _) as [[[[[dt cols] vals] total]|]|e];
    auto with no_exit.
  no_exit_all.
Qed.

Lemma no_exit_append_pandas E fuel table iterator data iteration total_rows dtypes :
  no_exit (append_pandas E fuel table iterator data iteration total_rows dtypes).
Proof.
  revert data iteration total_rows dtypes.
  induction fuel as [|fuel IH]; intros; simpl; [auto with no_exit|].
  destruct (pandas_try _ _ _ _ _ _) as [[[[[[dt cols] vals] total]|]|e] data'];
    auto with no_exit.
  no_exit_all.
Qed.

Lemma no_exit_append_fits E fuel table f chunk start iteration total_rows dtypes columns :
  no_exit (append_fits E fuel table f chunk start iteration total_rows dtypes columns).
Proof.
  revert start iteration total_rows dtypes columns.
  induction fuel as [|fuel IH]; intros; simpl; [auto with no_exit|].
  destruct (fits_try _ _ _ _ _ _ _ _) as [[[[[dt cols] vals] total]|]|e];
    auto with no_exit.
  no_exit_all.
Qed.

#[local] Hint Resolve no_exit_load_pandas no_exit_load_fits no_exit_append_pandas
  no_exit_append_fits : no_exit.




(** [do_set_password] always comes back to its caller. *)
Lemma do_set_password_returns E arg w : (do_set_password E arg w).1 = Return tt.
Proof.
  unfold do_set_password. run.
  destruct (search_nonword _ _); [reflexivity|].
  destruct (str_eqb _ []); [reflexivity|].
  destruct (negb _); [reflexivity|]. simpl.
  destruct (query_and_print E _); simpl; [|reflexivity].
  destruct (config_set _ _ _ _); simpl; [|reflexivity].
  destruct (write_desconfig E _) as [[]|]; reflexivity.
Qed.


(** A name that is not one of the three is refused with a message. *)
Lemma do_change_db_unknown E line key w :
  head (split_ws line) = Some key ->
  key ∉ database_names ->
  do_change_db E line w
  = (Return tt,
     with_events w [EvPrintColored (lit "DB " ++ key
                                      ++ lit " does not exist or you don't have access to it")
                                   (lit "red")]).
Proof.
  intros Hk Hin. unfold do_change_db.
  rewrite (first_word_nonempty _ _ Hk), split_ws_normalized.
  destruct (split_ws line) as [|k rest]; [discriminate|]. injection Hk as ->.
  apply (str_in_false _ database_names) in Hin. unfold database_names in Hin.
  run. rewrite Hin. reflexivity.
Qed.

(** The current database is not connected to again. *)
Lemma do_change_db_same E line key w :
  head (split_ws line) = Some key ->
  key ∈ database_names ->
  key = dbname (self w) ->
  do_change_db E line w
  = (Return tt,
     with_events w [EvPrintColored (lit "Already connected to : " ++ key) (lit "green")]).
Proof.
  intros Hk Hin Heq. unfold do_change_db.
  remember (change_db_connect E (seq 0 1)) as connect eqn:Hconnect. clear Hconnect.
  rewrite (first_word_nonempty _ _ Hk), split_ws_normalized.
  destruct (split_ws line) as [|k rest]; [discriminate|]. injection Hk as ->.
  apply (str_in_true _ database_names) in Hin. unfold database_names in Hin.
  run. rewrite Hin.
  assert (str_eqb key (dbname (self w)) = true) as ->
      by (apply bool_decide_eq_true; exact Heq).
  reflexivity.
Qed.


(** ** [do_set_password] *)

(** Among ASCII characters, [\W] matches exactly those outside
    [[A-Za-z0-9_]]. *)
Lemma nonword_ascii beyond c :
  (c < 128)%N -> nonword beyond c = negb (ascii_word c).
Proof.
  intros Hc. unfold nonword, isalnum, ascii_word.
  assert ((c <? 256)%N = true) as -> by (apply N.ltb_lt; lia).
  assert (bool_decide (c ∈ [170; 178; 179; 181; 185; 186; 188; 189; 190]%N) = false) as ->.
  { apply bool_decide_eq_false. intros Hin.
    repeat (apply elem_of_cons in Hin as [-> | Hin]; [lia|]).
    by apply elem_of_nil in Hin. }
  assert ((192 <=? c)%N = false) as -> by (apply N.leb_gt; lia).
  assert ((216 <=? c)%N = false) as -> by (apply N.leb_gt; lia).
  assert ((248 <=? c)%N = false) as -> by (apply N.leb_gt; lia).
  simpl. rewrite !orb_false_r. reflexivity.
Qed.

Lemma search_nonword_true beyond s :
  search_nonword beyond s = true <-> exists c, c ∈ s /\ nonword beyond c = true.
Proof.
  unfold search_nonword. rewrite existsb_exists.
  split; intros (c & Hc & Hn); exists c; (split; [|exact Hn]);
    by apply list_elem_of_In.
Qed.

Lemma search_nonword_false beyond s :
  search_nonword beyond s = false <-> forall c, c ∈ s -> nonword beyond c = false.
Proof.
  split.
  - intros Hs c Hc. destruct (nonword beyond c) eqn:Hn; [|reflexivity].
    assert (search_nonword beyond s = true) by (apply search_nonword_true; eauto).
    congruence.
  - intros Hall. destruct (search_nonword beyond s) eqn:Hs; [|reflexivity].
    apply search_nonword_true in Hs as (c & Hc & Hn). rewrite (Hall c Hc) in Hn.
    discriminate.
Qed.

(** The command, case by case. *)
Lemma do_set_password_eq E arg w :
  let pw1 := getpass E (lit "Enter new password:") in
  let pw2 := getpass E (lit "Re-Enter new password:") in
  let asked := [EvPrint []; EvGetpass (lit "Enter new password:")] in
  let asked_twice := asked ++ [EvGetpass (lit "Re-Enter new password:"); EvPrint []] in
  let query := lit "alter user " ++ user (self w) ++ lit " identified by "
                 ++ [34%N] ++ pw1 ++ [34%N] ++ lit "  " in
  let alter := EvQueryAndPrint query None
                 (Some (lit "Password changed in " ++ upper E (dbname (self w)))) None in
  let failed e := [EvPrintColored (lit "Password could not be changed in "
                                     ++ upper E (dbname (self w)) ++ nl) (lit "red");
                   EvPrintExcInfo e] in
  do_set_password E arg w =
  if search_nonword (alnum_beyond E) pw1 then
    (Return tt, with_events w (asked ++ [EvPrintColored whitespace_message (lit "red")]))
  else if str_eqb pw1 [] then
    (Return tt, with_events w (asked ++ [EvPrintColored (nl ++ lit "Password cannot be blank" ++ nl)
                                           (lit "red")]))
  else if negb (str_eqb pw1 pw2) then
    (Return tt, with_events w (asked_twice
                                 ++ [EvPrintColored (lit "Passwords don't match, not set" ++ nl)
                                       (lit "red")]))
  else
    match query_and_print E query with
    | Raise e => (Return tt, with_events w (asked_twice ++ alter :: failed e))
    | Ok _ =>
        match config_set (desconfig (self w)) (lit "db-" ++ dbname (self w))
                         (lit "passwd") pw1 with
        | Raise e => (Return tt, with_events w (asked_twice ++ alter :: failed e))
        | Ok c =>
            let w' := with_self w (set_desconfig c (self w)) in
            match write_desconfig E c with
            | Raise e =>
                (Return tt,
                 with_events w' (asked_twice ++ alter :: EvWriteDesconfig c :: failed e))
            | Ok _ =>
                (Return tt, with_events w' (asked_twice ++ [alter; EvWriteDesconfig c]))
            end
        end
    end.
Proof.
  cbv zeta. unfold do_set_password, with_events, with_self. run.
  destruct (search_nonword (alnum_beyond E) _); simpl;
    [rewrite <- !app_assoc; reflexivity|].
  destruct (str_eqb _ []); simpl; [rewrite <- !app_assoc; reflexivity|].
  destruct (negb (str_eqb _ _)); simpl; [rewrite <- !app_assoc; reflexivity|].
  destruct (query_and_print E _); simpl; [|rewrite <- !app_assoc; reflexivity].
  destruct (config_set _ _ _ _); simpl; [|rewrite <- !app_assoc; reflexivity].
  destruct (write_desconfig E _) as [[]|]; simpl; rewrite <- !app_assoc; reflexivity.
Qed.

(** C9, as the code has it: [do_set_password] changes the password and
    writes it to the configuration file only when the password is not
    empty, both entries match, and no character of it is matched by [\W],
    that is, every character is an underscore or alphanumeric in the sense
    of Unicode; among ASCII characters these are exactly [[A-Za-z0-9_]].
    A password with a character that [\W] matches (not only whitespace) is
    rejected with the message that it contains whitespace. *)
Theorem do_set_password_word_characters E arg w :
  let pw1 := getpass E (lit "Enter new password:") in
  let pw2 := getpass E (lit "Re-Enter new password:") in
  let r := do_set_password E arg w in
  (forall c, (c < 128)%N -> nonword (alnum_beyond E) c = negb (ascii_word c)) /\
  ((exists c, c ∈ pw1 /\ nonword (alnum_beyond E) c = true) ->
   r = (Return tt,
        with_events w [EvPrint []; EvGetpass (lit "Enter new password:");
                       EvPrintColored whitespace_message (lit "red")])) /\
  (exists evs,
     trace r.2 = trace w ++ evs /\
     (existsb changes_password evs = true \/ desconfig (self r.2) <> desconfig (self w) ->
      pw1 <> [] /\ pw1 = pw2 /\
      forall c, c ∈ pw1 -> nonword (alnum_beyond E) c = false)) /\
  (pw1 <> [] -> pw1 = pw2 ->
   (forall c, c ∈ pw1 -> nonword (alnum_beyond E) c = false) ->
   exists evs,
     trace r.2 = trace w
                   ++ [EvPrint []; EvGetpass (lit "Enter new password:");
                       EvGetpass (lit "Re-Enter new password:"); EvPrint [];
                       EvQueryAndPrint
                         (lit "alter user " ++ user (self w) ++ lit " identified by "
                            ++ [34%N] ++ pw1 ++ [34%N] ++ lit "  ")
                         None (Some (lit "Password changed in " ++ upper E (dbname (self w))))
                         None]
                   ++ evs).
Proof.
  intros pw1 pw2 r.
  split; [intros c Hc; apply nonword_ascii, Hc|].
  subst r. rewrite do_set_password_eq. fold pw1 pw2. cbv zeta.
  destruct (search_nonword (alnum_beyond E) pw1) eqn:Hs.
  { split; [intros _; reflexivity|]. split.
    - eexists. split; [reflexivity|].
      simpl. intros [Hc | Hc]; [discriminate | contradiction].
    - intros _ _ Hall. apply search_nonword_false in Hall. congruence. }
  pose proof (proj1 (search_nonword_false _ _) Hs) as Hall.
  split.
  { intros Hex. apply search_nonword_true in Hex. congruence. }
  destruct (str_eqb pw1 []) eqn:Hblank.
  { apply bool_decide_eq_true in Hblank. split.
    - eexists. split; [reflexivity|].
      simpl. intros [Hc | Hc]; [discriminate | contradiction].
    - intros Hne. contradiction. }
  apply bool_decide_eq_false in Hblank.
  destruct (str_eqb pw1 pw2) eqn:Hsame.
  2:{ apply bool_decide_eq_false in Hsame. simpl. split.
      - eexists. split; [reflexivity|].
        simpl. intros [Hc | Hc]; [discriminate | contradiction].
      - intros _ Heq. contradiction. }
  apply bool_decide_eq_true in Hsame. simpl negb. cbv iota.
  split.
  - destruct (query_and_print E _); [|eexists; split; [reflexivity | auto]].
    destruct (config_set _ _ _ _); [|eexists; split; [reflexivity | auto]].
    destruct (write_desconfig E _) as [[]|]; eexists; (split; [reflexivity | auto]).
  - intros _ _ _.
    destruct (query_and_print E _); [|eexists; reflexivity].
    destruct (config_set _ _ _ _); [|eexists; reflexivity].
    destruct (write_desconfig E _) as [[]|]; eexists; reflexivity.
Qed.

(** C9, as stated, fails: U+00E9 is not in [[A-Za-z0-9_]], and a password
    made of it is set and written to the configuration file. *)
Lemma do_set_password_accepts_accented_letter :
  ascii_word 233%N = false /\
  getpass accented_env (lit "Enter new password:") = [233%N] /\
  let r := do_set_password accented_env [] sample_world in
  r.1 = Return tt /\
  trace r.2 = [EvPrint []; EvGetpass (lit "Enter new password:");
               EvGetpass (lit "Re-Enter new password:"); EvPrint [];
               EvQueryAndPrint (lit "alter user alice identified by "
                                  ++ [34%N; 233%N; 34%N] ++ lit "  ")
                               None (Some (lit "Password changed in dessci")) None;
               EvWriteDesconfig (desconfig (self r.2))] /\
  desconfig (self r.2) !! lit "db-dessci" ≫= (.!! lit "passwd") = Some [233%N].
Proof. vm_compute. repeat split; reflexivity. Qed.

Lemma do_set_password_word_characters_witness :
  exists evs,
    trace (do_set_password sample_env [] sample_world).2
    = trace sample_world
        ++ [EvPrint []; EvGetpass (lit "Enter new password:");
            EvGetpass (lit "Re-Enter new password:"); EvPrint [];
            EvQueryAndPrint
              (lit "alter user " ++ user (self sample_world) ++ lit " identified by "
                 ++ [34%N] ++ getpass sample_env (lit "Enter new password:") ++ [34%N]
                 ++ lit "  ")
              None
              (Some (lit "Password changed in " ++ upper sample_env (dbname (self sample_world))))
              None]
        ++ evs.
Proof.
  apply (do_set_password_word_characters sample_env [] sample_world).
  - vm_compute. discriminate.
  - vm_compute. reflexivity.
  - apply search_nonword_false. vm_compute. reflexivity.
Defined.



(** ** The loops of [do_load_table] *)


Lemma emit_all_run evs w : emit_all evs w = (Return tt, with_events w evs).
Proof.
  revert w. induction evs as [|e evs IH]; intros w; simpl.
  - unfold with_events. rewrite app_nil_r. destruct w; reflexivity.
  - run. rewrite IH. unfold with_events. simpl. rewrite <- app_assoc. reflexivity.
Qed.


Lemma len_zero_nil {A} (l : list A) : (len l =? 0) = false -> l <> [].
Proof. intros H ->. discriminate. Qed.

(** A chunk that the first [try] block of a pandas loop delivers is not
    empty, and is counted. *)
Lemma pandas_try_chunk E iterator data iteration total dtypes dt cols vals total' data' :
  pandas_try E iterator data iteration total dtypes
  = (Ok (Some (dt, cols, vals, total')), data') ->
  vals <> [] /\ total' = total + len vals.
Proof.
  unfold pandas_try. destruct (pandas_next iterator data) as [[df|e] d]; simpl;
    [|discriminate].
  destruct (len (df_values df) =? 0) eqn:Hlen; [discriminate|].
  destruct (iteration =? 0); simpl.
  - destruct (get_dtypes E _); simpl; [|discriminate].
    intros H. injection H as <- <- <- <- <-. split; [|reflexivity].
    apply len_zero_nil, Hlen.
  - intros H. injection H as <- <- <- <- <-. split; [|reflexivity].
    apply len_zero_nil, Hlen.
Qed.

Lemma fits_try_chunk E f iteration total start chunk dtypes columns dt cols vals total' :
  fits_try E f iteration total start chunk dtypes columns
  = Ok (Some (dt, cols, vals, total')) ->
  vals <> [] /\ total' = total + len vals.
Proof.
  unfold fits_try.
  destruct (if iteration =? 0 then _ else _) as [[dt0 cols0]|e]; simpl; [|discriminate].
  destruct (fits_getitem f 1) as [h|e]; simpl; [|discriminate].
  destruct (hdu_slice h start (start + chunk)) as [values|e]; simpl; [|discriminate].
  destruct (len values =? 0) eqn:Hlen; [discriminate|].
  intros H. injection H as <- <- <- <-. split; [|reflexivity].
  apply len_zero_nil, Hlen.
Qed.

Lemma load_events_step table iteration c d values rest :
  load_events table iteration ({| ch_columns := c; ch_values := values; ch_dtypes := d |} :: rest)
  = ((if iteration =? 0 then [EvCreateTable table c d] else [])
       ++ [EvInsertData table c values d iteration])
      ++ load_events table (iteration + 1) rest.
Proof. simpl. rewrite <- app_assoc. reflexivity. Qed.

Section LoadLoops.
Context (E : Env) (table : str).





End LoadLoops.




Lemma not_success_app evs1 evs2 :
  Forall (fun e => is_success_report e = false) evs1 ->
  Forall (fun e => is_success_report e = false) evs2 ->
  Forall (fun e => is_success_report e = false) (evs1 ++ evs2).
Proof. intros. apply Forall_app. split; assumption. Qed.








(** ** The loops of [do_append_table] *)

Lemma rows_appended_lookup (table : str) (frames : list DataFrame) (d : DB) :
  frames <> [] ->
  rows_appended table frames d !! table
  = Some (default [] (d !! table) ++ concat (map df_values frames)).
Proof.
  revert d. induction frames as [|f frames IH]; intros d Hne; [contradiction|].
  unfold rows_appended in *. simpl.
  destruct frames as [|g frames'].
  - simpl. rewrite lookup_insert_eq, app_nil_r. reflexivity.
  - rewrite IH by discriminate. rewrite lookup_insert_eq. simpl.
    rewrite <- app_assoc. reflexivity.
Qed.

(** A pass over a chunk that is read and not empty. *)
Lemma pandas_try_reader E (f : DataFrame) chunks iteration total dtypes dt :
  df_values f <> [] ->
  (iteration = 0 -> get_dtypes E (PandasObject f) = Ok dt) ->
  (iteration <> 0 -> dtypes = Some dt) ->
  pandas_try E true (PandasReader (Ok f :: chunks)) iteration total dtypes
  = (Ok (Some (Some dt, Some (map col_name (df_columns f)), df_values f,
               total + len (df_values f))),
     PandasReader chunks).
Proof.
  intros Hne Hzero Hlater. unfold pandas_try. simpl.
  assert ((len (df_values f) =? 0) = false) as ->.
  { apply Z.eqb_neq. unfold len. destruct (df_values f); [contradiction|].
    simpl length. lia. }
  destruct (Z.eqb_spec iteration 0) as [Hi|Hi].
  - rewrite (Hzero Hi). reflexivity.
  - rewrite (Hlater Hi). reflexivity.
Qed.

Lemma append_pandas_unfold E fuel table iterator data iteration total dtypes :
  append_pandas E (S fuel) table iterator data iteration total dtypes
  = let '(r, data) := pandas_try E iterator data iteration total dtypes in
    match r with
    | Raise _ => mret (Some total)
    | Ok None => mret (Some total)
    | Ok (Some (dtypes, columns, values, total_rows)) =>
        inserted ← append_chunk E table iteration columns values dtypes;
        if inserted : bool then
          if negb iterator then mret (Some total_rows)
          else append_pandas E fuel table iterator data (iteration + 1) total_rows dtypes
        else mret None
    end.
Proof. reflexivity. Qed.

Section AppendLoop.
Context (E : Env) (table : str) (dtypes : list dtype) (failing : DataFrame)
  (rest : list (result DataFrame)) (e : exn).
Hypothesis Happends : appends_rows E.
Hypothesis Hfailing : df_values failing <> [].

(** An [insert_data] that returns. *)
Lemma append_chunk_ok (f : DataFrame) iteration w :
  (insert_data E table (map col_name (df_columns f)) (df_values f) dtypes iteration (db w)).1
  = Ok tt ->
  append_chunk E table iteration (Some (map col_name (df_columns f))) (df_values f)
    (Some dtypes) w
  = (Return true,
     {| self := self w;
        db := <[table := default [] (db w !! table) ++ df_values f]> (db w);
        trace := trace w ++ [EvInsertData table (map col_name (df_columns f)) (df_values f)
                               dtypes iteration] |}).
Proof.
  intros Hok. unfold append_chunk, call_insert_data, local. run.
  pose proof (Happends table (map col_name (df_columns f)) (df_values f) dtypes
                iteration (db w)) as Hrows.
  destruct (insert_data E _ _ _ _ _ _) as [[[]|e0] d']; simpl in *; [|discriminate].
  subst d'. reflexivity.
Qed.

(** An [insert_data] that raises: the exception is printed, the command
    returns, and nothing else happens. *)
Lemma append_chunk_fails (f : DataFrame) iteration w :
  (insert_data E table (map col_name (df_columns f)) (df_values f) dtypes iteration (db w)).1
  = Raise e ->
  append_chunk E table iteration (Some (map col_name (df_columns f))) (df_values f)
    (Some dtypes) w
  = (Return false,
     with_events w [EvInsertData table (map col_name (df_columns f)) (df_values f)
                      dtypes iteration;
                    EvPrintException e]).
Proof.
  intros Hfail. unfold append_chunk, call_insert_data, append_failed, local, with_events. run.
  pose proof (Happends table (map col_name (df_columns f)) (df_values f) dtypes
                iteration (db w)) as Hrows.
  destruct (insert_data E _ _ _ _ _ _) as [[[]|e0] d']; simpl in *; [discriminate|].
  subst d'. injection Hfail as ->. rewrite <- app_assoc. destruct w; reflexivity.
Qed.

(** The loop over chunks that are inserted, up to the one that fails. *)
Lemma append_pandas_fails earlier :
  forall fuel iteration total w,
    (length earlier < fuel)%nat ->
    Forall (fun f => df_values f <> []) earlier ->
    (iteration = 0 -> get_dtypes E (PandasObject (hd failing earlier)) = Ok dtypes) ->
    0 <= iteration ->
    (forall i f d,
       earlier !! i = Some f ->
       (insert_data E table (map col_name (df_columns f)) (df_values f) dtypes
          (iteration + Z.of_nat i) d).1 = Ok tt) ->
    (forall d,
       (insert_data E table (map col_name (df_columns failing)) (df_values failing) dtypes
          (iteration + len earlier) d).1 = Raise e) ->
    append_pandas E fuel table true (PandasReader (map Ok earlier ++ Ok failing :: rest))
      iteration total (if iteration =? 0 then None else Some dtypes) w
    = (Return None,
       {| self := self w;
          db := rows_appended table earlier (db w);
          trace := trace w
                     ++ append_events table iteration
                          (map (chunk_of_frame dtypes) (earlier ++ [failing]))
                     ++ [EvPrintException e] |}).
Proof.
  induction earlier as [|f earlier IH];
    intros fuel iteration total w Hfuel Hne Hdt Hpos Hok Hfail.
  - destruct fuel as [|fuel]; [simpl in Hfuel; lia|].
    rewrite append_pandas_unfold.
    change (map Ok [] ++ Ok failing :: rest) with (Ok failing :: rest).
    rewrite (pandas_try_reader E failing rest iteration total _ dtypes Hfailing);
      [|exact Hdt|intros Hi; apply Z.eqb_neq in Hi; rewrite Hi; reflexivity].
    cbv beta iota zeta. unfold mbind, M_bind.
    rewrite append_chunk_fails.
    2:{ specialize (Hfail (db w)). unfold len in Hfail. simpl in Hfail.
        rewrite Z.add_0_r in Hfail. exact Hfail. }
    unfold with_events. simpl. destruct w; reflexivity.
  - destruct fuel as [|fuel]; [simpl in Hfuel; lia|].
    rewrite append_pandas_unfold.
    change (map Ok (f :: earlier) ++ Ok failing :: rest)
      with (Ok f :: (map Ok earlier ++ Ok failing :: rest)).
    inversion Hne as [|? ? Hf Hne']; subst.
    rewrite (pandas_try_reader E f _ iteration total _ dtypes Hf);
      [|exact Hdt|intros Hi; apply Z.eqb_neq in Hi; rewrite Hi; reflexivity].
    cbv beta iota zeta. unfold mbind, M_bind.
    rewrite append_chunk_ok.
    2:{ specialize (Hok 0%nat f (db w) eq_refl). rewrite Z.add_0_r in Hok. exact Hok. }
    simpl.
    pose proof (IH fuel (iteration + 1) (total + len (df_values f))
                  {| self := self w;
                     db := <[table := default [] (db w !! table) ++ df_values f]> (db w);
                     trace := trace w ++ [EvInsertData table (map col_name (df_columns f))
                                            (df_values f) dtypes iteration] |}) as IH'.
    assert ((iteration + 1 =? 0) = false) as Hnz by (apply Z.eqb_neq; lia).
    rewrite Hnz in IH'. rewrite IH'.
    + simpl. rewrite <- app_assoc. reflexivity.
    + simpl in Hfuel. lia.
    + exact Hne'.
    + lia.
    + lia.
    + intros i g d Hg. specialize (Hok (S i) g d Hg).
      replace (iteration + 1 + Z.of_nat i) with (iteration + Z.of_nat (S i)) by lia.
      exact Hok.
    + intros d. specialize (Hfail d). unfold len in *. simpl length in Hfail.
      replace (iteration + 1 + Z.of_nat (length earlier))
        with (iteration + Z.of_nat (S (length earlier))) by lia.
      exact Hfail.
Qed.

End AppendLoop.

(** C6: chunked loads are not atomic.  When [insert_data] fails on a
    chunk of [do_append_table] after some chunks went in, the command
    prints the exception and returns, and the rows of the earlier chunks
    are still in the table. *)
Theorem do_append_table_not_atomic E fuel filename table name chunk w
    (first : DataFrame) (more : list DataFrame) (failing : DataFrame)
    (rest : list (result DataFrame)) (dtypes : list dtype) (e : exn) :
  let tbl := table_name filename table name in
  let earlier := first :: more in
  appends_rows E ->
  ~ ((splitext (basename filename)).2 = lit ".h5" /\ chunk <> None) ->
  check_table_exists E (db w) tbl = true ->
  read_file E filename = Ok (PandasReader (map Ok earlier ++ Ok failing :: rest), true) ->
  Forall (fun f => df_values f <> []) earlier ->
  df_values failing <> [] ->
  get_dtypes E (PandasObject first) = Ok dtypes ->
  (forall i f d,
     earlier !! i = Some f ->
     (insert_data E tbl (map col_name (df_columns f)) (df_values f) dtypes
        (Z.of_nat i) d).1 = Ok tt) ->
  (forall d,
     (insert_data E tbl (map col_name (df_columns failing)) (df_values failing) dtypes
        (len earlier) d).1 = Raise e) ->
  (length earlier < fuel)%nat ->
  let r := do_append_table E fuel (Some filename) table name chunk w in
  r.1 = Return tt /\
  trace r.2 = trace w
                ++ [EvCheckTableExists tbl; EvReadFile filename]
                ++ append_events tbl 0 (map (chunk_of_frame dtypes) (earlier ++ [failing]))
                ++ [EvPrintException e] /\
  db r.2 !! tbl = Some (default [] (db w !! tbl) ++ concat (map df_values earlier)) /\
  (forall x, x ∈ concat (map df_values earlier) -> x ∈ default [] (db r.2 !! tbl)).
Proof.
  intros tbl earlier Happends Hguard Hexists Hread Hne Hfailing Hdt Hok Hfail Hfuel r.
  assert (Hrun : r = (Return tt,
                      {| self := self w;
                         db := rows_appended tbl earlier (db w);
                         trace := trace w
                                    ++ [EvCheckTableExists tbl; EvReadFile filename]
                                    ++ append_events tbl 0
                                         (map (chunk_of_frame dtypes) (earlier ++ [failing]))
                                    ++ [EvPrintException e] |})).
  { subst r. unfold do_append_table. fold tbl.
    destruct (splitext (basename filename)) as [base ext] eqn:Hsplit. simpl in Hguard.
    assert (str_eqb ext (lit ".h5") && bool_decide (chunk <> None) = false) as ->.
    { destruct (str_eqb ext (lit ".h5")) eqn:He; [|reflexivity].
      destruct (bool_decide (chunk <> None)) eqn:Hc; [|reflexivity].
      apply bool_decide_eq_true in He, Hc. exfalso. apply Hguard. split; assumption. }
    unfold call_read_file, append_loops.
    pose proof (append_pandas_fails E tbl dtypes failing rest e Happends Hfailing earlier
                  fuel 0 0) as Hloop.
    change (0 =? 0) with true in Hloop. cbv iota in Hloop.
    remember (append_pandas E fuel tbl) as loop eqn:Hl.
    run. rewrite Hexists. simpl. rewrite Hread. simpl.
    change (str_eqb (file_type (PandasReader (Ok first :: map Ok more ++ Ok failing :: rest)))
              (lit "pandas")) with true. cbv iota.
    subst loop.
    change (Ok first :: map Ok more ++ Ok failing :: rest)
      with (map Ok earlier ++ Ok failing :: rest).
    rewrite Hloop; clear Hloop.
    - unfold mret, M_ret. simpl. rewrite <- !app_assoc. reflexivity.
    - exact Hfuel.
    - exact Hne.
    - intros _. exact Hdt.
    - lia.
    - intros i f d Hf. rewrite Z.add_0_l. apply Hok, Hf.
    - intros d. rewrite Z.add_0_l. apply Hfail. }
  rewrite Hrun. cbn [fst snd db trace].
  split; [reflexivity|]. split; [reflexivity|].
  assert (Hlookup : rows_appended tbl earlier (db w) !! tbl
                    = Some (default [] (db w !! tbl) ++ concat (map df_values earlier)))
    by (apply rows_appended_lookup; discriminate).
  split; [exact Hlookup|].
  intros x Hx. rewrite Hlookup. simpl. apply elem_of_app. right. exact Hx.
Qed.

Lemma failing_insert_env_appends : appends_rows failing_insert_env.
Proof.
  intros table columns values dtypes iteration d. simpl.
  destruct (iteration =? 0); reflexivity.
Qed.

Lemma do_append_table_not_atomic_witness :
  let r := do_append_table failing_insert_env 2 (Some (lit "example.csv")) None None
             (Some 2) sample_world_with_table in
  r.1 = Return tt /\
  trace r.2
  = trace sample_world_with_table
      ++ [EvCheckTableExists (table_name (lit "example.csv") None None);
          EvReadFile (lit "example.csv")]
      ++ append_events (table_name (lit "example.csv") None None) 0
           (map (chunk_of_frame [f8; f8])
                ([sample_frame first_rows] ++ [sample_frame more_rows]))
      ++ [EvPrintException (LibError (lit "ORA-01653: unable to extend table"))] /\
  db r.2 !! table_name (lit "example.csv") None None
  = Some (default [] (db sample_world_with_table !! table_name (lit "example.csv") None None)
            ++ concat (map df_values [sample_frame first_rows])) /\
  (forall x,
     x ∈ concat (map df_values [sample_frame first_rows]) ->
     x ∈ default [] (db r.2 !! table_name (lit "example.csv") None None)).
Proof.
  apply (do_append_table_not_atomic failing_insert_env 2 (lit "example.csv") None None
           (Some 2) sample_world_with_table (sample_frame first_rows) []
           (sample_frame more_rows) [] [f8; f8]
           (LibError (lit "ORA-01653: unable to extend table"))).
  - exact failing_insert_env_appends.
  - intros [Hext _]. vm_compute in Hext. discriminate Hext.
  - vm_compute. reflexivity.
  - reflexivity.
  - repeat constructor. discriminate.
  - discriminate.
  - reflexivity.
  - intros [|i] f d Hf; [reflexivity | discriminate Hf].
  - intros d. reflexivity.
  - simpl. lia.
Defined.

(** ** Enough fuel *)

(** A slice that is not empty starts inside the list when the bounds are
    not negative. *)
Lemma slice_nonempty_forward {A} (s : list A) start chunk :
  0 <= start -> 0 < chunk -> slice s start (start + chunk) <> [] -> start < len s.
Proof.
  intros Hs Hc Hne. destruct (Z_lt_ge_dec start (len s)) as [Hlt|Hge]; [exact Hlt|].
  exfalso. apply Hne. unfold slice.
  pose proof (len_nonneg s).
  assert (clamp (len s) start = len s) as ->
      by (unfold clamp; destruct (Z.ltb_spec start 0); lia).
  assert (clamp (len s) (start + chunk) = len s) as ->
      by (unfold clamp; destruct (Z.ltb_spec (start + chunk) 0); lia).
  rewrite Z.sub_diag. reflexivity.
Qed.

(** With slices that do not grow, only a slice that starts at or after 0
    and ends before 0 has rows. *)
Lemma slice_nonempty_backward {A} (s : list A) start chunk :
  chunk <= 0 -> slice s start (start + chunk) <> [] -> 0 <= start /\ start + chunk < 0.
Proof.
  intros Hc Hne. pose proof (len_nonneg s) as Hn.
  destruct (Z_lt_ge_dec start 0) as [Hneg|Hpos];
    [|destruct (Z_lt_ge_dec (start + chunk) 0) as [Hneg'|Hpos']; [lia|]];
    exfalso; apply Hne; unfold slice.
  - assert (clamp (len s) (start + chunk) <= clamp (len s) start).
    { unfold clamp. destruct (Z.ltb_spec start 0); destruct (Z.ltb_spec (start + chunk) 0); lia. }
    replace (Z.to_nat (clamp (len s) (start + chunk) - clamp (len s) start)) with 0%nat by lia.
    reflexivity.
  - assert (clamp (len s) (start + chunk) <= clamp (len s) start).
    { unfold clamp. destruct (Z.ltb_spec start 0); destruct (Z.ltb_spec (start + chunk) 0); lia. }
    replace (Z.to_nat (clamp (len s) (start + chunk) - clamp (len s) start)) with 0%nat by lia.
    reflexivity.
Qed.

(** A pass that finds rows leaves fewer passes. *)
Lemma passes_left_decreases {A} (s : list A) chunk start :
  (0 < chunk -> 0 <= start) ->
  slice s start (start + chunk) <> [] ->
  (passes_left (len s) chunk (start + chunk) < passes_left (len s) chunk start)%nat.
Proof.
  intros Hinv Hne. unfold passes_left.
  destruct (0 <? chunk) eqn:Hc.
  - apply Z.ltb_lt in Hc.
    pose proof (slice_nonempty_forward s start chunk (Hinv Hc) Hc Hne). lia.
  - apply Z.ltb_ge in Hc.
    destruct (slice_nonempty_backward s start chunk Hc Hne) as [H1 H2].
    assert ((0 <=? start) = true) as -> by (apply Z.leb_le; lia).
    assert ((0 <=? start + chunk) = false) as -> by (apply Z.leb_gt; lia). lia.
Qed.

Section NoTimeout.
Context {A B : Type}.

Lemma no_timeout_ret (a : A) : no_timeout (mret a).
Proof. intros w. discriminate. Qed.

Lemma no_timeout_raise (e : exn) : no_timeout (raise e : M A).
Proof. intros w. discriminate. Qed.

Lemma no_timeout_lift (r : result A) : no_timeout (lift r).
Proof. intros w. destruct r; discriminate. Qed.

Lemma no_timeout_local name (v : option A) : no_timeout (local name v).
Proof. intros w. destruct v; discriminate. Qed.

Lemma no_timeout_bind (m : M A) (k : A -> M B) :
  no_timeout m -> (forall a, no_timeout (k a)) -> no_timeout (m ≫= k).
Proof.
  intros Hm Hk w. unfold mbind, M_bind. specialize (Hm w).
  destruct (m w) as [[a| | |] w']; simpl in *; try discriminate.
  - apply Hk.
  - contradiction.
Qed.

Lemma no_timeout_try (m : M A) (h : exn -> M A) :
  no_timeout m -> (forall e, no_timeout (h e)) -> no_timeout (try_except m h).
Proof.
  intros Hm Hh w. unfold try_except. specialize (Hm w).
  destruct (m w) as [[a| | |] w']; simpl in *; try discriminate.
  - apply Hh.
  - contradiction.
Qed.

End NoTimeout.

Lemma no_timeout_emit e : no_timeout (emit e).
Proof. intros w. discriminate. Qed.

Lemma no_timeout_get_db : no_timeout get_db.
Proof. intros w. discriminate. Qed.

Lemma no_timeout_run_db f : no_timeout (run_db f).
Proof.
  intros w. unfold run_db. destruct (f (db w)) as [[[]|e] d]; discriminate.
Qed.

Create HintDb no_timeout.
#[local] Hint Resolve no_timeout_ret no_timeout_raise no_timeout_lift no_timeout_local
  no_timeout_emit no_timeout_get_db no_timeout_run_db : no_timeout.

Ltac no_timeout_step :=
  match goal with
  | |- no_timeout (mbind _ _) => apply no_timeout_bind; [|intros]
  | |- no_timeout (try_except _ _) => apply no_timeout_try; [|intros]
  | |- no_timeout (if ?b then _ else _) => destruct b
  | |- no_timeout (match ?x with _ => _ end) => destruct x
  | |- no_timeout _ => solve [auto with no_timeout]
  end.

Ltac no_timeout_all := repeat no_timeout_step.

Lemma no_timeout_emit_all evs : no_timeout (emit_all evs).
Proof. induction evs; simpl; no_timeout_all. Qed.

Lemma no_timeout_load_chunk E table iteration columns values dtypes :
  no_timeout (load_chunk E table iteration columns values dtypes).
Proof.
  unfold load_chunk, call_create_table, call_insert_data, load_failed, call_drop_table.
  no_timeout_all.
Qed.

Lemma no_timeout_append_chunk E table iteration columns values dtypes :
  no_timeout (append_chunk E table iteration columns values dtypes).
Proof.
  unfold append_chunk, call_insert_data, append_failed. no_timeout_all.
Qed.

#[local] Hint Resolve no_timeout_emit_all no_timeout_load_chunk no_timeout_append_chunk
  : no_timeout.

(** The chunks that a reader still holds. *)
Lemma pandas_try_consumes E data iteration total dtypes x data' :
  pandas_try E true data iteration total dtypes = (Ok (Some x), data') ->
  exists c chunks, data = PandasReader (c :: chunks) /\ data' = PandasReader chunks.
Proof.
  unfold pandas_try. simpl.
  destruct data as [df|[|c chunks]|f]; simpl; try discriminate.
  intros H. exists c, chunks. split; [reflexivity | congruence].
Qed.

Lemma load_pandas_enough_fuel E fuel table iterator data iteration total dtypes :
  (enough_fuel data None <= fuel)%nat ->
  no_timeout (load_pandas E fuel table iterator data iteration total dtypes).
Proof.
  revert data iteration total dtypes.
  induction fuel as [|fuel IH]; intros data iteration total dtypes Hfuel.
  - destruct data; simpl in Hfuel; lia.
  - simpl.
    destruct (pandas_try E iterator data iteration total dtypes)
      as [[[[[[dt cols] vals] total1]|]|e] data'] eqn:Htry; auto with no_timeout.
    apply no_timeout_bind; [auto with no_timeout|]. intros [|]; [|auto with no_timeout].
    destruct iterator; simpl; [|auto with no_timeout].
    apply pandas_try_consumes in Htry as (c & chunks & -> & ->).
    apply IH. simpl in *. lia.
Qed.

Lemma append_pandas_enough_fuel E fuel table iterator data iteration total dtypes :
  (enough_fuel data None <= fuel)%nat ->
  no_timeout (append_pandas E fuel table iterator data iteration total dtypes).
Proof.
  revert data iteration total dtypes.
  induction fuel as [|fuel IH]; intros data iteration total dtypes Hfuel.
  - destruct data; simpl in Hfuel; lia.
  - simpl.
    destruct (pandas_try E iterator data iteration total dtypes)
      as [[[[[[dt cols] vals] total1]|]|e] data'] eqn:Htry; auto with no_timeout.
    apply no_timeout_bind; [auto with no_timeout|]. intros [|]; [|auto with no_timeout].
    destruct iterator; simpl; [|auto with no_timeout].
    apply pandas_try_consumes in Htry as (c & chunks & -> & ->).
    apply IH. simpl in *. lia.
Qed.

(** The rows that a pass of a FITS loop finds are a slice of the table,
    and there is at least one. *)
Lemma fits_try_slice E f iteration total start chunk dtypes columns dt cols vals total' :
  fits_try E f iteration total start chunk dtypes columns
  = Ok (Some (dt, cols, vals, total')) ->
  vals = slice (fits_rows f) start (start + chunk) /\ vals <> [].
Proof.
  unfold fits_try, fits_rows.
  destruct (if iteration =? 0 then _ else _) as [[dt0 cols0]|e]; simpl; [|discriminate].
  unfold fits_getitem. destruct (hdus f !! 1%nat) as [[|columns0 rows]|]; simpl;
    try discriminate.
  destruct (len (slice rows start (start + chunk)) =? 0) eqn:Hlen; [discriminate|].
  intros H. injection H as <- <- <- <-. split; [reflexivity|].
  intros Hnil. rewrite Hnil in Hlen. discriminate.
Qed.

Lemma load_fits_enough_fuel E fuel table f chunk start iteration total dtypes columns :
  (0 < chunk -> 0 <= start) ->
  (passes_left (len (fits_rows f)) chunk start < fuel)%nat ->
  no_timeout (load_fits E fuel table f chunk start iteration total dtypes columns).
Proof.
  revert start iteration total dtypes columns.
  induction fuel as [|fuel IH]; intros start iteration total dtypes columns Hinv Hfuel;
    [lia|].
  simpl.
  destruct (fits_try E f iteration total start chunk dtypes columns)
    as [[[[[dt cols] vals] total1]|]|e] eqn:Htry; auto with no_timeout.
  apply no_timeout_bind; [auto with no_timeout|]. intros [|]; [|auto with no_timeout].
  apply fits_try_slice in Htry as [-> Hne].
  pose proof (passes_left_decreases (fits_rows f) chunk start Hinv Hne).
  apply IH; [lia | lia].
Qed.

Lemma append_fits_enough_fuel E fuel table f chunk start iteration total dtypes columns :
  (0 < chunk -> 0 <= start) ->
  (passes_left (len (fits_rows f)) chunk start < fuel)%nat ->
  no_timeout (append_fits E fuel table f chunk start iteration total dtypes columns).
Proof.
  revert start iteration total dtypes columns.
  induction fuel as [|fuel IH]; intros start iteration total dtypes columns Hinv Hfuel;
    [lia|].
  simpl.
  destruct (fits_try E f iteration total start chunk dtypes columns)
    as [[[[[dt cols] vals] total1]|]|e] eqn:Htry; auto with no_timeout.
  apply no_timeout_bind; [auto with no_timeout|]. intros [|]; [|auto with no_timeout].
  apply fits_try_slice in Htry as [-> Hne].
  pose proof (passes_left_decreases (fits_rows f) chunk start Hinv Hne).
  apply IH; [lia | lia].
Qed.

Lemma hdu_get_nrows_rows f h n :
  fits_getitem f 1 = Ok h -> hdu_get_nrows h = Ok n -> n = len (fits_rows f).
Proof.
  unfold fits_getitem, fits_rows. destruct (hdus f !! 1%nat) as [h'|]; [|discriminate].
  intros H. injection H as ->. destruct h; simpl; [discriminate|]. congruence.
Qed.

Lemma load_loops_enough_fuel E fuel table data iterator chunk :
  (enough_fuel data chunk <= fuel)%nat ->
  no_timeout (load_loops E fuel table data iterator chunk).
Proof.
  intros Hfuel. unfold load_loops.
  destruct data as [df|chunks|f].
  - change (str_eqb (file_type (PandasFrame df)) (lit "pandas")) with true.
    change (str_eqb (file_type (PandasFrame df)) (lit "fits")) with false. cbv iota.
    apply no_timeout_bind; [apply load_pandas_enough_fuel; exact Hfuel|].
    intros [total|]; auto with no_timeout.
  - change (str_eqb (file_type (PandasReader chunks)) (lit "pandas")) with true.
    change (str_eqb (file_type (PandasReader chunks)) (lit "fits")) with false. cbv iota.
    apply no_timeout_bind; [apply load_pandas_enough_fuel; exact Hfuel|].
    intros [total|]; auto with no_timeout.
  - change (str_eqb (file_type (FitsFile f)) (lit "pandas")) with false.
    change (str_eqb (file_type (FitsFile f)) (lit "fits")) with true. cbv iota.
    simpl in Hfuel. intros w. unfold mbind, M_bind, mret, M_ret, lift, raise.
    destruct chunk as [c|]; simpl in *.
    + apply load_fits_enough_fuel; lia.
    + destruct (fits_getitem f 1) as [h|e] eqn:Hh; simpl; [|discriminate].
      destruct (hdu_get_nrows h) as [n|e] eqn:Hn; simpl; [|discriminate].
      rewrite (hdu_get_nrows_rows f h n Hh Hn).
      apply load_fits_enough_fuel; lia.
Qed.

Lemma append_loops_enough_fuel E fuel table data iterator chunk :
  (enough_fuel data chunk <= fuel)%nat ->
  no_timeout (append_loops E fuel table data iterator chunk).
Proof.
  intros Hfuel. unfold append_loops.
  destruct data as [df|chunks|f].
  - change (str_eqb (file_type (PandasFrame df)) (lit "pandas")) with true.
    change (str_eqb (file_type (PandasFrame df)) (lit "fits")) with false. cbv iota.
    apply no_timeout_bind; [apply append_pandas_enough_fuel; exact Hfuel|].
    intros [total|]; auto with no_timeout.
  - change (str_eqb (file_type (PandasReader chunks)) (lit "pandas")) with true.
    change (str_eqb (file_type (PandasReader chunks)) (lit "fits")) with false. cbv iota.
    apply no_timeout_bind; [apply append_pandas_enough_fuel; exact Hfuel|].
    intros [total|]; auto with no_timeout.
  - change (str_eqb (file_type (FitsFile f)) (lit "pandas")) with false.
    change (str_eqb (file_type (FitsFile f)) (lit "fits")) with true. cbv iota.
    simpl in Hfuel. intros w. unfold mbind, M_bind, mret, M_ret, lift, raise.
    destruct chunk as [c|]; simpl in *.
    + apply append_fits_enough_fuel; lia.
    + destruct (fits_getitem f 1) as [h|e] eqn:Hh; simpl; [|discriminate].
      destruct (hdu_get_nrows h) as [n|e] eqn:Hn; simpl; [|discriminate].
      rewrite (hdu_get_nrows_rows f h n Hh Hn).
      apply append_fits_enough_fuel; lia.
Qed.

(** With enough fuel for the data that [eafile.read_file] returns, the
    two commands run to their end. *)
Lemma do_load_table_enough_fuel E fuel filename table name chunk :
  (forall data iterator,
     read_file E filename = Ok (data, iterator) ->
     (enough_fuel data chunk <= fuel)%nat) ->
  no_timeout (do_load_table E fuel (Some filename) table name chunk).
Proof.
  intros Hfuel w. unfold do_load_table.
  destruct (splitext (basename filename)) as [base ext].
  destruct (_ && _); [discriminate|].
  unfold call_read_file, load_report, mbind, M_bind, try_except, emit, get_db, lift,
    mret, M_ret, raise. simpl.
  destruct (check_table_exists E (db w) _); [discriminate|].
  destruct (read_file E filename) as [[data iterator]|e] eqn:Hread; simpl; [|discriminate].
  match goal with
  | |- context [load_loops E fuel ?t data iterator chunk ?w0] =>
      pose proof (load_loops_enough_fuel E fuel t data iterator chunk
                    (Hfuel data iterator eq_refl) w0) as Hloops;
      destruct (load_loops E fuel t data iterator chunk w0) as [[[total|]| | |] w1]
  end; simpl in *; try discriminate.
  contradiction.
Qed.

Lemma do_append_table_enough_fuel E fuel filename table name chunk :
  (forall data iterator,
     read_file E filename = Ok (data, iterator) ->
     (enough_fuel data chunk <= fuel)%nat) ->
  no_timeout (do_append_table E fuel (Some filename) table name chunk).
Proof.
  intros Hfuel w. unfold do_append_table.
  destruct (splitext (basename filename)) as [base ext].
  destruct (_ && _); [discriminate|].
  unfold call_read_file, mbind, M_bind, try_except, emit, get_db, lift,
    mret, M_ret, raise, print, print_colored. simpl.
  destruct (check_table_exists E (db w) _); simpl; [|discriminate].
  destruct (read_file E filename) as [[data iterator]|e] eqn:Hread; simpl; [|discriminate].
  match goal with
  | |- context [append_loops E fuel ?t data iterator chunk ?w0] =>
      pose proof (append_loops_enough_fuel E fuel t data iterator chunk
                    (Hfuel data iterator eq_refl) w0) as Hloops;
      destruct (append_loops E fuel t data iterator chunk w0) as [[[total|]| | |] w1]
  end; simpl in *; try discriminate.
  contradiction.
Qed.

(** ** The extension that [check_filetype] tests *)

Lemma rfind_from_absent_inv c s i last :
  last < i -> rfind_from c s i last = last -> c ∉ s.
Proof.
  revert i last. induction s as [|x s IH]; intros i last Hlt Hr.
  - apply not_elem_of_nil.
  - simpl in Hr. destruct (N.eqb_spec x c) as [->|Hne].
    + exfalso. destruct (rfind_from_range c s (i + 1) i) as [H | H]; lia.
    + apply not_elem_of_cons. split; [congruence|].
      apply (IH (i + 1) last); [lia | exact Hr].
Qed.

(** The place that [rfind] finds is the last one. *)
Lemma rfind_from_found c p i0 last :
  last < i0 -> rfind_from c p i0 last <> last ->
  exists s t, p = s ++ c :: t /\ (c ∉ t) /\ rfind_from c p i0 last = i0 + len s.
Proof.
  revert i0 last. induction p as [|x p IH]; intros i0 last Hlt Hne.
  - simpl in Hne. contradiction.
  - simpl in *.
    set (last' := if N.eqb x c then i0 else last) in *.
    destruct (Z.eq_dec (rfind_from c p (i0 + 1) last') last') as [Heq | Hneq].
    + rewrite Heq in *. unfold last' in *.
      destruct (N.eqb_spec x c) as [->|Hx]; [|contradiction].
      exists [], p. split; [reflexivity|]. split.
      * apply (rfind_from_absent_inv c p (i0 + 1) i0); [lia | exact Heq].
      * unfold len. simpl. lia.
    + assert (Hlt' : last' < i0 + 1) by (unfold last'; destruct (N.eqb x c); lia).
      destruct (IH (i0 + 1) last' Hlt' Hneq) as (s & t & -> & Ht & Hr).
      exists (x :: s), t. split; [reflexivity|]. split; [exact Ht|].
      rewrite Hr. unfold len. simpl length. lia.
Qed.

Lemma rfind_found c p :
  0 <= rfind c p ->
  exists s t, p = s ++ c :: t /\ (c ∉ t) /\ rfind c p = len s.
Proof.
  intros Hr. unfold rfind in *.
  destruct (rfind_from_found c p 0 (-1)) as (s & t & Hp & Ht & Hi); [lia | lia |].
  exists s, t. split; [exact Hp|]. split; [exact Ht|]. rewrite Hi. lia.
Qed.

(** The extension that [splitext] finds is a dot followed by characters
    that are not dots. *)
Lemma extension_shape filename :
  extension filename = [] \/
  exists t, extension filename = extsep :: t /\ extsep ∉ t.
Proof.
  unfold extension.
  destruct (splitext_cases filename) as [-> | [Hr ->]]; [left; reflexivity|].
  right. simpl.
  destruct (rfind_found extsep filename) as (s & t & Hp & Ht & Hi); [lia|].
  exists t. split; [|exact Ht].
  rewrite Hi. rewrite Hp at 1. apply slice_from_app.
Qed.

(** A name that starts with its only dot has no extension. *)
Lemma splitext_leading_dot t :
  extsep ∉ t -> splitext (extsep :: t) = (extsep :: t, []).
Proof.
  intros Ht. unfold splitext.
  assert (Hdot : rfind extsep (extsep :: t) = 0)
    by (apply (rfind_last_occurrence extsep [] t), Ht).
  rewrite Hdot. rewrite slice_to_zero.
  pose proof (rfind_range sep (extsep :: t)) as Hs.
  destruct (Z.ltb_spec (rfind sep (extsep :: t)) 0) as [Hlt|Hge]; [|reflexivity].
  replace (rfind sep (extsep :: t)) with (-1) by lia. reflexivity.
Qed.

(** Taking the extension, or the name, a second time changes nothing. *)
Lemma extension_or_name_idem filename :
  extension_or_name (extension_or_name filename) = extension_or_name filename.
Proof.
  destruct (extension_shape filename) as [Hnil | (t & Ht & Hdots)].
  - unfold extension_or_name at 2. rewrite Hnil. simpl. reflexivity.
  - rewrite (extension_or_name_of_extension filename) by (rewrite Ht; discriminate).
    rewrite Ht. unfold extension_or_name, extension.
    rewrite (splitext_leading_dot t Hdots). reflexivity.
Qed.

Lemma unrecognized_filetype_eq filename types :
  unrecognized_filetype filename types
  = lit "Unrecognized file type: '" ++ extension_or_name filename ++ lit "'" ++ nl
      ++ lit "Supported filetypes:" ++ nl
      ++ lit " " ++ join (lit ", ") (map quoted (default FILE_EXTS types)).
Proof.
  unfold unrecognized_filetype, extension_or_name, extension.
  pose proof (splitext_no_ext filename) as Hno.
  destruct (splitext filename) as [base ext]. simpl in *.
  destruct (str_eqb ext []) eqn:He.
  - apply str_eqb_true in He. rewrite (Hno He).
    destruct types; simpl; rewrite <- !app_assoc; reflexivity.
  - destruct types; simpl; rewrite <- !app_assoc; reflexivity.
Qed.

(** X1: what [check_filetype] raises.  The check fails exactly when the
    extension of the name (the name itself when it has none) is not among
    the types, and the message of the [IOError] quotes that extension and
    lists every type. *)
Theorem check_filetype_message filename types :
  let tested := extension_or_name filename in
  let allowed := default FILE_EXTS types in
  (tested ∈ allowed /\ check_filetype filename types = Ok true) \/
  (tested ∉ allowed /\
   check_filetype filename types
   = Raise (IOError (lit "Unrecognized file type: '" ++ tested ++ lit "'" ++ nl
                       ++ lit "Supported filetypes:" ++ nl
                       ++ lit " " ++ join (lit ", ") (map quoted allowed)))).
Proof.
  intros tested allowed. rewrite check_filetype_eq. cbv zeta.
  assert (Ht : match types with None => FILE_EXTS | Some t => t end = allowed)
    by (destruct types; reflexivity).
  rewrite Ht. fold tested.
  destruct (str_in tested allowed) eqn:Hin.
  - left. split; [apply str_in_true, Hin | reflexivity].
  - right. split; [apply str_in_false, Hin|].
    rewrite unrecognized_filetype_eq. unfold tested.
    rewrite extension_or_name_idem. reflexivity.
Qed.

(** X2: [read_file] can only read FITS files.  Whatever the readers do, a
    call that returns was made on a name with the extension ['.fits'], and
    what it returns is the file that [fitsio.FITS] opened. *)
Theorem read_file_only_fits R filename data :
  Fileio.read_file R filename = Ok data ->
  extension filename = lit ".fits" /\
  exists f, fitsio_FITS R filename = Ok f /\ ea_source data = FitsObject f.
Proof.
  intros Hread.
  assert (Hext : extension filename ∈ supported_extensions).
  { unfold Fileio.read_file, extension in *.
    destruct (splitext filename) as [base ext]. simpl in *.
    destruct (str_in ext PANDAS_EXTS) eqn:Hp.
    { apply pandas_exts_supported, str_in_true, Hp. }
    destruct (str_in ext FITS_EXTS) eqn:Hf.
    { apply fits_exts_supported, str_in_true, Hf. }
    destruct (check_filetype ext (Some FILE_EXTS)); discriminate. }
  rewrite (read_file_dispatch R filename Hext) in Hread.
  destruct (str_in (extension filename) PANDAS_EXTS) eqn:Hp.
  { apply str_in_true in Hp. rewrite (read_pandas_raises R filename Hp) in Hread.
    discriminate. }
  assert (He : extension filename = lit ".fits").
  { apply str_in_false in Hp. unfold supported_extensions, PANDAS_EXTS in *.
    repeat (apply elem_of_cons in Hext as [Hext | Hext];
            [try (exfalso; apply Hp; rewrite Hext; by repeat constructor)|]);
      [exact Hext | by apply elem_of_nil in Hext]. }
  split; [exact He|].
  unfold read_fitsio in Hread.
  destruct (check_filetype filename (Some FITS_EXTS)); [|discriminate]. simpl in Hread.
  destruct (fitsio_FITS R filename) as [f|e]; [|discriminate]. simpl in Hread.
  exists f. split; [reflexivity|].
  destruct (fits_getitem f 1) as [h|]; [|discriminate]. simpl in Hread.
  destruct (hdu_field_dtypes h); [|discriminate]. simpl in Hread.
  destruct (hdu_get_colnames h); [|discriminate]. simpl in Hread.
  destruct (hdu_read h); [|discriminate]. simpl in Hread.
  injection Hread as <-. reflexivity.
Qed.

Lemma read_file_only_fits_witness :
  extension (lit "cat/y1a1.fits") = lit ".fits" /\
  exists f, fitsio_FITS sample_readers (lit "cat/y1a1.fits") = Ok f /\
            ea_source
              {| ea_source := FitsObject
                   {| hdus := [ImageHDU;
                               TableHDU [(lit "RA", {| kind := 102%N; itemsize := 8 |});
                                         (lit "DEC", {| kind := 102%N; itemsize := 8 |})]
                                        [[CFloat (lit "1.23"); CFloat (lit "0.13")]]] |};
                 ea_get_columns := [lit "RA"; lit "DEC"];
                 ea_get_values := [[CFloat (lit "1.23"); CFloat (lit "0.13")]];
                 ea_get_dtypes := [{| kind := 102%N; itemsize := 8 |};
                                   {| kind := 102%N; itemsize := 8 |}] |}
            = FitsObject f.
Proof.
  apply (read_file_only_fits sample_readers (lit "cat/y1a1.fits")).
  vm_compute. reflexivity.
Defined.

(** ** [do_execproc]: lines that differ in whitespace and semicolons *)

Lemma cleaned_idem line : cleaned (cleaned line) = cleaned line.
Proof.
  unfold cleaned. rewrite filter_filter_and.
  apply filter_ext. intros c. destruct (negb (N.eqb c 59) && negb (isspace c)); reflexivity.
Qed.

Lemma execproc_parse_cleaned E line :
  execproc_parse E line = execproc_parse E (cleaned line).
Proof.
  unfold execproc_parse. rewrite !clean_line, cleaned_idem. reflexivity.
Qed.

Lemma do_execproc_cleaned E l1 l2 w :
  l1 <> [] -> l2 <> [] -> cleaned l1 = cleaned l2 ->
  do_execproc E l1 w = do_execproc E l2 w.
Proof.
  intros H1 H2 Hc. unfold do_execproc.
  assert (str_eqb l1 [] = false) as -> by (apply bool_decide_eq_false; exact H1).
  assert (str_eqb l2 [] = false) as -> by (apply bool_decide_eq_false; exact H2).
  rewrite (execproc_parse_cleaned E l1), (execproc_parse_cleaned E l2), Hc.
  reflexivity.
Qed.

(** X3: [do_execproc] does not see whitespace or semicolons, wherever they
    stand: two lines (not empty) that are the same once these characters
    are removed do the same thing, even when the characters were inside a
    quoted argument. *)
Theorem do_execproc_ignores_whitespace E l1 l2 w :
  l1 <> [] -> l2 <> [] -> cleaned l1 = cleaned l2 ->
  do_execproc E l1 w = do_execproc E l2 w.
Proof. apply do_execproc_cleaned. Qed.

Lemma do_execproc_ignores_whitespace_witness :
  do_execproc sample_env (lit "myproc('a b', 10);") sample_world
  = do_execproc sample_env (lit "my proc ( 'ab' ,10 )") sample_world.
Proof.
  apply (do_execproc_ignores_whitespace sample_env (lit "myproc('a b', 10);")
           (lit "my proc ( 'ab' ,10 )") sample_world).
  - vm_compute. discriminate.
  - vm_compute. discriminate.
  - vm_compute. reflexivity.
Defined.

(** ** [do_execproc]: lines without parentheses *)

Lemma find_from_absent c s i : c ∉ s -> find_from c s i = -1.
Proof.
  revert i. induction s as [|x s IH]; intros i Hc; simpl; [reflexivity|].
  apply not_elem_of_cons in Hc as [Hx Hs].
  destruct (N.eqb_spec x c); [congruence|]. apply IH, Hs.
Qed.

Lemma index_absent c s : c ∉ s -> index c s = Raise ValueError.
Proof. intros Hc. unfold index, find. rewrite find_from_absent by exact Hc. reflexivity. Qed.

Lemma cleaned_subset c line : c ∈ cleaned line -> c ∈ line.
Proof.
  unfold cleaned. intros Hc. apply list_elem_of_In in Hc.
  apply filter_In in Hc as [Hc _]. by apply list_elem_of_In.
Qed.

Lemma index_found c s : c ∈ s -> exists i, index c s = Ok i.
Proof. intros Hc. eexists. apply index_before, Hc. Qed.

(** X4: a line that lacks an opening or a closing parenthesis makes
    [do_execproc] raise [ValueError]; nothing is printed and nothing is
    sent to the database. *)
Theorem do_execproc_missing_parenthesis E line w :
  line <> [] -> (40%N ∉ line) \/ (41%N ∉ line) ->
  do_execproc E line w = (Raised ValueError, w).
Proof.
  intros Hne Hmiss. unfold do_execproc.
  assert (str_eqb line [] = false) as -> by (apply bool_decide_eq_false; exact Hne).
  unfold execproc_parse. rewrite clean_line.
  destruct (decide (40%N ∈ cleaned line)) as [Hopen | Hopen].
  - destruct Hmiss as [Hmiss | Hmiss]; [exfalso; apply Hmiss, cleaned_subset, Hopen|].
    destruct (index_found _ _ Hopen) as (i & ->). simpl.
    assert (Hclose : 41%N ∉ cleaned line)
      by (intros Hc; apply Hmiss, cleaned_subset, Hc).
    rewrite (index_absent _ _ Hclose). reflexivity.
  - rewrite (index_absent _ _ Hopen). reflexivity.
Qed.

Lemma do_execproc_missing_parenthesis_witness :
  do_execproc sample_env (lit "myproc 1, 2") sample_world = (Raised ValueError, sample_world).
Proof.
  apply (do_execproc_missing_parenthesis sample_env (lit "myproc 1, 2") sample_world).
  - vm_compute. discriminate.
  - left. apply (bool_decide_unpack _). vm_compute. exact I.
Defined.

(** ** [do_execproc]: a procedure without arguments *)

Lemma before_app_absent c s t : c ∉ s -> before c (s ++ c :: t) = s.
Proof.
  induction s as [|x s IH]; intros Hc; simpl.
  - rewrite N.eqb_refl. reflexivity.
  - apply not_elem_of_cons in Hc as [Hx Hs].
    destruct (N.eqb_spec x c); [congruence|]. rewrite IH by exact Hs. reflexivity.
Qed.

(** X5: a call written with empty parentheses, [NAME()], does not call the
    procedure without arguments: [callproc] receives one argument, the
    empty string ([float('')] raises [ValueError], so the text between the
    parentheses stays a string). *)
Theorem do_execproc_empty_parentheses E line name w :
  cleaned line = name ++ lit "()" ->
  40%N ∉ name -> 41%N ∉ name ->
  parse_float E [] = None ->
  do_execproc E line w =
  match callproc E name [ArgStr []] with
  | Ok _ => (Return tt,
             with_events w [EvCallproc name [ArgStr []];
                            EvPrintColored (lit "Done!") (lit "green")])
  | Raise e => (Return tt,
                with_events w [EvCallproc name [ArgStr []]; EvPrintException e])
  end.
Proof.
  intros Hclean Hopen Hclose Hfloat.
  assert (Hne : line <> []).
  { intros ->. vm_compute in Hclean. destruct name; discriminate. }
  unfold do_execproc.
  assert (str_eqb line [] = false) as -> by (apply bool_decide_eq_false; exact Hne).
  unfold execproc_parse. rewrite clean_line, Hclean.
  assert (Hlit : lit "()" = [40%N; 41%N]) by (vm_compute; reflexivity).
  rewrite Hlit.
  assert (Hi : index 40%N (name ++ [40%N; 41%N]) = Ok (len name)).
  { rewrite index_before by (apply elem_of_app; right; left).
    rewrite before_app_absent by exact Hopen. reflexivity. }
  assert (Hj : index 41%N (name ++ [40%N; 41%N]) = Ok (len name + 1)).
  { replace (name ++ [40%N; 41%N]) with ((name ++ [40%N]) ++ 41%N :: [])
      by (rewrite <- app_assoc; reflexivity).
    rewrite index_before by (apply elem_of_app; right; left).
    rewrite before_app_absent.
    - rewrite len_app. reflexivity.
    - intros Hc. apply elem_of_app in Hc as [Hc | Hc]; [contradiction|].
      apply list_elem_of_singleton in Hc. discriminate. }
  rewrite Hi, Hj. simpl.
  assert (Hname : slice (name ++ [40%N; 41%N]) 0 (len name) = name)
    by (apply (slice_to_app name [40%N; 41%N])).
  assert (Hargs : slice (name ++ [40%N; 41%N]) (len name + 1) (len name + 1) = []).
  { unfold slice. rewrite Z.sub_diag. reflexivity. }
  assert (Htail : slice_from (name ++ [40%N; 41%N]) (len name + 1) = [41%N]).
  { replace (name ++ [40%N; 41%N]) with ((name ++ [40%N]) ++ [41%N])
      by (rewrite <- app_assoc; reflexivity).
    replace (len name + 1) with (len (name ++ [40%N])) by (rewrite len_app; reflexivity).
    apply slice_from_app. }
  rewrite Hname, Hargs. simpl. unfold execproc_argument. simpl. rewrite Hfloat.
  run. rewrite Hj. simpl. rewrite Htail.
  assert (Hd : find_sub (lit "describe") [41%N] = -1) by (vm_compute; reflexivity).
  rewrite Hd. simpl.
  unfold with_events.
  destruct (callproc E name [ArgStr []]) as [[]|e]; simpl;
    rewrite <- !app_assoc; reflexivity.
Qed.

Lemma do_execproc_empty_parentheses_witness :
  do_execproc sample_env (lit "refresh_cache () ;") sample_world =
  match callproc sample_env (lit "refresh_cache") [ArgStr []] with
  | Ok _ => (Return tt,
             with_events sample_world
               [EvCallproc (lit "refresh_cache") [ArgStr []];
                EvPrintColored (lit "Done!") (lit "green")])
  | Raise e => (Return tt,
                with_events sample_world
                  [EvCallproc (lit "refresh_cache") [ArgStr []]; EvPrintException e])
  end.
Proof.
  apply (do_execproc_empty_parentheses sample_env (lit "refresh_cache () ;")
           (lit "refresh_cache") sample_world).
  - vm_compute. reflexivity.
  - apply (proj1 (bool_decide_eq_false _)). vm_compute. reflexivity.
  - apply (proj1 (bool_decide_eq_false _)). vm_compute. reflexivity.
  - vm_compute. reflexivity.
Defined.

(** ** [do_change_db]: a line of whitespace *)

(** X6: a line that is not empty but holds only whitespace makes
    [do_change_db] raise [IndexError], from [line.split()[0]]; nothing is
    printed and the shell is left as it was. *)
Theorem do_change_db_blank_line E line w :
  line <> [] -> split_ws line = [] ->
  do_change_db E line w = (Raised IndexError, w).
Proof.
  intros Hne Hblank. unfold do_change_db, str_eqb.
  rewrite (bool_decide_eq_false_2 _ Hne), split_ws_normalized, Hblank.
  reflexivity.
Qed.

Lemma do_change_db_blank_line_witness :
  do_change_db sample_env (lit "   ") sample_world = (Raised IndexError, sample_world).
Proof.
  apply (do_change_db_blank_line sample_env (lit "   ") sample_world).
  - vm_compute. discriminate.
  - vm_compute. reflexivity.
Defined.

(** ** [do_set_password]: what the command leaves alone *)

(** X7: [do_set_password] never assigns [self.password]: after every run,
    also one that has changed the password in the database and in the
    configuration file, the attributes of the shell other than
    [desconfig] (the password it connected with among them) are what
    they were, and so are the tables. *)
Theorem do_set_password_keeps_attributes E arg w :
  let s := self w in
  let s' := self (do_set_password E arg w).2 in
  password s' = password s /\ user s' = user s /\ dbname s' = dbname s /\
  dbhost s' = dbhost s /\ service_name s' = service_name s /\ port s' = port s /\
  dsn s' = dsn s /\ con s' = con s /\ cur s' = cur s /\
  db (do_set_password E arg w).2 = db w.
Proof.
  cbv zeta. rewrite do_set_password_eq. cbv zeta.
  destruct (search_nonword _ _); [repeat split|].
  destruct (str_eqb _ []); [repeat split|].
  destruct (negb _); [repeat split|].
  destruct (query_and_print E _); [|repeat split].
  destruct (config_set _ _ _ _); [|repeat split].
  destruct (write_desconfig E _) as [[]|]; repeat split.
Qed.

(** X8: [do_set_password] is not atomic.  When the [alter user] statement
    has gone through and the section of the database is missing from the
    configuration, or the configuration file cannot be written, the
    command reports that the password could not be changed, although the
    database has the new password. *)
Theorem do_set_password_not_atomic E arg w :
  let pw1 := getpass E (lit "Enter new password:") in
  let pw2 := getpass E (lit "Re-Enter new password:") in
  let query := lit "alter user " ++ user (self w) ++ lit " identified by "
                 ++ [34%N] ++ pw1 ++ [34%N] ++ lit "  " in
  let alter := EvQueryAndPrint query None
                 (Some (lit "Password changed in " ++ upper E (dbname (self w)))) None in
  let failed := EvPrintColored (lit "Password could not be changed in "
                                  ++ upper E (dbname (self w)) ++ nl) (lit "red") in
  search_nonword (alnum_beyond E) pw1 = false -> pw1 <> [] -> pw1 = pw2 ->
  query_and_print E query = Ok tt ->
  (desconfig (self w) !! (lit "db-" ++ dbname (self w)) = None \/
   forall c, write_desconfig E c <> Ok tt) ->
  exists evs e,
    trace (do_set_password E arg w).2 = trace w ++ evs ++ [failed; EvPrintExcInfo e] /\
    alter ∈ evs.
Proof.
  intros pw1 pw2 query alter failed Hword Hne Hsame Hquery Hfail.
  rewrite do_set_password_eq. fold pw1 pw2 query alter. cbv zeta.
  rewrite Hword.
  assert (str_eqb pw1 [] = false) as -> by (apply bool_decide_eq_false; exact Hne).
  assert (str_eqb pw1 pw2 = true) as -> by (apply bool_decide_eq_true; exact Hsame).
  simpl negb. cbv iota. rewrite Hquery.
  set (asked := [EvPrint []; EvGetpass (lit "Enter new password:")]
                  ++ [EvGetpass (lit "Re-Enter new password:"); EvPrint []]).
  destruct (config_set _ _ _ _) as [c|e] eqn:Hset.
  - destruct Hfail as [Hnone | Hwrite].
    { unfold config_set in Hset. rewrite Hnone in Hset. discriminate. }
    destruct (write_desconfig E c) as [[]|e] eqn:Hw; [exfalso; exact (Hwrite c Hw)|].
    exists (asked ++ [alter; EvWriteDesconfig c]), e. split.
    + simpl. reflexivity.
    + apply elem_of_app. right. left.
  - exists (asked ++ [alter]), e. split.
    + simpl. reflexivity.
    + apply elem_of_app. right. left.
Qed.

Lemma do_set_password_not_atomic_witness :
  exists evs e,
    trace (do_set_password sample_env [] destest_world).2
    = trace destest_world ++ evs
        ++ [EvPrintColored (lit "Password could not be changed in "
                              ++ upper sample_env (dbname (self destest_world)) ++ nl)
                           (lit "red");
            EvPrintExcInfo e] /\
    EvQueryAndPrint
      (lit "alter user " ++ user (self destest_world) ++ lit " identified by "
         ++ [34%N] ++ getpass sample_env (lit "Enter new password:") ++ [34%N] ++ lit "  ")
      None (Some (lit "Password changed in " ++ upper sample_env (dbname (self destest_world))))
      None ∈ evs.
Proof.
  apply (do_set_password_not_atomic sample_env [] destest_world).
  - vm_compute. reflexivity.
  - by vm_compute.
  - reflexivity.
  - reflexivity.
  - left. vm_compute. reflexivity.
Defined.

(** ** Loads that go through *)

Lemma world_eta w : {| self := self w; db := db w; trace := trace w |} = w.
Proof. destruct w; reflexivity. Qed.

Section LoadTables.
Context (E : Env) (tbl : str).

Lemma load_chunk_succeeds iteration c vals d w :
  helpers_succeed E ->
  load_chunk E tbl iteration (Some c) vals (Some d) w
  = (Return true,
     {| self := self w;
        db := <[tbl := (if iteration =? 0 then [] else default [] (db w !! tbl)) ++ vals]> (db w);
        trace := trace w ++ (if iteration =? 0 then [EvCreateTable tbl c d] else [])
                   ++ [EvInsertData tbl c vals d iteration] |}).
Proof.
  intros (Hcreate & Hinsert & _).
  unfold load_chunk, call_create_table, call_insert_data, local.
  destruct (iteration =? 0); run.
  - rewrite Hcreate. simpl. rewrite Hinsert. simpl.
    rewrite lookup_insert_eq, insert_insert_eq. simpl.
    rewrite <- !app_assoc. reflexivity.
  - rewrite Hinsert. simpl. reflexivity.
Qed.

Lemma pandas_try_stops tail iteration total dtypes :
  stops tail ->
  exists data',
    pandas_try E true (PandasReader tail) iteration total dtypes = (Ok None, data') \/
    exists e, pandas_try E true (PandasReader tail) iteration total dtypes = (Raise e, data').
Proof.
  unfold pandas_try. destruct tail as [|[f|e] rest]; simpl.
  - intros _. eexists. right. eexists. reflexivity.
  - intros ->. eexists. left. reflexivity.
  - intros _. eexists. right. eexists. reflexivity.
Qed.

Lemma load_pandas_unfold fuel iterator data iteration total dtypes :
  load_pandas E (S fuel) tbl iterator data iteration total dtypes
  = let '(r, data) := pandas_try E iterator data iteration total dtypes in
    match r with
    | Raise _ => mret (Some total)
    | Ok None => mret (Some total)
    | Ok (Some (dtypes, columns, values, total_rows)) =>
        inserted ← load_chunk E tbl iteration columns values dtypes;
        if inserted : bool then
          if negb iterator then mret (Some total_rows)
          else load_pandas E fuel tbl iterator data (iteration + 1) total_rows dtypes
        else mret None
    end.
Proof. reflexivity. Qed.

Lemma load_pandas_reader goods : forall fuel tail iteration total dtypes dt w,
  helpers_succeed E ->
  Forall (fun f => df_values f <> []) goods ->
  stops tail ->
  0 <= iteration ->
  (iteration = 0 -> forall f0, head goods = Some f0 -> get_dtypes E (PandasObject f0) = Ok dt) ->
  (iteration <> 0 -> dtypes = Some dt) ->
  (length goods < fuel)%nat ->
  load_pandas E fuel tbl true (PandasReader (map Ok goods ++ tail)) iteration total dtypes w
  = (Return (Some (total + len (concat (map df_values goods)))),
     {| self := self w;
        db := match goods with
              | [] => db w
              | _ => <[tbl := (if iteration =? 0 then [] else default [] (db w !! tbl))
                                ++ concat (map df_values goods)]> (db w)
              end;
        trace := trace w ++ load_events tbl iteration (map (chunk_of_frame dt) goods) |}).
Proof.
  induction goods as [|f goods IH];
    intros fuel tail iteration total dtypes dt w Hh Hgoods Hstop Hit Hzero Hlater Hfuel.
  - destruct fuel as [|fuel]; [simpl in Hfuel; lia|].
    simpl map. simpl app. rewrite load_pandas_unfold.
    destruct (pandas_try_stops tail iteration total dtypes Hstop) as (data' & [-> | [e ->]]);
      simpl; rewrite app_nil_r, Z.add_0_r, world_eta; reflexivity.
  - destruct fuel as [|fuel]; [simpl in Hfuel; lia|].
    inversion Hgoods as [|? ? Hf Hgoods']; subst.
    simpl map. simpl app. rewrite load_pandas_unfold.
    rewrite (pandas_try_reader E f (map Ok goods ++ tail) iteration total dtypes dt Hf).
    2:{ intros Hi. apply (Hzero Hi f). reflexivity. }
    2:{ exact Hlater. }
    unfold mbind, M_bind. rewrite load_chunk_succeeds by exact Hh.
    simpl negb. cbv iota.
    rewrite (IH fuel tail (iteration + 1) (total + len (df_values f)) (Some dt) dt);
      [|assumption|assumption|assumption|lia|intros; lia|reflexivity|simpl in Hfuel; lia].
    assert ((iteration + 1 =? 0) = false) as -> by (apply Z.eqb_neq; lia).
    cbn [self db trace]. f_equal; [f_equal; f_equal|].
    + simpl concat. rewrite len_app. lia.
    + f_equal.
      * destruct goods as [|g goods'].
        -- simpl. rewrite app_nil_r. reflexivity.
        -- rewrite lookup_insert_eq, insert_insert_eq. simpl default.
           rewrite <- !app_assoc. reflexivity.
      * rewrite <- !app_assoc. reflexivity.
Qed.


(** The rows that a pass of a FITS loop reads, when the bounds are not
    negative: [chunk] rows from [start] on, or those that are left. *)
Lemma slice_window {A} (s : list A) start chunk :
  0 <= start -> 0 <= chunk ->
  slice s start (start + chunk) = take (Z.to_nat chunk) (drop (Z.to_nat start) s).
Proof.
  intros Hs Hc. unfold slice. pose proof (len_nonneg s) as Hn. unfold len in *.
  destruct (Z_le_gt_dec start (Z.of_nat (length s))) as [Hle|Hgt].
  - rewrite (clamp_id _ start) by lia.
    destruct (Z_le_gt_dec (start + chunk) (Z.of_nat (length s))) as [Hle'|Hgt'].
    + rewrite clamp_id by lia. f_equal. lia.
    + assert (clamp (Z.of_nat (length s)) (start + chunk) = Z.of_nat (length s)) as ->
          by (unfold clamp; destruct (Z.ltb_spec (start + chunk) 0); lia).
      rewrite !take_ge; [reflexivity | |]; rewrite length_drop; lia.
  - assert (clamp (Z.of_nat (length s)) start = Z.of_nat (length s)) as ->
        by (unfold clamp; destruct (Z.ltb_spec start 0); lia).
    assert (clamp (Z.of_nat (length s)) (start + chunk) = Z.of_nat (length s)) as ->
        by (unfold clamp; destruct (Z.ltb_spec (start + chunk) 0); lia).
    rewrite Z.sub_diag. rewrite (drop_ge s (Z.to_nat start)) by lia.
    rewrite take_nil. reflexivity.
Qed.

Section FitsTable.
Context (f : FITS) (columns : list (str * dtype)) (rows : list row) (dt : list dtype).
Hypothesis Htable : hdus f !! 1%nat = Some (TableHDU columns rows).

Lemma fits_try_table iteration total start chunk dtypes cols :
  (iteration = 0 -> get_dtypes E (FitsObject f) = Ok dt) ->
  (iteration <> 0 -> dtypes = Some dt /\ cols = Some (map fst columns)) ->
  fits_try E f iteration total start chunk dtypes cols
  = let values := slice rows start (start + chunk) in
    if len values =? 0 then Ok None
    else Ok (Some (Some dt, Some (map fst columns), values, total + len values)).
Proof.
  intros Hzero Hlater. unfold fits_try, fits_getitem. rewrite Htable.
  destruct (Z.eqb_spec iteration 0) as [Hi|Hi].
  - rewrite (Hzero Hi). reflexivity.
  - destruct (Hlater Hi) as [-> ->]. reflexivity.
Qed.

Lemma load_fits_unfold fuel chunk start iteration total dtypes cols :
  load_fits E (S fuel) tbl f chunk start iteration total dtypes cols
  = match fits_try E f iteration total start chunk dtypes cols with
    | Raise _ => mret (Some total)
    | Ok None => mret (Some total)
    | Ok (Some (dtypes, columns, values, total_rows)) =>
        inserted ← load_chunk E tbl iteration columns values dtypes;
        if inserted : bool then
          load_fits E fuel tbl f chunk (start + chunk) (iteration + 1)
                    total_rows dtypes columns
        else mret None
    end.
Proof. reflexivity. Qed.

Lemma load_fits_complete chunk fuel : forall start iteration total dtypes cols w,
  helpers_succeed E ->
  0 < chunk -> 0 <= start -> 0 <= iteration ->
  (iteration = 0 -> get_dtypes E (FitsObject f) = Ok dt) ->
  (iteration <> 0 -> dtypes = Some dt /\ cols = Some (map fst columns)) ->
  (Z.to_nat (len rows - start) < fuel)%nat ->
  let rest := drop (Z.to_nat start) rows in
  exists chunks,
    load_fits E fuel tbl f chunk start iteration total dtypes cols w
    = (Return (Some (total + len rest)),
       {| self := self w;
          db := match rest with
                | [] => db w
                | _ => <[tbl := (if iteration =? 0 then [] else default [] (db w !! tbl))
                                  ++ rest]> (db w)
                end;
          trace := trace w ++ load_events tbl iteration chunks |}) /\
    concat (map ch_values chunks) = rest /\
    Forall (fun c => ch_columns c = map fst columns /\ ch_dtypes c = dt /\
                     ch_values c <> [] /\ len (ch_values c) <= chunk) chunks.
Proof.
  induction fuel as [|fuel IH];
    intros start iteration total dtypes cols w Hh Hc Hs Hit Hzero Hlater Hfuel rest;
    [lia|].
  rewrite load_fits_unfold, (fits_try_table _ _ _ _ _ _ Hzero Hlater). cbv zeta.
  rewrite slice_window by lia. fold rest.
  destruct (len (take (Z.to_nat chunk) rest) =? 0) eqn:Hlen.
  - assert (Hrest : rest = []).
    { destruct rest as [|x rest']; [reflexivity|].
      destruct (Z.to_nat chunk) as [|n] eqn:Hn; [lia|]. discriminate Hlen. }
    exists []. rewrite Hrest. simpl. rewrite app_nil_r, Z.add_0_r, world_eta.
    split; [reflexivity|]. split; [reflexivity | constructor].
  - set (values := take (Z.to_nat chunk) rest) in *.
    assert (Hvalues : values <> []) by (apply len_zero_nil, Hlen).
    assert (Hstart : start < len rows).
    { destruct (Z_lt_ge_dec start (len rows)) as [Hlt|Hge]; [exact Hlt|].
      exfalso. apply Hvalues. unfold values, rest.
      rewrite (drop_ge rows) by (unfold len in Hge; lia). apply take_nil. }
    unfold mbind, M_bind. rewrite load_chunk_succeeds by exact Hh.
    set (w1 := {| self := self w; db := _; trace := _ |}).
    destruct (IH (start + chunk) (iteration + 1) (total + len values) (Some dt)
                 (Some (map fst columns)) w1)
      as (chunks & Hrun & Hcat & Hall); try assumption; try lia.
    { intros _. split; reflexivity. }
    rewrite Hrun.
    assert (Hdrop : drop (Z.to_nat (start + chunk)) rows = drop (Z.to_nat chunk) rest).
    { unfold rest. rewrite drop_drop. f_equal. lia. }
    rewrite Hdrop in *.
    assert (Hsplit : rest = values ++ drop (Z.to_nat chunk) rest)
      by (symmetry; apply take_drop).
    exists ({| ch_columns := map fst columns; ch_values := values; ch_dtypes := dt |}
              :: chunks).
    assert ((iteration + 1 =? 0) = false) as Hnz by (apply Z.eqb_neq; lia).
    split; [|split].
    + f_equal; [f_equal; f_equal|].
      * rewrite Hsplit at 2. rewrite len_app. lia.
      * unfold w1. cbn [self db trace]. rewrite Hnz. f_equal.
        -- assert (Hm : forall (l : list row) (a b : DB),
                      l <> [] -> match l with [] => a | _ :: _ => b end = b)
             by (intros [|] ? ? ?; [contradiction | reflexivity]).
           assert (Hrest : rest <> []).
           { intros Hnil. apply Hvalues. unfold values. rewrite Hnil. apply take_nil. }
           rewrite (Hm rest) by exact Hrest.
           destruct (drop (Z.to_nat chunk) rest) as [|y rest'] eqn:Hd.
           ++ rewrite app_nil_r in Hsplit. rewrite <- Hsplit. reflexivity.
           ++ rewrite lookup_insert_eq, insert_insert_eq. simpl default.
              rewrite <- app_assoc, <- Hsplit. reflexivity.
        -- rewrite load_events_step, <- !app_assoc. reflexivity.
    + simpl. rewrite Hcat. symmetry. exact Hsplit.
    + constructor; [|exact Hall]. simpl. repeat split; [exact Hvalues|].
      unfold values, len. rewrite length_take. lia.
Qed.

End FitsTable.

End LoadTables.

(** The command around its loops, when the table is new and the file is
    read. *)
Lemma do_load_table_loops E fuel filename table name chunk w data iterator :
  ~ ((splitext (basename filename)).2 = lit ".h5" /\ chunk <> None) ->
  check_table_exists E (db w) (table_name filename table name) = false ->
  read_file E filename = Ok (data, iterator) ->
  do_load_table E fuel (Some filename) table name chunk w =
  let tbl := table_name filename table name in
  let w0 := with_events w [EvCheckTableExists tbl; EvReadFile filename] in
  match load_loops E fuel tbl data iterator chunk w0 with
  | (Return (Some total), w1) => (Return tt, with_events w1 (report_events E tbl total))
  | (Return None, w1) => (Return tt, w1)
  | (Raised e, w1) => (Raised e, w1)
  | (Exited c, w1) => (Exited c, w1)
  | (OutOfFuel, w1) => (OutOfFuel, w1)
  end.
Proof.
  intros Hguard Hexists Hread. unfold do_load_table.
  destruct (splitext (basename filename)) as [base ext] eqn:Hsplit. simpl in Hguard.
  assert (str_eqb ext (lit ".h5") && bool_decide (chunk <> None) = false) as ->.
  { apply andb_false_iff.
    destruct (str_eqb ext (lit ".h5")) eqn:He; [|left; reflexivity].
    right. apply bool_decide_eq_false. intros Hc. apply Hguard.
    split; [apply str_eqb_true, He | exact Hc]. }
  unfold call_read_file, load_report. run. rewrite Hexists, Hread. simpl.
  unfold with_events. simpl. rewrite <- !app_assoc. simpl.
  destruct (load_loops _ _ _ _ _ _ _) as [[[total|]| | |] w1]; try reflexivity.
  apply (emit_all_run (report_events E _ total) w1).
Qed.

Lemma load_loops_reader E fuel tbl chunks chunk w :
  load_loops E fuel tbl (PandasReader chunks) true chunk w
  = match load_pandas E fuel tbl true (PandasReader chunks) 0 0 None w with
    | (Return r, w1) => (Return r, w1)
    | (Raised e, w1) => (Raised e, w1)
    | (Exited c, w1) => (Exited c, w1)
    | (OutOfFuel, w1) => (OutOfFuel, w1)
    end.
Proof.
  unfold load_loops.
  change (str_eqb (file_type (PandasReader chunks)) (lit "pandas")) with true.
  change (str_eqb (file_type (PandasReader chunks)) (lit "fits")) with false. cbv iota.
  unfold mbind, M_bind, mret, M_ret.
  destruct (load_pandas _ _ _ _ _ _ _ _ _) as [[[total|]| | |] w1]; reflexivity.
Qed.

(** X9: a failure to read a later chunk is not reported.  When the reader
    delivers some chunks with rows and then stops, be it at the end of
    the file, at a chunk that cannot be read or at a chunk without rows,
    [do_load_table] inserts the chunks it has read, prints no error, and
    reports that the table is loaded, with the number of the rows read so
    far. *)
Theorem do_load_table_read_error_hidden E fuel filename table name chunk w goods tail dt :
  let tbl := table_name filename table name in
  helpers_succeed E ->
  ~ ((splitext (basename filename)).2 = lit ".h5" /\ chunk <> None) ->
  check_table_exists E (db w) tbl = false ->
  read_file E filename = Ok (PandasReader (map Ok goods ++ tail), true) ->
  Forall (fun f => df_values f <> []) goods ->
  stops tail ->
  (forall f0, head goods = Some f0 -> get_dtypes E (PandasObject f0) = Ok dt) ->
  (length goods < fuel)%nat ->
  do_load_table E fuel (Some filename) table name chunk w
  = (Return tt,
     {| self := self w;
        db := match goods with
              | [] => db w
              | _ => <[tbl := concat (map df_values goods)]> (db w)
              end;
        trace := trace w ++ [EvCheckTableExists tbl; EvReadFile filename]
                   ++ load_events tbl 0 (map (chunk_of_frame dt) goods)
                   ++ report_events E tbl (len (concat (map df_values goods))) |}).
Proof.
  intros tbl Hh Hguard Hexists Hread Hgoods Hstop Hdt Hfuel.
  rewrite (do_load_table_loops E fuel filename table name chunk w _ _ Hguard Hexists Hread).
  cbv zeta. fold tbl. rewrite load_loops_reader.
  rewrite (load_pandas_reader E tbl goods fuel tail 0 0 None dt);
    [|assumption|assumption|assumption|lia|intros _; exact Hdt|intros H; contradiction|exact Hfuel].
  unfold with_events. cbn [self db trace]. rewrite Z.add_0_l, <- !app_assoc.
  destruct goods; reflexivity.
Qed.

Lemma do_load_table_read_error_hidden_witness :
  do_load_table broken_file_env 2 (Some (lit "example.csv")) None None (Some 2) sample_world
  = (Return tt,
     {| self := sample_self;
        db := {[ lit "example" := first_rows ]};
        trace := [EvCheckTableExists (lit "example"); EvReadFile (lit "example.csv")]
                   ++ load_events (lit "example") 0
                        [chunk_of_frame [f8; f8] (sample_frame first_rows)]
                   ++ report_events broken_file_env (lit "example") 2 |}).
Proof.
  rewrite (do_load_table_read_error_hidden broken_file_env 2 (lit "example.csv") None None
             (Some 2) sample_world [sample_frame first_rows]
             [Raise (LibError (lit "Error tokenizing data")); Ok (sample_frame more_rows)]
             [f8; f8]).
  - vm_compute. reflexivity.
  - repeat split.
  - intros [H _]. vm_compute in H. discriminate H.
  - vm_compute. reflexivity.
  - reflexivity.
  - repeat constructor. discriminate.
  - exact I.
  - reflexivity.
  - simpl. lia.
Defined.

Lemma load_loops_fits E fuel tbl f iterator chunk w :
  load_loops E fuel tbl (FitsFile f) iterator chunk w
  = match chunk with
    | Some c => load_fits E fuel tbl f c 0 0 0 None None w
    | None =>
        match fits_getitem f 1 with
        | Ok h =>
            match hdu_get_nrows h with
            | Ok n => load_fits E fuel tbl f n 0 0 0 None None w
            | Raise e => (Raised e, w)
            end
        | Raise e => (Raised e, w)
        end
    end.
Proof.
  unfold load_loops.
  change (str_eqb (file_type (FitsFile f)) (lit "pandas")) with false.
  change (str_eqb (file_type (FitsFile f)) (lit "fits")) with true. cbv iota.
  unfold mbind, M_bind, mret, M_ret, lift, raise. simpl.
  destruct chunk as [c|]; simpl; [reflexivity|].
  destruct (fits_getitem f 1) as [h|e]; simpl; [|reflexivity].
  destruct (hdu_get_nrows h) as [n|e]; reflexivity.
Qed.

(** A load of a FITS table, from the command to its report. *)
Lemma load_fits_table_run E fuel filename table name chunk w f iterator
    columns rows dt :
  let tbl := table_name filename table name in
  helpers_succeed E ->
  ~ ((splitext (basename filename)).2 = lit ".h5" /\ chunk <> None) ->
  check_table_exists E (db w) tbl = false ->
  read_file E filename = Ok (FitsFile f, iterator) ->
  hdus f !! 1%nat = Some (TableHDU columns rows) ->
  get_dtypes E (FitsObject f) = Ok dt ->
  rows <> [] ->
  (forall c, chunk = Some c -> 0 < c) ->
  (length rows < fuel)%nat ->
  exists chunks,
    do_load_table E fuel (Some filename) table name chunk w
    = (Return tt,
       {| self := self w;
          db := <[tbl := rows]> (db w);
          trace := trace w ++ [EvCheckTableExists tbl; EvReadFile filename]
                     ++ load_events tbl 0 chunks ++ report_events E tbl (len rows) |}) /\
    concat (map ch_values chunks) = rows /\
    Forall (fun c => ch_columns c = map fst columns /\ ch_dtypes c = dt /\
                     ch_values c <> [] /\
                     len (ch_values c) <= default (len rows) chunk) chunks.
Proof.
  intros tbl Hh Hguard Hexists Hread Htable Hdt Hrows Hchunk Hfuel.
  rewrite (do_load_table_loops E fuel filename table name chunk w _ _ Hguard Hexists Hread).
  cbv zeta. fold tbl. rewrite load_loops_fits.
  set (n := default (len rows) chunk).
  assert (Hn : 0 < n).
  { unfold n. destruct chunk as [c|]; simpl; [apply Hchunk; reflexivity|].
    unfold len. destruct rows; [contradiction | simpl length; lia]. }
  set (w0 := with_events w _).
  assert (Hloops :
    match chunk with
    | Some c => load_fits E fuel tbl f c 0 0 0 None None w0
    | None =>
        match fits_getitem f 1 with
        | Ok h =>
            match hdu_get_nrows h with
            | Ok n => load_fits E fuel tbl f n 0 0 0 None None w0
            | Raise e => (Raised e, w0)
            end
        | Raise e => (Raised e, w0)
        end
    end = load_fits E fuel tbl f n 0 0 0 None None w0).
  { unfold n. destruct chunk as [c|]; [reflexivity|].
    unfold fits_getitem. rewrite Htable. reflexivity. }
  rewrite Hloops.
  destruct (load_fits_complete E tbl f columns rows dt Htable n fuel 0 0 0 None None w0
              Hh Hn ltac:(lia) ltac:(lia) (fun _ => Hdt) ltac:(intros H; contradiction)
              ltac:(unfold len; lia))
    as (chunks & Hrun & Hcat & Hall).
  simpl drop in *. rewrite Hrun. exists chunks.
  split; [|split; [exact Hcat | exact Hall]].
  unfold w0, with_events. cbn [self db trace]. rewrite Z.add_0_l, <- !app_assoc.
  destruct rows; [contradiction | reflexivity].
Qed.

(** X10: a FITS table is loaded completely, whatever the size of the
    chunks.  With helpers that do their work, [do_load_table] on a FITS
    file whose table has rows, read in chunks of any positive number of
    rows (or in one piece, without [--chunksize]), creates the table,
    inserts every row once and in the order of the file, in chunks of at
    most that size, and reports the number of rows of the file. *)
Theorem do_load_table_fits_complete E fuel filename table name chunk w f iterator
    columns rows dt :
  let tbl := table_name filename table name in
  helpers_succeed E ->
  ~ ((splitext (basename filename)).2 = lit ".h5" /\ chunk <> None) ->
  check_table_exists E (db w) tbl = false ->
  read_file E filename = Ok (FitsFile f, iterator) ->
  hdus f !! 1%nat = Some (TableHDU columns rows) ->
  get_dtypes E (FitsObject f) = Ok dt ->
  rows <> [] ->
  (forall c, chunk = Some c -> 0 < c) ->
  (length rows < fuel)%nat ->
  exists chunks,
    do_load_table E fuel (Some filename) table name chunk w
    = (Return tt,
       {| self := self w;
          db := <[tbl := rows]> (db w);
          trace := trace w ++ [EvCheckTableExists tbl; EvReadFile filename]
                     ++ load_events tbl 0 chunks ++ report_events E tbl (len rows) |}) /\
    concat (map ch_values chunks) = rows /\
    Forall (fun c => ch_columns c = map fst columns /\ ch_dtypes c = dt /\
                     ch_values c <> [] /\
                     len (ch_values c) <= default (len rows) chunk) chunks.
Proof.
  apply load_fits_table_run.
Qed.

Lemma do_load_table_fits_complete_witness :
  exists chunks,
    do_load_table fits_env 4 (Some (lit "example.fits")) None None (Some 2) sample_world
    = (Return tt,
       {| self := sample_self;
          db := <[lit "example" := first_rows ++ more_rows]> ∅;
          trace := [EvCheckTableExists (lit "example"); EvReadFile (lit "example.fits")]
                     ++ load_events (lit "example") 0 chunks
                     ++ report_events fits_env (lit "example") 3 |}) /\
    concat (map ch_values chunks) = first_rows ++ more_rows /\
    Forall (fun c => len (ch_values c) <= 2) chunks.
Proof.
  destruct (do_load_table_fits_complete fits_env 4 (lit "example.fits") None None (Some 2)
              sample_world sample_fits false [(lit "RA", f8); (lit "DEC", f8)]
              (first_rows ++ more_rows) [f8; f8])
    as (chunks & Hrun & Hcat & Hall).
  - repeat split.
  - intros [H _]. vm_compute in H. discriminate H.
  - vm_compute. reflexivity.
  - reflexivity.
  - reflexivity.
  - reflexivity.
  - discriminate.
  - intros c Hc. injection Hc as <-. lia.
  - simpl. lia.
  - exists chunks. split; [exact Hrun|]. split; [exact Hcat|].
    eapply Forall_impl; [exact Hall|]. intros c (_ & _ & _ & Hlen). exact Hlen.
Defined.

(** ** Loads that fail *)

Section KeepsTables.
Context (E : Env) (tbl : str).
Hypothesis Hkeeps : keeps_tables E.

Ltac helper_calls :=
  repeat match goal with
    | |- context [create_table E ?t ?c ?d ?x] =>
        pose proof (proj1 Hkeeps t c d x);
        destruct (create_table E t c d x) as [[[]|?] ?]; simpl
    | |- context [insert_data E ?t ?c ?v ?d ?i ?x] =>
        pose proof (proj1 (proj2 Hkeeps) t c v d i x);
        destruct (insert_data E t c v d i x) as [[[]|?] ?]; simpl
    | |- context [drop_table E ?t ?x] =>
        rewrite (proj2 (proj2 Hkeeps) t x); simpl
    end.

Ltac lookups :=
  subst;
  repeat match goal with
    | |- context [<[?t := _]> _ !! ?t] => rewrite lookup_insert_eq
    | |- context [delete ?t _ !! ?t] => rewrite lookup_delete_eq
    | H : ?t' <> ?t |- context [<[?t := _]> _ !! ?t'] => rewrite lookup_insert_ne by congruence
    | H : ?t' <> ?t |- context [delete ?t _ !! ?t'] => rewrite lookup_delete_ne by congruence
    end.

(** A pass over a chunk that is read: the chunk is in the table, or the
    table is gone; the other tables are as they were. *)
Lemma load_chunk_db iteration cols vals dts w :
  let r := load_chunk E tbl iteration cols vals dts w in
  (forall t, t <> tbl -> db r.2 !! t = db w !! t) /\
  ((r.1 = Return true /\
    db r.2 !! tbl
    = Some ((if iteration =? 0 then [] else default [] (db w !! tbl)) ++ vals)) \/
   (r.1 = Return false /\ db r.2 !! tbl = None)).
Proof.
  unfold load_chunk, call_create_table, call_insert_data, load_failed, call_drop_table,
    local.
  destruct cols as [c|], dts as [d|], (iteration =? 0); run; helper_calls;
    (split; [intros t Ht; lookups; auto|]);
    try (left; split; [reflexivity|]; lookups; reflexivity);
    try (right; split; [reflexivity|]; lookups; reflexivity).
Qed.


(** What a loop leaves of the table [tbl], from [iteration] on. *)
Lemma load_loop_step iteration total vals (w w1 : world) (r : outcome (option Z) * world) :
  0 <= iteration -> vals <> [] ->
  (forall t, t <> tbl -> db w1 !! t = db w !! t) ->
  db w1 !! tbl = Some ((if iteration =? 0 then [] else default [] (db w !! tbl)) ++ vals) ->
  ((forall t, t <> tbl -> db r.2 !! t = db w1 !! t) /\
   match r.1 with
   | Return (Some total') =>
       (total' = total + len vals /\ db r.2 !! tbl = db w1 !! tbl) \/
       (exists rows, rows <> [] /\ total' = total + len vals + len rows /\
                     db r.2 !! tbl
                     = Some ((if iteration + 1 =? 0 then [] else default [] (db w1 !! tbl))
                               ++ rows))
   | Return None => db r.2 !! tbl = None
   | Raised _ => False
   | Exited _ => False
   | OutOfFuel => True
   end) ->
  (forall t, t <> tbl -> db r.2 !! t = db w !! t) /\
  match r.1 with
  | Return (Some total') =>
      (total' = total /\ db r.2 !! tbl = db w !! tbl) \/
      (exists rows, rows <> [] /\ total' = total + len rows /\
                    db r.2 !! tbl
                    = Some ((if iteration =? 0 then [] else default [] (db w !! tbl)) ++ rows))
  | Return None => db r.2 !! tbl = None
  | Raised _ => False
  | Exited _ => False
  | OutOfFuel => True
  end.
Proof.
  intros Hit Hvals Hothers Hw1 [Hothers' Hr].
  split; [intros t Ht; rewrite Hothers', Hothers by exact Ht; reflexivity|].
  destruct r as [[[total'|]| | |] w2]; simpl in *; auto.
  right. destruct Hr as [[-> Hdb] | (rows & Hrows & -> & Hdb)].
  - exists vals. split; [exact Hvals|]. split; [reflexivity|].
    rewrite Hdb. exact Hw1.
  - exists (vals ++ rows). split; [destruct vals; [contradiction | discriminate]|].
    split; [rewrite len_app; lia|].
    rewrite Hdb, Hw1.
    assert ((iteration + 1 =? 0) = false) as -> by (apply Z.eqb_neq; lia).
    simpl. rewrite <- app_assoc. reflexivity.
Qed.

Lemma load_pandas_db fuel : forall iterator data iteration total dts w,
  0 <= iteration ->
  let r := load_pandas E fuel tbl iterator data iteration total dts w in
  (forall t, t <> tbl -> db r.2 !! t = db w !! t) /\
  match r.1 with
  | Return (Some total') =>
      (total' = total /\ db r.2 !! tbl = db w !! tbl) \/
      (exists rows, rows <> [] /\ total' = total + len rows /\
                    db r.2 !! tbl
                    = Some ((if iteration =? 0 then [] else default [] (db w !! tbl)) ++ rows))
  | Return None => db r.2 !! tbl = None
  | Raised _ => False
  | Exited _ => False
  | OutOfFuel => True
  end.
Proof.
  induction fuel as [|fuel IH]; intros iterator data iteration total dts w Hit;
    [simpl; auto|].
  cbv zeta. rewrite load_pandas_unfold.
  destruct (pandas_try E iterator data iteration total dts)
    as [[[[[[dt cols] vals] total1]|]|e] data'] eqn:Htry; simpl; auto.
  apply pandas_try_chunk in Htry as [Hvals ->].
  destruct (load_chunk_db iteration cols vals dt w) as [Hothers Hchunk].
  unfold mbind, M_bind.
  destruct (load_chunk E tbl iteration cols vals dt w) as [o w1]. simpl in *.
  destruct Hchunk as [[-> Hw1] | [-> Hw1]]; [|simpl; auto].
  destruct iterator; cbn [negb].
  - apply (load_loop_step iteration total vals w w1); try assumption.
    apply IH. lia.
  - simpl. split; [exact Hothers|]. right. exists vals. auto.
Qed.

Lemma load_fits_db fuel : forall f chunk start iteration total dts cols w,
  0 <= iteration ->
  let r := load_fits E fuel tbl f chunk start iteration total dts cols w in
  (forall t, t <> tbl -> db r.2 !! t = db w !! t) /\
  match r.1 with
  | Return (Some total') =>
      (total' = total /\ db r.2 !! tbl = db w !! tbl) \/
      (exists rows, rows <> [] /\ total' = total + len rows /\
                    db r.2 !! tbl
                    = Some ((if iteration =? 0 then [] else default [] (db w !! tbl)) ++ rows))
  | Return None => db r.2 !! tbl = None
  | Raised _ => False
  | Exited _ => False
  | OutOfFuel => True
  end.
Proof.
  induction fuel as [|fuel IH]; intros f chunk start iteration total dts cols w Hit;
    [simpl; auto|].
  cbv zeta. rewrite load_fits_unfold.
  destruct (fits_try E f iteration total start chunk dts cols)
    as [[[[[dt cols'] vals] total1]|]|e] eqn:Htry; simpl; auto.
  apply fits_try_chunk in Htry as [Hvals ->].
  destruct (load_chunk_db iteration cols' vals dt w) as [Hothers Hchunk].
  unfold mbind, M_bind.
  destruct (load_chunk E tbl iteration cols' vals dt w) as [o w1]. simpl in *.
  destruct Hchunk as [[-> Hw1] | [-> Hw1]]; [|simpl; auto].
  apply (load_loop_step iteration total vals w w1); try assumption.
  apply IH. lia.
Qed.

End KeepsTables.

(** X11: with helpers that keep the tables in order, [do_load_table] is all
    or nothing for the table it names.  When a run on a name that has no
    table yet comes to its end, the other tables are as they were, and
    the new table either does not exist (a failed [create_table] or
    [insert_data] is followed by [drop_table]) or holds rows, in which
    case the command has returned and has reported exactly that number of
    rows as loaded. *)
Theorem do_load_table_all_or_nothing E fuel filename table name chunk w :
  let tbl := table_name filename table name in
  let r := do_load_table E fuel (Some filename) table name chunk w in
  keeps_tables E ->
  db w !! tbl = None ->
  r.1 <> OutOfFuel ->
  (forall t, t <> tbl -> db r.2 !! t = db w !! t) /\
  (db r.2 !! tbl = None \/
   exists rows,
     rows <> [] /\ db r.2 !! tbl = Some rows /\ r.1 = Return tt /\
     EvPrintColored (loaded_message E tbl (len rows)) (lit "green") ∈ trace r.2).
Proof.
  intros tbl r Hkeeps Hnew Hfuel. subst r.
  destruct (decide ((splitext (basename filename)).2 = lit ".h5" /\ chunk <> None))
    as [[Hext Hchunk] | Hguard].
  { unfold do_load_table in *.
    destruct (splitext (basename filename)) as [base ext]. simpl in Hext. subst ext.
    assert (bool_decide (chunk <> None) = true) as Hb by (apply bool_decide_eq_true, Hchunk).
    change (str_eqb (lit ".h5") (lit ".h5")) with true in *. rewrite Hb in *.
    simpl. auto. }
  destruct (check_table_exists E (db w) tbl) eqn:Hexists.
  { unfold do_load_table in *.
    destruct (splitext (basename filename)) as [base ext].
    destruct (_ && _); [simpl; auto|].
    fold tbl in Hfuel |- *. revert Hfuel. run. rewrite Hexists. simpl. auto. }
  destruct (read_file E filename) as [[data iterator]|e] eqn:Hread.
  2:{ unfold do_load_table in *.
      destruct (splitext (basename filename)) as [base ext].
      destruct (_ && _); [simpl; auto|].
      fold tbl in Hfuel |- *. revert Hfuel. unfold call_read_file. run.
      rewrite Hexists, Hread. simpl. auto. }
  rewrite (do_load_table_loops E fuel filename table name chunk w _ _ Hguard Hexists Hread)
    in *.
  cbv zeta in *. fold tbl in Hfuel |- *.
  set (w0 := with_events w _) in *.
  assert (Hloops :
    let r := load_loops E fuel tbl data iterator chunk w0 in
    (forall t, t <> tbl -> db r.2 !! t = db w0 !! t) /\
    match r.1 with
    | Return (Some total') =>
        (total' = 0 /\ db r.2 !! tbl = db w0 !! tbl) \/
        (exists rows, rows <> [] /\ total' = 0 + len rows /\ db r.2 !! tbl = Some ([] ++ rows))
    | Return None => db r.2 !! tbl = None
    | Raised _ => db r.2 = db w0
    | Exited _ => False
    | OutOfFuel => True
    end).
  { destruct data as [df|chunks|f].
    - unfold load_loops.
      change (str_eqb (file_type (PandasFrame df)) (lit "pandas")) with true.
      change (str_eqb (file_type (PandasFrame df)) (lit "fits")) with false. cbv iota.
      pose proof (load_pandas_db E tbl Hkeeps fuel iterator (PandasFrame df) 0 0 None w0
                    ltac:(lia)) as Hp.
      cbv zeta in *. unfold mbind, M_bind, mret, M_ret.
      destruct (load_pandas _ _ _ _ _ _ _ _ _) as [[[total|]| | |] w1]; simpl in *;
        try exact Hp. destruct Hp as [_ []].
    - unfold load_loops.
      change (str_eqb (file_type (PandasReader chunks)) (lit "pandas")) with true.
      change (str_eqb (file_type (PandasReader chunks)) (lit "fits")) with false. cbv iota.
      pose proof (load_pandas_db E tbl Hkeeps fuel iterator (PandasReader chunks) 0 0 None w0
                    ltac:(lia)) as Hp.
      cbv zeta in *. unfold mbind, M_bind, mret, M_ret.
      destruct (load_pandas _ _ _ _ _ _ _ _ _) as [[[total|]| | |] w1]; simpl in *;
        try exact Hp. destruct Hp as [_ []].
    - rewrite load_loops_fits. cbv zeta.
      assert (Hf : forall n,
                 let r := load_fits E fuel tbl f n 0 0 0 None None w0 in
                 (forall t, t <> tbl -> db r.2 !! t = db w0 !! t) /\
                 match r.1 with
                 | Return (Some total') =>
                     (total' = 0 /\ db r.2 !! tbl = db w0 !! tbl) \/
                     (exists rows, rows <> [] /\ total' = 0 + len rows /\
                                   db r.2 !! tbl = Some ([] ++ rows))
                 | Return None => db r.2 !! tbl = None
                 | Raised _ => db r.2 = db w0
                 | Exited _ => False
                 | OutOfFuel => True
                 end).
      { intros n.
        pose proof (load_fits_db E tbl Hkeeps fuel f n 0 0 0 None None w0 ltac:(lia)) as Hp.
        cbv zeta in *.
        destruct (load_fits _ _ _ _ _ _ _ _ _ _ _) as [[[total|]| | |] w1]; simpl in *;
          try exact Hp. destruct Hp as [_ []]. }
      destruct chunk as [c|]; [apply Hf|].
      destruct (fits_getitem f 1) as [h|e]; [|simpl; auto].
      destruct (hdu_get_nrows h) as [n|e]; [apply Hf | simpl; auto]. }
  cbv zeta in Hloops.
  destruct (load_loops E fuel tbl data iterator chunk w0) as [[[total|]| | |] w1];
    simpl in *; destruct Hloops as [Hothers Hres].
  - split; [exact Hothers|].
    destruct Hres as [[-> Hdb] | (rows & Hrows & -> & Hdb)].
    + left. rewrite Hdb. exact Hnew.
    + right. exists rows. split; [exact Hrows|]. split; [exact Hdb|].
      split; [reflexivity|].
      apply elem_of_app. right. rewrite Z.add_0_l. left.
  - split; [exact Hothers|]. left. exact Hres.
  - split; [exact Hothers|]. left. rewrite Hres. exact Hnew.
  - contradiction.
  - contradiction.
Qed.

Lemma do_load_table_all_or_nothing_witness :
  (forall t, t <> lit "example" ->
     db (do_load_table failing_insert_env 3 (Some (lit "example.csv")) None None (Some 2)
           sample_world).2 !! t = None) /\
  db (do_load_table failing_insert_env 3 (Some (lit "example.csv")) None None (Some 2)
        sample_world).2 !! lit "example" = None.
Proof.
  destruct (do_load_table_all_or_nothing failing_insert_env 3 (lit "example.csv") None None
              (Some 2) sample_world) as [Hothers Htable].
  - split; [|split].
    + intros t c dt d. reflexivity.
    + apply failing_insert_env_appends.
    + intros t d. reflexivity.
  - reflexivity.
  - vm_compute. discriminate.
  - split; [exact Hothers|]. vm_compute. reflexivity.
Defined.

(** ** A load followed by an append *)

Section AppendTables.
Context (E : Env) (tbl : str).
Hypothesis Hhelpers : helpers_succeed E.

Lemma append_chunk_succeeds iteration c vals d w :
  append_chunk E tbl iteration (Some c) vals (Some d) w
  = (Return true,
     {| self := self w;
        db := <[tbl := default [] (db w !! tbl) ++ vals]> (db w);
        trace := trace w ++ [EvInsertData tbl c vals d iteration] |}).
Proof.
  destruct Hhelpers as (_ & Hinsert & _).
  unfold append_chunk, call_insert_data, local. run.
  rewrite Hinsert. reflexivity.
Qed.

Section FitsAppend.
Context (f : FITS) (columns : list (str * dtype)) (rows : list row) (dt : list dtype).
Hypothesis Htable : hdus f !! 1%nat = Some (TableHDU columns rows).

Lemma append_fits_unfold fuel chunk start iteration total dtypes cols :
  append_fits E (S fuel) tbl f chunk start iteration total dtypes cols
  = match fits_try E f iteration total start chunk dtypes cols with
    | Raise _ => mret (Some total)
    | Ok None => mret (Some total)
    | Ok (Some (dtypes, columns, values, total_rows)) =>
        inserted ← append_chunk E tbl iteration columns values dtypes;
        if inserted : bool then
          append_fits E fuel tbl f chunk (start + chunk) (iteration + 1)
                      total_rows dtypes columns
        else mret None
    end.
Proof. reflexivity. Qed.

(** The loop appends the rows that are left, in their order. *)
Lemma append_fits_complete chunk fuel : forall start iteration total dtypes cols w,
  0 < chunk -> 0 <= start -> 0 <= iteration ->
  (iteration = 0 -> get_dtypes E (FitsObject f) = Ok dt) ->
  (iteration <> 0 -> dtypes = Some dt /\ cols = Some (map fst columns)) ->
  (Z.to_nat (len rows - start) < fuel)%nat ->
  let rest := drop (Z.to_nat start) rows in
  exists evs,
    append_fits E fuel tbl f chunk start iteration total dtypes cols w
    = (Return (Some (total + len rest)),
       {| self := self w;
          db := match rest with
                | [] => db w
                | _ => <[tbl := default [] (db w !! tbl) ++ rest]> (db w)
                end;
          trace := trace w ++ evs |}).
Proof.
  induction fuel as [|fuel IH];
    intros start iteration total dtypes cols w Hc Hs Hit Hzero Hlater Hfuel rest;
    [lia|].
  rewrite append_fits_unfold, (fits_try_table E f columns rows dt Htable _ _ _ _ _ _ Hzero Hlater).
  cbv zeta. rewrite slice_window by lia. fold rest.
  destruct (len (take (Z.to_nat chunk) rest) =? 0) eqn:Hlen.
  - assert (Hrest : rest = []).
    { destruct rest as [|x rest']; [reflexivity|].
      destruct (Z.to_nat chunk) as [|n] eqn:Hn; [lia|]. discriminate Hlen. }
    exists []. rewrite Hrest. simpl. rewrite app_nil_r, Z.add_0_r, world_eta. reflexivity.
  - set (values := take (Z.to_nat chunk) rest) in *.
    assert (Hvalues : values <> []) by (apply len_zero_nil, Hlen).
    unfold mbind, M_bind. rewrite append_chunk_succeeds.
    set (w1 := {| self := self w; db := _; trace := _ |}).
    destruct (IH (start + chunk) (iteration + 1) (total + len values) (Some dt)
                 (Some (map fst columns)) w1)
      as (evs & Hrun); try assumption; try lia.
    { intros _. split; reflexivity. }
    { assert (start < len rows); [|lia].
      destruct (Z_lt_ge_dec start (len rows)) as [Hlt|Hge]; [exact Hlt|].
      exfalso. apply Hvalues. unfold values, rest.
      rewrite (drop_ge rows) by (unfold len in Hge; lia). apply take_nil. }
    rewrite Hrun.
    assert (Hdrop : drop (Z.to_nat (start + chunk)) rows = drop (Z.to_nat chunk) rest).
    { unfold rest. rewrite drop_drop. f_equal. lia. }
    rewrite Hdrop in *.
    assert (Hsplit : rest = values ++ drop (Z.to_nat chunk) rest)
      by (symmetry; apply take_drop).
    eexists. f_equal; [f_equal; f_equal|].
    + rewrite Hsplit at 2. rewrite len_app. lia.
    + unfold w1. cbn [self db trace]. f_equal; [|rewrite <- app_assoc; reflexivity].
      assert (Hm : forall (l : list row) (a b : DB),
                 l <> [] -> match l with [] => a | _ :: _ => b end = b)
        by (intros [|] ? ? ?; [contradiction | reflexivity]).
      assert (Hrest : rest <> []).
      { intros Hnil. apply Hvalues. unfold values. rewrite Hnil. apply take_nil. }
      rewrite (Hm rest) by exact Hrest.
      destruct (drop (Z.to_nat chunk) rest) as [|y rest'] eqn:Hd.
      * rewrite app_nil_r in Hsplit. rewrite <- Hsplit. reflexivity.
      * rewrite lookup_insert_eq, insert_insert_eq. simpl default.
        rewrite <- app_assoc, <- Hsplit. reflexivity.
Qed.

End FitsAppend.

End AppendTables.

(** The command around its loop, when the table exists and the file is a
    FITS file. *)
Lemma do_append_table_fits E fuel filename table name chunk w f iterator :
  ~ ((splitext (basename filename)).2 = lit ".h5" /\ chunk <> None) ->
  check_table_exists E (db w) (table_name filename table name) = true ->
  read_file E filename = Ok (FitsFile f, iterator) ->
  do_append_table E fuel (Some filename) table name chunk w =
  let tbl := table_name filename table name in
  let w0 := with_events w [EvCheckTableExists tbl; EvReadFile filename] in
  match (match chunk with
         | Some c => append_fits E fuel tbl f c 0 0 0 None None w0
         | None =>
             match fits_getitem f 1 with
             | Ok h =>
                 match hdu_get_nrows h with
                 | Ok n => append_fits E fuel tbl f n 0 0 0 None None w0
                 | Raise e => (Raised e, w0)
                 end
             | Raise e => (Raised e, w0)
             end
         end) with
  | (Return (Some total), w1) =>
      (Return tt, with_events w1 [EvPrintColored (appended_message E tbl total) (lit "green")])
  | (Return None, w1) => (Return tt, w1)
  | (Raised e, w1) => (Raised e, w1)
  | (Exited c, w1) => (Exited c, w1)
  | (OutOfFuel, w1) => (OutOfFuel, w1)
  end.
Proof.
  intros Hguard Hexists Hread. unfold do_append_table.
  destruct (splitext (basename filename)) as [base ext] eqn:Hsplit. simpl in Hguard.
  assert (str_eqb ext (lit ".h5") && bool_decide (chunk <> None) = false) as ->.
  { apply andb_false_iff.
    destruct (str_eqb ext (lit ".h5")) eqn:He; [|left; reflexivity].
    right. apply bool_decide_eq_false. intros Hc. apply Hguard.
    split; [apply str_eqb_true, He | exact Hc]. }
  unfold call_read_file, append_loops.
  run. rewrite Hexists, Hread. simpl.
  change (str_eqb (lit "fits") (lit "pandas")) with false.
  change (str_eqb (lit "fits") (lit "fits")) with true. cbv iota.
  unfold with_events. simpl. rewrite <- !app_assoc. simpl.
  destruct chunk as [c|]; simpl.
  - destruct (append_fits _ _ _ _ _ _ _ _ _ _ _) as [[[total|]| | |] w1]; reflexivity.
  - destruct (fits_getitem f 1) as [h|e]; simpl; [|reflexivity].
    destruct (hdu_get_nrows h) as [n|e]; simpl; [|reflexivity].
    destruct (append_fits _ _ _ _ _ _ _ _ _ _ _) as [[[total|]| | |] w1]; reflexivity.
Qed.

(** X12: a load followed by an append of the same FITS file holds every row
    twice.  With helpers that do their work and a [check_table_exists]
    that knows the tables, [do_load_table] on a new table and then
    [do_append_table] with the same file both return, whatever the sizes
    of their chunks; the table holds the rows of the file after the load,
    and the rows of the file twice, in the order of the file, after the
    append, which reports the number of rows of the file. *)
Theorem load_then_append_fits E fuel filename table name chunk1 chunk2 w f iterator
    columns rows dt :
  let tbl := table_name filename table name in
  helpers_succeed E ->
  (forall d t, check_table_exists E d t = bool_decide (is_Some (d !! t))) ->
  (splitext (basename filename)).2 <> lit ".h5" ->
  db w !! tbl = None ->
  read_file E filename = Ok (FitsFile f, iterator) ->
  hdus f !! 1%nat = Some (TableHDU columns rows) ->
  get_dtypes E (FitsObject f) = Ok dt ->
  rows <> [] ->
  (forall c, chunk1 = Some c \/ chunk2 = Some c -> 0 < c) ->
  (length rows < fuel)%nat ->
  let r1 := do_load_table E fuel (Some filename) table name chunk1 w in
  let r2 := do_append_table E fuel (Some filename) table name chunk2 r1.2 in
  r1.1 = Return tt /\ r2.1 = Return tt /\
  db r1.2 = <[tbl := rows]> (db w) /\
  db r2.2 = <[tbl := rows ++ rows]> (db w) /\
  EvPrintColored (appended_message E tbl (len rows)) (lit "green") ∈ trace r2.2.
Proof.
  intros tbl Hh Hcheck Hext Hnew Hread Htable Hdt Hrows Hchunk Hfuel r1 r2.
  assert (Hguard : forall chunk : option Z,
            ~ ((splitext (basename filename)).2 = lit ".h5" /\ chunk <> None))
    by (intros chunk [He _]; contradiction).
  destruct (load_fits_table_run E fuel filename table name chunk1 w f iterator columns rows dt
              Hh (Hguard chunk1))
    as (chunks & Hrun1 & _ & _); try assumption.
  { rewrite Hcheck. apply bool_decide_eq_false. fold tbl. rewrite Hnew.
    intros [x Hx]. discriminate Hx. }
  { intros c Hc. apply Hchunk. left. exact Hc. }
  fold tbl in Hrun1. subst r2. subst r1. rewrite Hrun1. cbn [fst snd].
  set (w1 := {| self := self w; db := <[tbl := rows]> (db w); trace := _ |}).
  rewrite (do_append_table_fits E fuel filename table name chunk2 w1 f iterator (Hguard chunk2));
    [|rewrite Hcheck; apply bool_decide_eq_true; unfold w1; cbn [db]; fold tbl;
      rewrite lookup_insert_eq; eauto|exact Hread].
  cbv zeta. fold tbl.
  set (w0 := with_events w1 _).
  set (n := default (len rows) chunk2).
  assert (Hn : 0 < n).
  { unfold n. destruct chunk2 as [c|]; simpl; [apply Hchunk; right; reflexivity|].
    unfold len. destruct rows; [contradiction | simpl length; lia]. }
  assert (Hloops :
    match chunk2 with
    | Some c => append_fits E fuel tbl f c 0 0 0 None None w0
    | None =>
        match fits_getitem f 1 with
        | Ok h =>
            match hdu_get_nrows h with
            | Ok n => append_fits E fuel tbl f n 0 0 0 None None w0
            | Raise e => (Raised e, w0)
            end
        | Raise e => (Raised e, w0)
        end
    end = append_fits E fuel tbl f n 0 0 0 None None w0).
  { unfold n. destruct chunk2 as [c|]; [reflexivity|].
    unfold fits_getitem. rewrite Htable. reflexivity. }
  rewrite Hloops.
  destruct (append_fits_complete E tbl Hh f columns rows dt Htable n fuel 0 0 0 None None w0
              Hn ltac:(lia) ltac:(lia) (fun _ => Hdt) ltac:(intros H; contradiction)
              ltac:(unfold len; lia))
    as (evs & Hrun2).
  simpl drop in Hrun2. rewrite Hrun2. cbn [fst snd db trace with_events].
  split; [reflexivity|]. split; [reflexivity|]. split; [reflexivity|].
  split.
  - destruct rows as [|x rows']; [contradiction|].
    unfold w0, w1, with_events. cbn [db].
    rewrite lookup_insert_eq, insert_insert_eq. reflexivity.
  - rewrite Z.add_0_l. apply elem_of_app. right. left.
Qed.

Lemma load_then_append_fits_witness :
  db (do_append_table fits_env 4 (Some (lit "example.fits")) None None None
        (do_load_table fits_env 4 (Some (lit "example.fits")) None None (Some 2)
           sample_world).2).2
  = <[table_name (lit "example.fits") None None
        := (first_rows ++ more_rows) ++ (first_rows ++ more_rows)]> (db sample_world).
Proof.
  destruct (load_then_append_fits fits_env 4 (lit "example.fits") None None (Some 2) None
              sample_world sample_fits false [(lit "RA", f8); (lit "DEC", f8)]
              (first_rows ++ more_rows) [f8; f8])
    as (_ & _ & _ & Hdb & _).
  - repeat split.
  - intros d t. reflexivity.
  - by vm_compute.
  - reflexivity.
  - reflexivity.
  - reflexivity.
  - reflexivity.
  - discriminate.
  - intros c [Hc | Hc]; [injection Hc as <-; lia | discriminate Hc].
  - simpl. lia.
  - exact Hdb.
Defined.

Import FileioWrite.

(** ** The names of the files of a series *)

Lemma digits_uint_acc d : forall acc,
  fold_left (fun acc c => 10 * acc + (Z.of_N c - 48))
            (map N_of_ascii (list_ascii_of_string (NilEmpty.string_of_uint d))) (Z.pos acc)
  = Z.pos (Pos.of_uint_acc d acc).
Proof.
  induction d; intros acc; simpl; [reflexivity| | | | | | | | | |];
    rewrite <- IHd; f_equal; lia.
Qed.

Lemma digits_uint d :
  fold_left (fun acc c => 10 * acc + (Z.of_N c - 48))
            (map N_of_ascii (list_ascii_of_string (NilEmpty.string_of_uint d))) 0
  = Z.of_N (Pos.of_uint d).
Proof.
  induction d; simpl; [reflexivity | exact IHd | | | | | | | | |];
    rewrite <- digits_uint_acc; f_equal.
Qed.

Lemma uint_digits d :
  Forall (fun c => (48 <= c <= 57)%N)
         (map N_of_ascii (list_ascii_of_string (NilEmpty.string_of_uint d))).
Proof. induction d; simpl; constructor; try assumption; lia. Qed.

Lemma str_of_int_pos p :
  str_of_int (Z.pos p)
  = map N_of_ascii (list_ascii_of_string (NilEmpty.string_of_uint (Pos.to_uint p))).
Proof.
  unfold str_of_int. simpl. unfold NilZero.string_of_uint.
  pose proof (DecimalPos.Unsigned.of_to p) as Hp.
  destruct (Pos.to_uint p); [discriminate Hp | reflexivity ..].
Qed.

Lemma digits_value_str_of_int z : 0 <= z -> digits_value (str_of_int z) = z.
Proof.
  intros Hz. destruct z as [|p|p]; [reflexivity | | lia].
  rewrite str_of_int_pos. unfold digits_value. rewrite digits_uint.
  rewrite DecimalPos.Unsigned.of_to. reflexivity.
Qed.

Lemma str_of_int_digits z : 0 <= z -> Forall (fun c => (48 <= c <= 57)%N) (str_of_int z).
Proof.
  intros Hz. destruct z as [|p|p]; [|rewrite str_of_int_pos; apply uint_digits | lia].
  change (str_of_int 0) with [48%N]. repeat constructor; lia.
Qed.

Lemma digits_value_zero_pad w s : digits_value (zero_pad w s) = digits_value s.
Proof.
  unfold digits_value, zero_pad. rewrite fold_left_app. f_equal.
  induction (w - length s)%nat as [|n IH]; simpl; [reflexivity | exact IH].
Qed.

Lemma fmt_06d_value z : 0 <= z -> digits_value (fmt_06d z) = z.
Proof.
  intros Hz. unfold fmt_06d.
  assert ((z <? 0) = false) as -> by (apply Z.ltb_ge; lia).
  rewrite digits_value_zero_pad. apply digits_value_str_of_int, Hz.
Qed.

Lemma fmt_06d_inj a b : 0 <= a -> 0 <= b -> fmt_06d a = fmt_06d b -> a = b.
Proof.
  intros Ha Hb Heq. rewrite <- (fmt_06d_value a Ha), <- (fmt_06d_value b Hb), Heq.
  reflexivity.
Qed.

Lemma fmt_06d_chars z : Forall (fun c => c = 45%N \/ (48 <= c <= 57)%N) (fmt_06d z).
Proof.
  assert (Hpad : forall w s, Forall (fun c => (48 <= c <= 57)%N) s ->
                             Forall (fun c => c = 45%N \/ (48 <= c <= 57)%N) (zero_pad w s)).
  { intros w s Hs. unfold zero_pad. apply Forall_app. split.
    - apply Forall_forall. intros c Hc. apply list_elem_of_In, repeat_spec in Hc. lia.
    - eapply Forall_impl; [exact Hs|]. auto. }
  unfold fmt_06d. destruct (Z.ltb_spec z 0).
  - constructor; [left; reflexivity|]. apply Hpad, str_of_int_digits. lia.
  - apply Hpad, str_of_int_digits. lia.
Qed.

Lemma fmt_06d_no_sep z : sep ∉ fmt_06d z.
Proof.
  intros Hin. pose proof (fmt_06d_chars z) as Hc. rewrite Forall_forall in Hc.
  destruct (Hc _ Hin) as [H | H]; [discriminate H | unfold sep in H; lia].
Qed.

Lemma indexed_name_inj base ext a b :
  0 <= a -> 0 <= b -> indexed_name base ext a = indexed_name base ext b -> a = b.
Proof.
  unfold indexed_name. intros Ha Hb Heq.
  apply app_inv_head, app_inv_head, app_inv_tail in Heq.
  apply fmt_06d_inj; assumption.
Qed.

Lemma slice_to_from {A} (s : list A) i :
  0 <= i <= len s -> slice_to s i ++ slice_from s i = s.
Proof.
  intros Hi. unfold slice_to, slice_from. rewrite !slice_inside by lia.
  simpl drop. replace (Z.to_nat (i - 0)) with (Z.to_nat i) by lia.
  unfold len in *.
  rewrite (take_ge (drop (Z.to_nat i) s)) by (rewrite length_drop; lia).
  apply take_drop.
Qed.

(** The two parts that [splitext] returns make the name. *)
Lemma splitext_join p : (splitext p).1 ++ (splitext p).2 = p.
Proof.
  destruct (splitext_cases p) as [-> | [Hr ->]]; simpl.
  - apply app_nil_r.
  - apply slice_to_from. lia.
Qed.

Lemma indexed_name_not_plain filename k :
  indexed_name (splitext filename).1 (splitext filename).2 k <> filename.
Proof.
  intros Heq. rewrite <- (splitext_join filename) in Heq at 3.
  unfold indexed_name in Heq. apply app_inv_head in Heq.
  apply (f_equal length) in Heq. rewrite !length_app in Heq.
  assert (length (lit "_") = 1%nat) as Hl by (vm_compute; reflexivity).
  rewrite Hl in Heq. lia.
Qed.

(** A numbered file has the extension of the series. *)
Lemma splitext_indexed base t k :
  sep ∉ t -> extsep ∉ t ->
  splitext (indexed_name base (extsep :: t) k)
  = (base ++ lit "_" ++ fmt_06d k, extsep :: t).
Proof.
  intros Hs Hd. unfold indexed_name.
  assert (Hl : lit "_" = [95%N]) by (vm_compute; reflexivity). rewrite Hl.
  replace (base ++ [95%N] ++ fmt_06d k ++ extsep :: t)
    with ((base ++ 95%N :: fmt_06d k) ++ extsep :: t)
    by (rewrite <- app_assoc; reflexivity).
  rewrite splitext_stem_ext; try assumption; try discriminate.
  - reflexivity.
  - apply fmt_06d_no_sep.
Qed.

(** ** [write_file] *)

Lemma file_exts_cases ext :
  ext ∈ FILE_EXTS ->
  ext = lit ".csv" \/ ext = lit ".tab" \/ ext = lit ".h5" \/ ext = lit ".fits".
Proof.
  unfold FILE_EXTS, PANDAS_EXTS, FITS_EXTS. simpl. intros He.
  repeat (apply elem_of_cons in He as [He | He]; [auto|]).
  by apply elem_of_nil in He.
Qed.

(** Tests on names that are known are decided by computation. *)
Ltac known_tests :=
  repeat match goal with
    | |- context [str_in (lit ?a) ?l] =>
        let v := eval vm_compute in (str_in (lit a) l) in
        change (str_in (lit a) l) with v
    | |- context [str_eqb (lit ?a) (lit ?b)] =>
        let v := eval vm_compute in (str_eqb (lit a) (lit b)) in
        change (str_eqb (lit a) (lit b)) with v
    end; cbv beta iota.

Ltac io :=
  unfold mbind, IO_bind, mret, IO_ret, io_lift, io_raise, io_local,
    path_exists, os_remove, os_rename, getsize; simpl.

Lemma target_checks target types :
  (splitext target).2 <> [] -> (splitext target).2 ∈ types ->
  check_filetype target (Some types) = Ok true.
Proof.
  intros Hne Hin. rewrite check_filetype_eq. cbv zeta.
  rewrite (extension_or_name_of_extension target Hne).
  apply (str_in_true _ types) in Hin. unfold extension. rewrite Hin. reflexivity.
Qed.

Section WriteFile.
Context (W : Writers).
Hypothesis Hwrites : writes_files W.

(** The writer for the extension leaves one block in the file. *)
Lemma write_file_dispatch_spec (target : str) (data : DataFrame) (desc : list descriptor) (i : Z) (mode : str) (h : bool) (fs : FS)
    (old : list block) :
  (splitext target).2 ∈ FILE_EXTS ->
  (mode = lit "w" /\ old = []) \/ (mode = lit "a" /\ fs !! target = Some old) ->
  match written W (splitext target).2 data desc h with
  | Some blk =>
      write_file_dispatch W (splitext target).2 target data desc i mode (Some h) fs
      = (Ok tt, <[target := old ++ [blk]]> fs)
  | None =>
      exists e,
        write_file_dispatch W (splitext target).2 target data desc i mode (Some h) fs
        = (Raise e, fs)
  end.
Proof.
  destruct Hwrites as (Hcw & Hca & Hhw & Hha & Hfw & Hfa).
  intros Hext Hmode.
  assert (Hne : (splitext target).2 <> [])
    by (apply supported_nonempty; exact Hext).
  unfold write_file_dispatch, write_pandas, write_fitsio, written.
  pose proof (target_checks target) as Hcheck.
  destruct (splitext target) as [base ext] eqn:Hsplit. simpl in *.
  destruct (file_exts_cases ext Hext) as [-> | [-> | [-> | ->]]]; known_tests.
  - rewrite (Hcheck PANDAS_EXTS Hne) by (by repeat constructor). io.
    destruct Hmode as [[-> ->] | [-> Hold]].
    + rewrite Hcw. reflexivity.
    + rewrite (Hca _ _ _ _ _ _ Hold). reflexivity.
  - rewrite (Hcheck PANDAS_EXTS Hne) by (by repeat constructor). io.
    destruct Hmode as [[-> ->] | [-> Hold]].
    + rewrite Hcw. reflexivity.
    + rewrite (Hca _ _ _ _ _ _ Hold). reflexivity.
  - rewrite (Hcheck PANDAS_EXTS Hne) by (by repeat constructor). io.
    destruct Hmode as [[-> ->] | [-> Hold]].
    + rewrite Hhw. reflexivity.
    + rewrite (Hha _ _ _ _ _ Hold). reflexivity.
  - rewrite (Hcheck FITS_EXTS Hne) by (by repeat constructor). io.
    destruct (np_recarray W desc data) as [arr|e]; simpl; [|eauto].
    destruct Hmode as [[-> ->] | [-> Hold]]; known_tests.
    + cbv beta. case_bool_decide as Hsome; simpl.
      * destruct Hsome as [c Hc]. rewrite Hc, Hfw, insert_delete_eq. reflexivity.
      * rewrite Hfw. reflexivity.
    + rewrite (Hfa _ _ _ _ Hold). reflexivity.
Qed.


End WriteFile.

Lemma write_file_unfold W filename data desc fileindex mode max_mb :
  write_file W filename data desc fileindex mode max_mb
  = (io_lift (check_filetype filename (Some FILE_EXTS));;
     '(fileindex, fileout, mode, header) ←
       (if str_eqb mode (lit "a")
        then write_file_append W filename (splitext filename).1 (splitext filename).2
               fileindex max_mb
        else mret (fileindex, filename, mode,
                   if str_eqb mode (lit "w") then Some true else None));
     write_file_dispatch W (splitext filename).2 fileout data desc fileindex mode header;;
     mret fileindex).
Proof. unfold write_file. destruct (splitext filename); reflexivity. Qed.

Lemma splitext_indexed_supported filename k :
  (splitext filename).2 ∈ FILE_EXTS ->
  (splitext (indexed_name (splitext filename).1 (splitext filename).2 k)).2
  = (splitext filename).2.
Proof.
  intros Hext.
  destruct (extension_shape filename) as [Hnil | (t & Ht & Hdots)].
  - exfalso. apply (supported_nonempty _ Hext). exact Hnil.
  - unfold extension in *. rewrite Ht in *.
    destruct (supported_tail t Hext) as [Hs Hd].
    rewrite splitext_indexed by assumption. reflexivity.
Qed.

Lemma check_filetype_true filename types b :
  check_filetype filename types = Ok b -> b = true.
Proof.
  rewrite check_filetype_eq. cbv zeta. destruct (str_in _ _); congruence.
Qed.

Lemma check_passes filename :
  check_filetype filename (Some FILE_EXTS) = Ok true ->
  ((splitext filename).2 = [] /\ filename ∈ FILE_EXTS) \/ (splitext filename).2 ∈ FILE_EXTS.
Proof.
  rewrite check_filetype_eq. cbv zeta.
  destruct (str_in _ _) eqn:Hin; [|discriminate]. intros _.
  apply str_in_true in Hin. unfold extension_or_name, extension in Hin.
  destruct (str_eqb (splitext filename).2 []) eqn:He.
  - left. split; [apply str_eqb_true, He | exact Hin].
  - right. exact Hin.
Qed.

Lemma sample_writers_write : writes_files sample_writers.
Proof.
  repeat split; intros; try reflexivity; simpl;
    match goal with H : _ !! _ = Some _ |- _ => rewrite H end; reflexivity.
Qed.

(** X13: in mode ['w'], [write_file] writes to [filename] itself, whatever
    the index and the size limit: a call that returns has replaced the
    content of [filename] by the one block with its header and returns the
    index it was given.  The one exception is a name that is a bare
    extension, such as ['.csv']: the check accepts it, and nothing is
    written. *)
Theorem write_file_new_file (W : Writers) (filename : str) (data : DataFrame) (desc : list descriptor)
    (fileindex max_mb : Z) (fs fs' : FS) (i' : Z) :
  writes_files W ->
  write_file W filename data desc fileindex (lit "w") max_mb fs = (Ok i', fs') ->
  i' = fileindex /\
  ((filename ∈ FILE_EXTS /\ fs' = fs) \/
   (exists blk, written W (extension filename) data desc true = Some blk /\
                fs' = <[filename := [blk]]> fs)).
Proof.
  intros Hwrites. rewrite write_file_unfold. known_tests.
  destruct (check_filetype filename (Some FILE_EXTS)) as [b|e] eqn:Hcheck;
    [|io; discriminate].
  pose proof (check_filetype_true _ _ _ Hcheck) as ->.
  destruct (check_passes filename Hcheck) as [[Hnil Hbare] | Hext].
  - rewrite Hnil. io. unfold write_file_dispatch.
    change (str_in [] PANDAS_EXTS) with false. change (str_in [] FITS_EXTS) with false.
    io. intros H. injection H as <- <-. auto.
  - pose proof (write_file_dispatch_spec W Hwrites filename data desc fileindex (lit "w")
                  true fs [] Hext (or_introl (conj eq_refl eq_refl))) as Hspec.
    unfold extension. io.
    destruct (written W (splitext filename).2 data desc true) as [blk|].
    + rewrite Hspec. intros H. injection H as <- <-. split; [reflexivity|].
      right. exists blk. auto.
    + destruct Hspec as [e ->]. discriminate.
Qed.

Lemma write_file_new_file_witness :
  2 = 2 /\
  ((lit "cat.csv" ∈ FILE_EXTS /\
    ({[ lit "cat.csv" := [CsvText (DbDo.sample_frame DbDo.first_rows) (lit ",") true] ]} : FS)
    = ∅) \/
   (exists blk,
      written sample_writers (extension (lit "cat.csv")) (DbDo.sample_frame DbDo.first_rows)
              [] true = Some blk /\
      ({[ lit "cat.csv" := [CsvText (DbDo.sample_frame DbDo.first_rows) (lit ",") true] ]} : FS)
      = <[lit "cat.csv" := [blk]]> ∅)).
Proof.
  apply (write_file_new_file sample_writers (lit "cat.csv")
           (DbDo.sample_frame DbDo.first_rows) [] 2 1000 ∅).
  - apply sample_writers_write.
  - vm_compute. reflexivity.
Defined.

(** X14: when [write_file] does not write.  With a mode other than ['w'] and
    ['a'], and in mode ['a'] when the file of the current index does not
    exist, no file is touched, and the call raises; only a name that is a
    bare extension returns (with the index it was given) when the mode is
    unknown.  In particular mode ['a'] never creates the first file. *)
Theorem write_file_refuses (W : Writers) (filename : str) (data : DataFrame)
    (desc : list descriptor) (fileindex : Z) (mode : str) (max_mb : Z) (fs : FS) :
  (mode <> lit "w" /\ mode <> lit "a") \/
  (mode = lit "a" /\ fs !! current_file filename fileindex = None) ->
  let r := write_file W filename data desc fileindex mode max_mb fs in
  r.2 = fs /\
  ((exists e, r.1 = Raise e) \/
   (r.1 = Ok fileindex /\ mode <> lit "a" /\ filename ∈ FILE_EXTS)).
Proof.
  intros Hmode. cbv zeta. rewrite write_file_unfold.
  destruct (check_filetype filename (Some FILE_EXTS)) as [b|e] eqn:Hcheck;
    [|io; eauto].
  pose proof (check_filetype_true _ _ _ Hcheck) as ->.
  destruct Hmode as [[Hw Ha] | [-> Hmissing]].
  - assert (str_eqb mode (lit "w") = false) as Hw' by (apply bool_decide_eq_false, Hw).
    rewrite Hw'.
    assert (str_eqb mode (lit "a") = false) as Hna by (apply bool_decide_eq_false, Ha).
    rewrite Hna.
    destruct (check_passes filename Hcheck) as [[Hnil Hbare] | Hext].
    + rewrite Hnil. io. unfold write_file_dispatch.
      change (str_in [] PANDAS_EXTS) with false. change (str_in [] FITS_EXTS) with false.
      io. auto.
    + unfold write_file_dispatch, write_fitsio. io.
      assert (Hne : (splitext filename).2 <> []) by (apply supported_nonempty; exact Hext).
      pose proof (target_checks filename FITS_EXTS Hne) as Hfits.
      destruct (file_exts_cases _ Hext) as [He | [He | [He | He]]]; rewrite He in *;
        known_tests; io; eauto.
      rewrite Hfits by (by repeat constructor). simpl.
      destruct (np_recarray W desc data); simpl; [|eauto].
      rewrite Hw', Hna. simpl. eauto.
  - known_tests. unfold write_file_append, current_file, numbered in *. io.
    rewrite Hmissing. simpl. eauto.
Qed.

Lemma write_file_refuses_witness :
  let r := write_file sample_writers (lit "cat.csv") (DbDo.sample_frame DbDo.first_rows) []
             1 (lit "a") 1000 ∅ in
  r.2 = ∅ /\
  ((exists e, r.1 = Raise e) \/
   (r.1 = Ok 1 /\ lit "a" <> lit "a" /\ lit "cat.csv" ∈ FILE_EXTS)).
Proof.
  apply (write_file_refuses sample_writers (lit "cat.csv")
           (DbDo.sample_frame DbDo.first_rows) [] 1 (lit "a") 1000 ∅).
  right. split; reflexivity.
Defined.

(** ** The output of a series of appending calls *)

Section Series.
Context (filename : str).

Lemma seqZ_one m : seqZ m 1 = [m].
Proof. unfold seqZ. simpl. f_equal; lia. Qed.

Lemma seqZ_last i : 0 <= i -> seqZ 1 (i + 1) = seqZ 1 i ++ [1 + i].
Proof. intros Hi. rewrite seqZ_app by lia. rewrite seqZ_one. reflexivity. Qed.

Lemma files_ext (fs1 fs2 : FS) n :
  (forall k, 1 <= k < 1 + n -> fs1 !! numbered filename k = fs2 !! numbered filename k) ->
  concat (map (fun k => default [] (fs1 !! numbered filename k)) (seqZ 1 n))
  = concat (map (fun k => default [] (fs2 !! numbered filename k)) (seqZ 1 n)).
Proof.
  intros Hsame. f_equal. apply map_ext_in. intros k Hk.
  apply list_elem_of_In, elem_of_seqZ in Hk. rewrite Hsame by lia. reflexivity.
Qed.

Lemma output_numbered (fs : FS) i :
  i <> 1 ->
  output filename i fs = concat (map (fun k => default [] (fs !! numbered filename k)) (seqZ 1 i)).
Proof.
  intros Hi. unfold output.
  assert ((i =? 1) = false) as -> by (apply Z.eqb_neq, Hi). reflexivity.
Qed.

Lemma idx_inj a b : 0 <= a -> 0 <= b -> numbered filename a = numbered filename b -> a = b.
Proof. apply indexed_name_inj. Qed.

(** A block at the end of the last file. *)
Lemma output_append_last (fs : FS) i c blk :
  2 <= i -> fs !! numbered filename i = Some c ->
  output filename i (<[numbered filename i := c ++ [blk]]> fs) = output filename i fs ++ [blk].
Proof.
  intros Hi Hc. rewrite !output_numbered by lia.
  assert (Hseq : seqZ 1 i = seqZ 1 (i - 1) ++ [i]).
  { replace i with ((i - 1) + 1) at 1 by lia. rewrite seqZ_last by lia.
    f_equal. f_equal. lia. }
  rewrite Hseq.
  rewrite !map_app, !concat_app. simpl. rewrite !app_nil_r.
  rewrite lookup_insert_eq, Hc. simpl. rewrite app_assoc. f_equal. f_equal.
  apply files_ext. intros k Hk. apply lookup_insert_ne.
  intros Heq. apply idx_inj in Heq; lia.
Qed.

(** A block in a new file, after the last one. *)
Lemma output_new_file (fs : FS) i blk :
  2 <= i ->
  output filename (i + 1) (<[numbered filename (i + 1) := [blk]]> fs) = output filename i fs ++ [blk].
Proof.
  intros Hi. rewrite !output_numbered by lia.
  rewrite seqZ_last by lia.
  rewrite !map_app, !concat_app. simpl. rewrite !app_nil_r.
  replace (1 + i) with (i + 1) by lia.
  rewrite lookup_insert_eq. simpl. f_equal.
  apply files_ext. intros k Hk. apply lookup_insert_ne.
  intros Heq. apply idx_inj in Heq; lia.
Qed.

(** The first file becomes file 1, and the block goes to file 2. *)
Lemma output_first_rotation (fs : FS) c blk :
  fs !! filename = Some c ->
  output filename 2 (<[numbered filename 2 := [blk]]> (<[numbered filename 1 := c]> (delete filename fs)))
  = output filename 1 fs ++ [blk].
Proof.
  intros Hc. rewrite output_numbered by lia. unfold output. simpl.
  change (seqZ 1 2) with [1; 2]. simpl. rewrite app_nil_r.
  rewrite lookup_insert_eq.
  rewrite lookup_insert_ne by (intros Heq; apply idx_inj in Heq; lia).
  rewrite lookup_insert_eq, Hc. reflexivity.
Qed.

End Series.

Lemma write_file_append_spec (W : Writers) (filename : str) (i max_mb : Z) (fs : FS)
    (content : list block) :
  fs !! current_file filename i = Some content ->
  write_file_append W filename (splitext filename).1 (splitext filename).2 i max_mb fs
  = if exceeds (file_bytes W content) max_mb then
      (Ok (i + 1, numbered filename (i + 1), lit "w", Some true),
       if i =? 1 then <[numbered filename 1 := content]> (delete filename fs) else fs)
    else (Ok (i, current_file filename i, lit "a", Some false), fs).
Proof.
  intros Hcur. unfold write_file_append.
  change (indexed_name (splitext filename).1 (splitext filename).2) with (numbered filename).
  fold (current_file filename i). io.
  rewrite Hcur. simpl. destruct (exceeds _ _); [|reflexivity].
  unfold current_file in Hcur.
  destruct (Z.eqb_spec i 1) as [-> | Hi]; simpl; [|reflexivity].
  rewrite Hcur. reflexivity.
Qed.

(** X15: appending keeps what was written.  With writers that write, a call
    of [write_file] in mode ['a'] that returns has added its block at the
    end of the output of the series, and has lost or moved nothing of it:
    the block goes to the end of the current file when that file holds at
    most [max_mb] megabytes, and otherwise to a new file with the next
    index and a header; at the first rotation [filename] is renamed to
    the file numbered 1.  The index that is returned is the one to pass to
    the next call. *)
Theorem write_file_keeps_output (W : Writers) (filename : str) (data : DataFrame)
    (desc : list descriptor) (fileindex max_mb : Z) (fs fs' : FS) (i' : Z) :
  writes_files W -> 1 <= fileindex -> extension filename <> [] ->
  write_file W filename data desc fileindex (lit "a") max_mb fs = (Ok i', fs') ->
  exists content header blk,
    fs !! current_file filename fileindex = Some content /\
    header = exceeds (file_bytes W content) max_mb /\
    i' = (if header then fileindex + 1 else fileindex) /\
    written W (extension filename) data desc header = Some blk /\
    fs' !! current_file filename i' = Some ((if header then [] else content) ++ [blk]) /\
    output filename i' fs' = output filename fileindex fs ++ [blk].
Proof.
  intros Hwrites Hidx Hne. rewrite write_file_unfold. known_tests.
  destruct (check_filetype filename (Some FILE_EXTS)) as [b|e] eqn:Hcheck;
    [|io; discriminate].
  pose proof (check_filetype_true _ _ _ Hcheck) as ->.
  destruct (check_passes filename Hcheck) as [[Hnil _] | Hext]; [contradiction|].
  destruct (fs !! current_file filename fileindex) as [content|] eqn:Hcur.
  2:{ unfold write_file_append.
      change (indexed_name (splitext filename).1 (splitext filename).2)
        with (numbered filename).
      fold (current_file filename fileindex). io.
      rewrite Hcur. discriminate. }
  unfold mbind, IO_bind, io_lift, mret, IO_ret.
  rewrite (write_file_append_spec W filename fileindex max_mb fs content Hcur).
  unfold extension in *.
  intros Hrun. exists content, (exceeds (file_bytes W content) max_mb).
  destruct (exceeds (file_bytes W content) max_mb) eqn:Hbig.
  - set (target := numbered filename (fileindex + 1)) in *.
    assert (Htarget : (splitext target).2 = (splitext filename).2)
      by (apply splitext_indexed_supported; exact Hext).
    set (fs1 := if fileindex =? 1 then _ else fs) in *.
    pose proof (write_file_dispatch_spec W Hwrites target data desc (fileindex + 1)
                  (lit "w") true fs1 []) as Hspec.
    rewrite Htarget in Hspec. specialize (Hspec Hext (or_introl (conj eq_refl eq_refl))).
    destruct (written W (splitext filename).2 data desc true) as [blk|].
    2:{ destruct Hspec as [e He]. rewrite He in Hrun. discriminate. }
    rewrite Hspec in Hrun. injection Hrun as <- <-.
    exists blk. split; [reflexivity|]. split; [reflexivity|]. split; [reflexivity|].
    split; [reflexivity|].
    assert (Hcurrent : current_file filename (fileindex + 1) = target).
    { unfold current_file.
      assert ((fileindex + 1 =? 1) = false) as -> by (apply Z.eqb_neq; lia). reflexivity. }
    split; [rewrite Hcurrent; apply lookup_insert_eq|].
    unfold fs1, target. destruct (Z.eqb_spec fileindex 1) as [-> | Hn1].
    + apply output_first_rotation. exact Hcur.
    + apply output_new_file. lia.
  - set (target := current_file filename fileindex) in *.
    assert (Htarget : (splitext target).2 = (splitext filename).2).
    { unfold target, current_file. destruct (fileindex =? 1); [reflexivity|].
      apply splitext_indexed_supported; exact Hext. }
    pose proof (write_file_dispatch_spec W Hwrites target data desc fileindex
                  (lit "a") false fs content) as Hspec.
    rewrite Htarget in Hspec. specialize (Hspec Hext (or_intror (conj eq_refl Hcur))).
    destruct (written W (splitext filename).2 data desc false) as [blk|].
    2:{ destruct Hspec as [e He]. rewrite He in Hrun. discriminate. }
    rewrite Hspec in Hrun. injection Hrun as <- <-.
    exists blk. split; [reflexivity|]. split; [reflexivity|]. split; [reflexivity|].
    split; [reflexivity|].
    split; [apply lookup_insert_eq|].
    unfold target, current_file in *. destruct (Z.eqb_spec fileindex 1) as [-> | Hn1].
    + unfold output. simpl. rewrite lookup_insert_eq, Hcur. reflexivity.
    + apply output_append_last; [lia | exact Hcur].
Qed.

Lemma write_file_keeps_output_witness :
  let old := CsvText (DbDo.sample_frame DbDo.first_rows) (lit ",") true in
  let fs : FS := {[ lit "cat.csv" := [old; old] ]} in
  let fs' : FS := {[ lit "cat_000001.csv" := [old; old];
                     lit "cat_000002.csv"
                       := [CsvText (DbDo.sample_frame DbDo.more_rows) (lit ",") true] ]} in
  exists content header blk,
    fs !! current_file (lit "cat.csv") 1 = Some content /\
    header = exceeds (file_bytes sample_writers content) 1 /\
    2 = (if header then 1 + 1 else 1) /\
    written sample_writers (extension (lit "cat.csv")) (DbDo.sample_frame DbDo.more_rows)
            [] header = Some blk /\
    fs' !! current_file (lit "cat.csv") 2 = Some ((if header then [] else content) ++ [blk]) /\
    output (lit "cat.csv") 2 fs' = output (lit "cat.csv") 1 fs ++ [blk].
Proof.
  intros old fs fs'.
  apply (write_file_keeps_output sample_writers (lit "cat.csv")
           (DbDo.sample_frame DbDo.more_rows) [] 1 1 fs fs' 2).
  - apply sample_writers_write.
  - lia.
  - by vm_compute.
  - vm_compute. reflexivity.
Defined.

(** ** The import of [dbdo_utils] *)

Lemma chmod_mode (m : Z) :
  DesFile.S_IMODE (Z.lor (Z.ldiff m 4095) (Z.land (2 ^ 8 + 2 ^ 7) 4095)) = 2 ^ 8 + 2 ^ 7.
Proof.
  unfold DesFile.S_IMODE. rewrite Z.land_lor_distr_l, Z.land_ldiff. reflexivity.
Qed.

Lemma chmod_type (m : Z) :
  Z.shiftr (Z.lor (Z.ldiff m 4095) (Z.land (2 ^ 8 + 2 ^ 7) 4095)) 12 = Z.shiftr m 12.
Proof.
  rewrite Z.shiftr_lor, Z.shiftr_ldiff.
  change (Z.shiftr 4095 12) with 0. change (Z.shiftr (Z.land (2 ^ 8 + 2 ^ 7) 4095) 12) with 0.
  rewrite Z.ldiff_0_r, Z.lor_0_r. reflexivity.
Qed.

(** X16: the import of the module leaves the desservices file private.
    When the import completes, the file, if it exists, has the permission
    bits [0o600] exactly and the type bits it had, no other file and no
    variable has changed, and the notice was printed only if the bits had
    to be changed; importing the module once more changes and prints
    nothing. *)
Theorem import_module_private (h h' : DesFile.host) (desfile : str) :
  DesFile.import_module h = (Ok desfile, h') ->
  DesFile.desfile_path (DesFile.environ h) = Ok desfile /\
  DesFile.environ h' = DesFile.environ h /\
  (forall p, p <> desfile -> DesFile.files h' !! p = DesFile.files h !! p) /\
  match DesFile.files h !! desfile with
  | None => h' = h
  | Some f =>
      exists f',
        DesFile.files h' !! desfile = Some f' /\
        DesFile.S_IMODE (DesFile.st_mode f') = 384 /\
        Z.shiftr (DesFile.st_mode f') 12 = Z.shiftr (DesFile.st_mode f) 12 /\
        (DesFile.S_IMODE (DesFile.st_mode f) = 384 -> h' = h) /\
        (DesFile.S_IMODE (DesFile.st_mode f) <> 384 ->
         DesFile.stdout h'
         = DesFile.stdout h
             ++ [lit "Changing permissions to des_service file to read/write by user"])
  end /\
  DesFile.import_module h' = (Ok desfile, h').
Proof.
  unfold DesFile.import_module.
  destruct (DesFile.desfile_path (DesFile.environ h)) as [d|e] eqn:Hpath; [|discriminate].
  destruct (DesFile.files h !! d) as [f|] eqn:Hfile.
  2:{ intros H. injection H as <- <-. rewrite Hpath, Hfile. auto. }
  destruct (Z.eqb_spec (DesFile.S_IMODE (DesFile.st_mode f)) (2 ^ 8 + 2 ^ 7)) as [Hmode | Hmode];
    simpl negb; cbv iota.
  - intros H. injection H as <- <-. rewrite Hpath, Hfile.
    assert ((DesFile.S_IMODE (DesFile.st_mode f) =? 2 ^ 8 + 2 ^ 7) = true) as ->
      by (apply Z.eqb_eq, Hmode).
    simpl. repeat split; try reflexivity.
    exists f. repeat split; try reflexivity; try exact Hmode.
    intros Hne. contradiction.
  - unfold DesFile.os_chmod, DesFile.print. cbn [DesFile.files DesFile.environ DesFile.stdout].
    rewrite Hfile. destruct (DesFile.owned f) eqn:Howned; [|discriminate].
    intros H. injection H as <- <-. cbn [DesFile.files DesFile.environ DesFile.stdout].
    rewrite Hpath, Hfile, !lookup_insert_eq. cbn [DesFile.st_mode DesFile.owned].
    rewrite chmod_mode. simpl negb. cbv iota.
    split; [reflexivity|]. split; [reflexivity|].
    split; [intros p Hp; apply lookup_insert_ne; congruence|].
    split; [|reflexivity].
    eexists. split; [reflexivity|]. cbn [DesFile.st_mode].
    split; [apply chmod_mode|]. split; [apply chmod_type|].
    split; [intros Hm; contradiction | reflexivity].
Qed.

Lemma import_module_private_witness :
  DesFile.import_module (DesFile.import_module DesFile.sample_host).2
  = (Ok (lit "/home/alice/.desservices.ini"), (DesFile.import_module DesFile.sample_host).2).
Proof.
  destruct (import_module_private DesFile.sample_host
              (DesFile.import_module DesFile.sample_host).2
              (lit "/home/alice/.desservices.ini"))
    as (_ & _ & _ & _ & Hagain).
  - vm_compute. reflexivity.
  - exact Hagain.
Defined.

(** ** [do_find_user] *)

Import DbCommands.

Lemma word_split_ws k : is_word k -> split_ws k = [k].
Proof.
  intros Hk. change k with (join (lit " ") [k]) at 1.
  apply split_ws_join. constructor; [exact Hk | constructor].
Qed.

Lemma split_ws_first line k rest :
  split_ws line = k :: rest -> is_word k.
Proof.
  intros Hs. pose proof (split_ws_words line) as Hw. rewrite Hs in Hw.
  by apply Forall_cons in Hw as [Hk _].
Qed.

Lemma split_ws_nonempty line k rest : split_ws line = k :: rest -> line <> [].
Proof. intros Hs ->. discriminate Hs. Qed.

Lemma do_find_user_eq E line w :
  line <> [] ->
  do_find_user E line w =
  let keys := split_ws line in
  let query : option str := None in
  let query := if str_in (dbname (self w)) [lit "dessci"; lit "desoper"]
               then Some (lit "select * from des_users where ") else query in
  let query := if contains (dbname (self w)) (lit "destest")
               then Some (lit "select * from dba_users where ") else query in
  match query with
  | None => (Raised (UnboundLocalError (lit "query")), w)
  | Some q =>
      let q := match keys with
               | [] => q
               | k :: _ =>
                   q ++ (lit "upper(firstname) like upper('" ++ k ++ lit "') or ")
                     ++ (lit "upper(lastname) like upper('" ++ k ++ lit "') or ")
                     ++ (lit "upper(username) like upper ('" ++ k ++ lit "')")
               end in
      (match query_and_print E q with
       | Ok _ => Return tt
       | Raise e => Raised e
       end, with_events w [EvQueryAndPrint q None None None])
  end.
Proof.
  intros Hne. unfold do_find_user.
  assert (str_eqb line [] = false) as -> by (apply bool_decide_eq_false, Hne).
  rewrite split_ws_normalized. cbv zeta.
  unfold mbind, M_bind, get_self, local, lift, raise, mret, M_ret, emit, with_events.
  destruct (split_ws line) as [|k rest] eqn:Hkeys.
  - change (1 <=? len []) with false. cbv iota.
    destruct (contains _ _); [|destruct (str_in _ _)];
      simpl; try destruct (query_and_print E _) as [[]|]; reflexivity.
  - assert ((1 <=? len (k :: rest)) = true) as ->
      by (apply Z.leb_le; unfold len; simpl length; lia).
    cbv iota.
    destruct (contains _ _); [|destruct (str_in _ _)];
      simpl; rewrite <- ?app_assoc;
      try destruct (query_and_print E _) as [[]|]; reflexivity.
Qed.

(** X17: [do_find_user] on a database it does not know.  When the shell is
    connected to a database that is neither [dessci] nor [desoper] and
    whose name is not a part of the word [destest], every line that is
    not empty makes the command raise [UnboundLocalError] for [query];
    nothing is printed and no query is sent. *)
Theorem do_find_user_unknown_database E line w :
  line <> [] ->
  dbname (self w) ∉ [lit "dessci"; lit "desoper"] ->
  contains (dbname (self w)) (lit "destest") = false ->
  do_find_user E line w = (Raised (UnboundLocalError (lit "query")), w).
Proof.
  intros Hne Hdb Htest. rewrite (do_find_user_eq E line w Hne). cbv zeta.
  rewrite Htest. apply (str_in_false _ _) in Hdb. rewrite Hdb. reflexivity.
Qed.

Lemma do_find_user_unknown_database_witness :
  do_find_user sample_env (lit "Doe")
    (with_self sample_world (set_dbname (lit "desdr") sample_self))
  = (Raised (UnboundLocalError (lit "query")),
     with_self sample_world (set_dbname (lit "desdr") sample_self)).
Proof.
  apply (do_find_user_unknown_database sample_env (lit "Doe")
           (with_self sample_world (set_dbname (lit "desdr") sample_self))).
  - by vm_compute.
  - apply (str_in_false _ _). vm_compute. reflexivity.
  - vm_compute. reflexivity.
Defined.

(** X18: [do_find_user] reads one word.  A line runs as its first word
    alone does: the other words of the line are ignored, although the
    help of the command speaks of first and last names. *)
Theorem do_find_user_first_word E line k rest w :
  split_ws line = k :: rest ->
  do_find_user E line w = do_find_user E k w.
Proof.
  intros Hs. pose proof (split_ws_first _ _ _ Hs) as Hk.
  rewrite (do_find_user_eq E line w (split_ws_nonempty _ _ _ Hs)).
  rewrite (do_find_user_eq E k w (proj1 Hk)).
  rewrite Hs, (word_split_ws k Hk). reflexivity.
Qed.

Lemma do_find_user_first_word_witness :
  do_find_user sample_env (lit "John Doe") sample_world
  = do_find_user sample_env (lit "John") sample_world.
Proof.
  apply (do_find_user_first_word sample_env (lit "John Doe") (lit "John") [lit "Doe"]).
  vm_compute. reflexivity.
Defined.

(** ** [do_add_comment] *)

Lemma startswith_app (p s : str) : startswith p (p ++ s) = true.
Proof. induction p as [|c p IH]; simpl; [reflexivity|]. rewrite N.eqb_refl. exact IH. Qed.

Lemma find_sub_from_found sub p s i :
  0 <= i -> 0 <= find_sub_from sub (p ++ sub ++ s) i.
Proof.
  revert i. induction p as [|x p IH]; intros i Hi.
  - simpl app. destruct (sub ++ s) eqn:Heq; simpl.
    + rewrite <- Heq, startswith_app. exact Hi.
    + rewrite <- Heq, startswith_app. exact Hi.
  - simpl. destruct (startswith sub (x :: p ++ sub ++ s)); [exact Hi|].
    apply IH. lia.
Qed.

(** A string that occurs is found. *)
Lemma find_sub_occurs sub p s : (-1 <? find_sub sub (p ++ sub ++ s)) = true.
Proof.
  apply Z.ltb_lt. pose proof (find_sub_from_found sub p s 0 ltac:(lia)).
  unfold find_sub. lia.
Qed.

Lemma getitem_zero {A} (x : A) (l : list A) : getitem (x :: l) 0 = Ok x.
Proof. reflexivity. Qed.

Lemma join_cons_nonempty sep (c : str) (rest : list str) :
  c <> [] -> exists c0 t, join sep (c :: rest) = c0 :: t.
Proof.
  intros Hc. destruct c as [|c0 c']; [contradiction|].
  destruct rest; simpl; eauto.
Qed.

Lemma quote_char : lit "'" = [39%N].
Proof. vm_compute. reflexivity. Qed.

(** The comment of a line with a third word. *)
Lemma unquote_words (c : str) (rest : list str) :
  c <> [] -> unquote (join (lit " ") (c :: rest)) = Ok (comment_text (c :: rest)).
Proof.
  intros Hc. unfold unquote, comment_text. cbv zeta.
  destruct (join_cons_nonempty (lit " ") c rest Hc) as (c0 & t & ->).
  rewrite getitem_zero, quote_char. cbn [startswith rbind mbind result_bind].
  rewrite andb_true_r, (N.eqb_sym 39 c0).
  destruct (N.eqb c0 39); reflexivity.
Qed.

Lemma split_on_found c s :
  find c s <> -1 -> exists a b rest, split_on c s = a :: b :: rest.
Proof.
  unfold find. generalize 0 at 1. induction s as [|x s IH]; intros i Hf; simpl in *.
  - contradiction.
  - destruct (N.eqb x c).
    + destruct (split_on c s) as [|a rest] eqn:Hs; [destruct s; simpl in Hs|].
      * discriminate.
      * destruct (N.eqb _ _); [discriminate|]. destruct (split_on c s); discriminate.
      * eauto.
    + destruct (IH _ Hf) as (a & b & rest & ->). eauto.
Qed.

Lemma len_cons {A} (x : A) (l : list A) : len (x :: l) = 1 + len l.
Proof. unfold len. simpl length. lia. Qed.

Lemma slice_from_two {A} (a b : A) (l : list A) : slice_from (a :: b :: l) 2 = l.
Proof. apply (slice_from_app [a; b] l). Qed.

Ltac short_line :=
  first
    [ eexists; split; [reflexivity | repeat constructor]
    | eexists (cons _ (cons _ nil)); split;
      [unfold with_events; run; rewrite <- app_assoc; reflexivity | repeat constructor] ].

(** What a line of one or two words does: a message, or the help. *)
Lemma do_add_comment_short E line w :
  (length (split_ws line) < 3)%nat ->
  exists evs, do_add_comment E line w = (Return tt, with_events w evs)
              /\ Forall (fun e => match e with EvQueryAndPrint _ _ _ _ => False | _ => True end) evs.
Proof.
  assert (Ht : find_sub (lit "table") (concat []) = -1) by (vm_compute; reflexivity).
  assert (Hc : find_sub (lit "column") (concat []) = -1) by (vm_compute; reflexivity).
  intros Hshort. unfold do_add_comment. rewrite split_ws_normalized. cbv zeta.
  destruct (split_ws line) as [|a [|b [|c rest]]]; [| | |simpl in Hshort; lia].
  - rewrite join_empty_concat, Ht, Hc.
    change (-1 <? -1) with false. cbv iota. short_line.
  - change (len [a] =? 1) with true. cbv iota.
    destruct (_ <? _); [|destruct (_ <? _)]; short_line.
  - change (len [a; b] =? 1) with false. change (len [a; b] =? 2) with true. cbv iota.
    destruct (_ <? _); [|destruct (_ <? _)]; short_line.
Qed.

Lemma bind_lift_ok {A B} (x : A) (k : A -> M B) (w : world) :
  (lift (Ok x) ≫= k) w = k x w.
Proof. reflexivity. Qed.

(** What a line of three words or more does. *)
Lemma do_add_comment_long E line a b c rest w :
  split_ws line = a :: b :: c :: rest ->
  let oneline := concat (a :: b :: c :: rest) in
  let comm := comment_text (c :: rest) in
  do_add_comment E line w =
  if -1 <? find_sub (lit "table") oneline then
    query_sent E (lit "comment on table " ++ b ++ lit " is '" ++ comm ++ lit "'")
      None (Some (lit "Comment added to table: " ++ b)) None w
  else if -1 <? find_sub (lit "column") oneline then
    if find 46%N b =? -1 then
      (Return tt,
       with_events w [EvPrintColored (nl ++ lit "Missing column name for table " ++ b ++ nl)
                                     (lit "red")])
    else
      match split_on 46%N b with
      | table :: column :: _ =>
          query_sent E (lit "comment on column  " ++ b ++ lit " is '" ++ comm ++ lit "'")
            None (Some (lit "Comment added to column: " ++ column ++ lit " in table " ++ table))
            None w
      | _ => (Raised IndexError, w)
      end
  else
    (Return tt,
     with_events w [EvPrintColored (nl ++ lit "Missing arguments" ++ nl) (lit "red");
                    EvHelp (lit "add_comment")]).
Proof.
  intros Hkeys oneline comm.
  assert (Hc : c <> []).
  { pose proof (split_ws_words line) as Hw. rewrite Hkeys in Hw.
    inversion Hw as [|? ? _ Hw1]; inversion Hw1 as [|? ? _ Hw2];
      inversion Hw2 as [|? ? [Hc _] _]. exact Hc. }
  unfold do_add_comment. rewrite split_ws_normalized, Hkeys. cbv zeta.
  rewrite join_empty_concat. fold oneline.
  assert ((len (a :: b :: c :: rest) =? 1) = false) as ->
    by (apply Z.eqb_neq; rewrite !len_cons; pose proof (len_nonneg rest); lia).
  assert ((len (a :: b :: c :: rest) =? 2) = false) as ->
    by (apply Z.eqb_neq; rewrite !len_cons; pose proof (len_nonneg rest); lia).
  assert ((2 <? len (a :: b :: c :: rest)) = true) as ->
    by (apply Z.ltb_lt; rewrite !len_cons; pose proof (len_nonneg rest); lia).
  rewrite slice_from_two, (unquote_words c rest Hc). fold comm.
  unfold query_sent, with_events.
  destruct (_ <? _).
  { run. destruct (query_and_print E _) as [[]|]; reflexivity. }
  destruct (_ <? _); [|run; rewrite <- app_assoc; reflexivity].
  change (getitem (a :: b :: c :: rest) 1) with (Ok b). rewrite bind_lift_ok.
  destruct (find 46%N b =? -1) eqn:Hdot; [reflexivity|].
  change (true && false) with false. cbv iota.
  rewrite bind_lift_ok.
  destruct (split_on 46%N b) as [|table [|column more]]; [reflexivity | reflexivity |].
  run. destruct (query_and_print E _) as [[]|]; reflexivity.
Qed.

(** X19: [do_add_comment] raises no exception of its own.  Whatever the
    line, the indexing of the words, of the comment and of the parts of
    the column name does not fail: an exception that leaves the command
    was raised by [query_and_print], on the statement that the command
    had sent. *)
Theorem do_add_comment_raises E line w e w' :
  do_add_comment E line w = (Raised e, w') ->
  exists qcom message,
    query_and_print E qcom = Raise e /\
    w' = with_events w [EvQueryAndPrint qcom None (Some message) None].
Proof.
  intros Hrun.
  destruct (split_ws line) as [|a [|b [|c rest]]] eqn:Hkeys.
  1-3: destruct (do_add_comment_short E line w) as (evs & Heq & _);
    [rewrite Hkeys; simpl; lia | rewrite Heq in Hrun; discriminate].
  rewrite (do_add_comment_long E line a b c rest w Hkeys) in Hrun. cbv zeta in Hrun.
  unfold query_sent in Hrun.
  destruct (_ <? _).
  { destruct (query_and_print E _) as [[]|e0] eqn:Hq; [discriminate|].
    injection Hrun as <- <-. eauto. }
  destruct (_ <? _); [|discriminate].
  destruct (find 46%N b =? -1) eqn:Hdot; [discriminate|].
  destruct (split_on_found 46%N b) as (t & col & more & Hs); [apply Z.eqb_neq, Hdot|].
  rewrite Hs in Hrun.
  destruct (query_and_print E _) as [[]|e0] eqn:Hq; [discriminate|].
  injection Hrun as <- <-. eauto.
Qed.

Lemma do_add_comment_raises_witness :
  exists qcom message,
    query_and_print refusing_env qcom
    = Raise (LibError (lit "ORA-01031: insufficient privileges")) /\
    with_events sample_world
      [EvQueryAndPrint (lit "comment on column  MY_TABLE.ID is 'Id for my objects'") None
         (Some (lit "Comment added to column: ID in table MY_TABLE")) None]
    = with_events sample_world [EvQueryAndPrint qcom None (Some message) None].
Proof.
  apply (do_add_comment_raises refusing_env (lit "column MY_TABLE.ID 'Id for my objects'")
           sample_world).
  vm_compute. reflexivity.
Defined.

(** X20: a column whose name contains the word [table] gets no comment.
    The command looks for [table] in all the words of the line put
    together, and before it looks for [column]: a [column] line whose
    column name contains [table] in small letters sends a
    [comment on table] statement, with the column name in the place of the
    table. *)
Theorem do_add_comment_table_in_name E line col rest p q w :
  split_ws line = lit "column" :: col :: rest ->
  rest <> [] ->
  col = p ++ lit "table" ++ q ->
  do_add_comment E line w
  = query_sent E (lit "comment on table " ++ col ++ lit " is '" ++ comment_text rest ++ lit "'")
      None (Some (lit "Comment added to table: " ++ col)) None w.
Proof.
  intros Hkeys Hrest Hcol. destruct rest as [|c rest]; [contradiction|].
  rewrite (do_add_comment_long E line _ _ _ _ w Hkeys). cbv zeta.
  replace (concat (lit "column" :: col :: c :: rest))
    with ((lit "column" ++ p) ++ lit "table" ++ (q ++ concat (c :: rest))).
  - rewrite find_sub_occurs. reflexivity.
  - rewrite Hcol. simpl. rewrite <- !app_assoc. reflexivity.
Qed.

Lemma do_add_comment_table_in_name_witness :
  do_add_comment sample_env (lit "column mytable.id 'Id for my objects'") sample_world
  = query_sent sample_env
      (lit "comment on table " ++ lit "mytable.id" ++ lit " is '"
         ++ comment_text [lit "'Id"; lit "for"; lit "my"; lit "objects'"] ++ lit "'")
      None (Some (lit "Comment added to table: " ++ lit "mytable.id")) None sample_world.
Proof.
  apply (do_add_comment_table_in_name sample_env (lit "column mytable.id 'Id for my objects'")
           (lit "mytable.id") [lit "'Id"; lit "for"; lit "my"; lit "objects'"]
           (lit "my") (lit ".id")).
  - vm_compute. reflexivity.
  - discriminate.
  - vm_compute. reflexivity.
Defined.

Lemma join_prepend sep (x w : str) (r : list str) :
  join sep ((x ++ w) :: r) = x ++ join sep (w :: r).
Proof. destruct r; simpl; rewrite <- ?app_assoc; reflexivity. Qed.

Lemma is_word_app_r (w y : str) :
  is_word w -> Forall (fun c => isspace c = false) y -> is_word (w ++ y).
Proof.
  intros [Hne Hw] Hy. split.
  - destruct w; [contradiction | discriminate].
  - apply Forall_app. auto.
Qed.

Lemma is_word_app_l (x w : str) :
  Forall (fun c => isspace c = false) x -> is_word w -> is_word (x ++ w).
Proof.
  intros Hx [Hne Hw]. split.
  - destruct x; [exact Hne | discriminate].
  - apply Forall_app. auto.
Qed.

Lemma join_append sep (y : str) (ws : list str) :
  ws <> [] -> Forall is_word ws -> Forall (fun c => isspace c = false) y ->
  exists ws', ws' <> [] /\ Forall is_word ws' /\ join sep ws' = join sep ws ++ y.
Proof.
  intros Hne Hws Hy. induction ws as [|w [|w2 r] IH]; [contradiction| |].
  - exists [w ++ y]. split; [discriminate|]. split; [|reflexivity].
    constructor; [|constructor]. apply is_word_app_r; [|exact Hy].
    by apply Forall_cons in Hws as [Hw _].
  - apply Forall_cons in Hws as [Hw Hrest].
    destruct (IH ltac:(discriminate) Hrest) as (ws' & Hne' & Hws' & Hjoin).
    exists (w :: ws'). split; [discriminate|]. split; [constructor; assumption|].
    destruct ws' as [|w' r']; [contradiction|].
    change (join sep (w :: w' :: r')) with (w ++ sep ++ join sep (w' :: r')).
    rewrite Hjoin. change (join sep (w :: w2 :: r)) with (w ++ sep ++ join sep (w2 :: r)).
    rewrite <- !app_assoc. reflexivity.
Qed.

(** The words of a comment between quotes. *)
Lemma quoted_words (words : list str) :
  words <> [] -> Forall is_word words ->
  exists ws, ws <> [] /\ Forall is_word ws /\
             join (lit " ") ws = lit "'" ++ join (lit " ") words ++ lit "'".
Proof.
  intros Hne Hws. rewrite quote_char.
  destruct (join_append (lit " ") [39%N] words Hne Hws) as (ws & Hne' & Hws' & Hjoin).
  { repeat constructor. }
  destruct ws as [|w r]; [contradiction|].
  exists (([39%N] ++ w) :: r). split; [discriminate|]. split.
  - apply Forall_cons in Hws' as [Hw Hr]. constructor; [|exact Hr].
    apply is_word_app_l; [repeat constructor | exact Hw].
  - rewrite join_prepend, Hjoin. reflexivity.
Qed.

Lemma comment_text_quoted (ws : list str) (text : str) :
  join (lit " ") ws = lit "'" ++ text ++ lit "'" -> comment_text ws = text.
Proof.
  intros Hjoin. unfold comment_text. cbv zeta. rewrite Hjoin, startswith_app.
  rewrite slice_strip_ends, quote_char. unfold strip_ends. simpl tail.
  apply removelast_last.
Qed.

(** X21: a comment between quotes reaches the database as it was typed.
    For a table name and a comment made of words with one space between
    them, the line [table NAME 'COMMENT'] sends the statement
    [comment on table NAME is 'COMMENT'], and the command ends as
    [query_and_print] does. *)
Theorem do_add_comment_table_quoted E table words w :
  is_word table -> words <> [] -> Forall is_word words ->
  let text := join (lit " ") words in
  do_add_comment E (lit "table " ++ table ++ lit " '" ++ text ++ lit "'") w
  = query_sent E (lit "comment on table " ++ table ++ lit " is '" ++ text ++ lit "'")
      None (Some (lit "Comment added to table: " ++ table)) None w.
Proof.
  intros Htable Hne Hwords text.
  destruct (quoted_words words Hne Hwords) as (ws & Hne' & Hws & Hjoin). fold text in Hjoin.
  destruct ws as [|c rest]; [contradiction|].
  assert (Hword : is_word (lit "table")).
  { assert (lit "table" = [116; 97; 98; 108; 101]%N) as -> by (vm_compute; reflexivity).
    split; [discriminate | repeat constructor]. }
  assert (Hline : lit "table " ++ table ++ lit " '" ++ text ++ lit "'"
                  = join (lit " ") (lit "table" :: table :: c :: rest)).
  { change (join (lit " ") (lit "table" :: table :: c :: rest))
      with (lit "table" ++ lit " " ++ table ++ lit " " ++ join (lit " ") (c :: rest)).
    rewrite Hjoin.
    assert (lit "table " = lit "table" ++ lit " ") as -> by (vm_compute; reflexivity).
    assert (lit " '" = lit " " ++ lit "'") as -> by (vm_compute; reflexivity).
    rewrite <- !app_assoc. reflexivity. }
  assert (Hkeys : split_ws (lit "table " ++ table ++ lit " '" ++ text ++ lit "'")
                  = lit "table" :: table :: c :: rest).
  { rewrite Hline. apply split_ws_join. repeat (constructor; [assumption|]).
    exact Hws. }
  rewrite (do_add_comment_long E _ _ _ _ _ w Hkeys). cbv zeta.
  change (concat (lit "table" :: table :: c :: rest))
    with ([] ++ lit "table" ++ concat (table :: c :: rest)).
  rewrite find_sub_occurs, (comment_text_quoted (c :: rest) text Hjoin). reflexivity.
Qed.

Lemma do_add_comment_table_quoted_witness :
  do_add_comment sample_env
    (lit "table " ++ lit "MY_TABLE" ++ lit " '"
       ++ join (lit " ") [lit "This"; lit "table"; lit "contains"; lit "info"] ++ lit "'")
    sample_world
  = query_sent sample_env
      (lit "comment on table " ++ lit "MY_TABLE" ++ lit " is '"
         ++ join (lit " ") [lit "This"; lit "table"; lit "contains"; lit "info"] ++ lit "'")
      None (Some (lit "Comment added to table: " ++ lit "MY_TABLE")) None sample_world.
Proof.
  apply (do_add_comment_table_quoted sample_env (lit "MY_TABLE")
           [lit "This"; lit "table"; lit "contains"; lit "info"] sample_world).
  - split; [by vm_compute | vm_compute; repeat constructor].
  - discriminate.
  - vm_compute. repeat constructor; discriminate.
Defined.

(** ** [do_describe_table] *)

Lemma describe_words_second E arg extra t word rest :
  split_ws arg = t :: word :: rest ->
  exists pattern, describe_words E arg extra = (Some word, pattern).
Proof.
  intros Hs. unfold describe_words. rewrite Hs.
  change (getitem (t :: word :: rest) 1) with (Ok word). cbv iota zeta.
  destruct (str_eqb _ _); [|eauto].
  destruct (getitem (t :: word :: rest) 2); eauto.
Qed.

(** X22: the second word of the line replaces the description.  When the
    line of [describe_table] has more than one word, as in
    [describe_table TABLE with PATTERN], the text handed to
    [query_and_print] to be shown with the result is the second word as it
    was typed: neither the description of the table (its comment and its
    number of rows) nor the argument [extra] of the caller is used. *)
Theorem do_describe_table_second_word E Sh arg clear extra return_df w t word rest :
  split_ws (remove_char 59%N arg) = t :: word :: rest ->
  let r := do_describe_table E Sh arg clear extra return_df w in
  r = (Return None, with_events w [EvPrintColored (lit "Table not found.") (lit "red")]) \/
  exists q, r.2 = with_events w [EvQueryAndPrint q (Some word) None (Some err_msg)].
Proof.
  intros Hs r. subst r. unfold do_describe_table.
  assert (str_eqb arg [] = false) as ->.
  { apply bool_decide_eq_false. intros ->. discriminate Hs. }
  cbv zeta. rewrite split_ws_normalized, Hs.
  change (getitem (t :: word :: rest) 0) with (Ok t). rewrite bind_lift_ok.
  destruct (describe_words_second E (join (lit " ") (t :: word :: rest)) extra t word rest)
    as (pattern & ->).
  { rewrite <- Hs. apply split_ws_normalized. }
  destruct (rtry _ _) as [[[[schema table] link] comment_table]|e].
  2:{ left. reflexivity. }
  right. unfold mbind, M_bind, get_self. cbv beta iota.
  destruct pattern as [[|c p]|]; cbv beta iota zeta;
    (eexists; unfold emit, lift, mret, M_ret, raise; cbv beta iota;
     destruct (query_and_print E _) as [[]|]; [destruct return_df|]; reflexivity).
Qed.

Lemma do_describe_table_second_word_witness :
  do_describe_table sample_env catalog_shell (lit "Y1A1_COADD_OBJECTS with MAG%;") true None
    false sample_world
  = (Return None,
     with_events sample_world [EvPrintColored (lit "Table not found.") (lit "red")]) \/
  exists q,
    (do_describe_table sample_env catalog_shell (lit "Y1A1_COADD_OBJECTS with MAG%;") true None
       false sample_world).2
    = with_events sample_world [EvQueryAndPrint q (Some (lit "with")) None (Some err_msg)].
Proof.
  apply (do_describe_table_second_word sample_env catalog_shell
           (lit "Y1A1_COADD_OBJECTS with MAG%;") true None false sample_world
           (lit "Y1A1_COADD_OBJECTS") (lit "with") [lit "MAG%"]).
  vm_compute. reflexivity.
Defined.

(** ** [do_load_table] and [do_append_table], from their first line *)

Section FrontEnds.
Context (E : Env) (Sh : Shell) (fuel : nat) (line : str) (chunksize memsize : option Z)
        (w : world) (args : load_args).
Hypothesis Hparse : parse_args Sh (split_ws (remove_char 59%N line)) = Ok (Some args).
Hypothesis Hhelp : a_help args = false.

Lemma do_load_table_line_checks name :
  do_load_table_line E Sh fuel line name chunksize memsize w
  = match get_filename Sh (a_filename args) with
    | Raise e => (Raised e, w)
    | Ok filename =>
        (go_on ← check_names
                   (print [];;
                    print_colored (lit "Invalid table name, change filename or use --tablename"
                                     ++ nl) (lit "red"))
                   filename [a_tablename args; name];
         if go_on : bool then
           chunk ← lift (resolve_chunk Sh filename args chunksize memsize);
           do_load_table E fuel filename (a_tablename args) name chunk
         else mret tt) w
    end.
Proof.
  unfold do_load_table_line. cbv zeta. rewrite Hparse, bind_lift_ok, Hhelp.
  destruct (get_filename Sh (a_filename args)); reflexivity.
Qed.

Lemma do_append_table_line_checks name :
  do_append_table_line E Sh fuel line name chunksize memsize w
  = match get_filename Sh (a_filename args) with
    | Raise e => (Raised e, w)
    | Ok filename =>
        (go_on ← check_names
                   (print_colored (nl ++ lit "Invalid table name, change filename or use --tablename"
                                     ++ nl) (lit "red"))
                   filename [a_tablename args; name];
         if go_on : bool then
           chunk ← lift (resolve_chunk Sh filename args chunksize memsize);
           do_append_table E fuel filename (a_tablename args) name chunk
         else mret tt) w
    end.
Proof.
  unfold do_append_table_line. cbv zeta. rewrite Hparse, bind_lift_ok, Hhelp.
  destruct (get_filename Sh (a_filename args)); reflexivity.
Qed.

End FrontEnds.

Lemma bind_lift_raise {A B} (e : exn) (k : A -> M B) (w : world) :
  (lift (Raise e) ≫= k) w = (Raised e, w).
Proof. reflexivity. Qed.

(** The check of the names for a command of the command line. *)
Lemma check_names_command_line (report : M unit) (filename table : option str) (w : world) :
  check_names report filename [table; None] w
  = let file_check :=
      match filename with
      | None => (Raised TypeError, w)
      | Some f => if any_invalid f then (report;; mret false) w else (Return true, w)
      end in
    match table with
    | Some t =>
        if any_invalid t
        then (print_colored (nl ++ lit "Invalid table name" ++ nl) (lit "red");; mret false) w
        else file_check
    | None => file_check
    end.
Proof.
  cbv zeta. destruct table as [t|]; cbn [check_names].
  - destruct (any_invalid t); [reflexivity|].
    destruct filename as [f|]; [|apply bind_lift_raise].
    rewrite bind_lift_ok. destruct (any_invalid f); reflexivity.
  - destruct filename as [f|]; [|apply bind_lift_raise].
    rewrite bind_lift_ok. destruct (any_invalid f) eqn:Hf; [reflexivity|].
    rewrite bind_lift_ok, Hf. reflexivity.
Qed.

Lemma bind_run {A B} (m : M A) (k : A -> M B) (w : world) :
  (m ≫= k) w = match m w with
               | (Return a, w') => k a w'
               | (Raised e, w') => (Raised e, w')
               | (Exited c, w') => (Exited c, w')
               | (OutOfFuel, w') => (OutOfFuel, w')
               end.
Proof. reflexivity. Qed.

(** X23: a file name with one of the characters [- $ ~ @ *] is refused,
    with or without [--tablename].  When the load commands are called
    from the command line (no [name] argument) on a file whose path holds
    one of these characters, they print a message and return before they
    look at the table or read the file: the message about the table name
    when [--tablename] itself holds such a character, and otherwise the
    message that asks to change the file name or to use [--tablename],
    also when [--tablename] was used. *)
Theorem load_commands_refuse_file_name E Sh fuel line chunksize memsize w args f :
  parse_args Sh (split_ws (remove_char 59%N line)) = Ok (Some args) ->
  a_help args = false ->
  get_filename Sh (a_filename args) = Ok (Some f) ->
  any_invalid f = true ->
  let bad_table := match a_tablename args with
                   | Some t => any_invalid t
                   | None => false
                   end in
  do_load_table_line E Sh fuel line None chunksize memsize w
  = (Return tt,
     with_events w
       (if bad_table
        then [EvPrintColored (nl ++ lit "Invalid table name" ++ nl) (lit "red")]
        else [EvPrint [];
              EvPrintColored (lit "Invalid table name, change filename or use --tablename"
                                ++ nl) (lit "red")])) /\
  do_append_table_line E Sh fuel line None chunksize memsize w
  = (Return tt,
     with_events w
       (if bad_table
        then [EvPrintColored (nl ++ lit "Invalid table name" ++ nl) (lit "red")]
        else [EvPrintColored (nl ++ lit "Invalid table name, change filename or use --tablename"
                                ++ nl) (lit "red")])).
Proof.
  intros Hparse Hhelp Hfile Hbad bad_table. subst bad_table.
  rewrite (do_load_table_line_checks E Sh fuel line chunksize memsize w args Hparse Hhelp).
  rewrite (do_append_table_line_checks E Sh fuel line chunksize memsize w args Hparse Hhelp).
  rewrite Hfile, !bind_run, !check_names_command_line. cbv zeta. rewrite Hbad.
  unfold with_events.
  destruct (a_tablename args) as [t|]; [destruct (any_invalid t)|];
    (split; [run; rewrite <- ?app_assoc; reflexivity | reflexivity]).
Qed.

Lemma load_commands_refuse_file_name_witness :
  do_load_table_line sample_env sample_shell 1 (lit "y1a1-gold.csv --tablename GOLD") None
    None None sample_world
  = (Return tt,
     with_events sample_world
       [EvPrint [];
        EvPrintColored (lit "Invalid table name, change filename or use --tablename" ++ nl)
                       (lit "red")]) /\
  do_append_table_line sample_env sample_shell 1 (lit "y1a1-gold.csv --tablename GOLD") None
    None None sample_world
  = (Return tt,
     with_events sample_world
       [EvPrintColored (nl ++ lit "Invalid table name, change filename or use --tablename"
                          ++ nl) (lit "red")]).
Proof.
  apply (load_commands_refuse_file_name sample_env sample_shell 1
           (lit "y1a1-gold.csv --tablename GOLD") None None sample_world
           {| a_filename := lit "y1a1-gold.csv"; a_tablename := Some (lit "GOLD");
              a_chunksize := None; a_memsize := None; a_help := false |}
           (lit "y1a1-gold.csv")).
  - vm_compute. reflexivity.
  - reflexivity.
  - reflexivity.
  - vm_compute. reflexivity.
Defined.

(** X24: a file that [get_filename] does not find makes the load commands
    raise.  When [eafile.get_filename] returns [None] and the commands
    are called from the command line, the check of the names fails with
    [TypeError] on the missing file name, unless [--tablename] holds a
    character that is refused; the test [filename is None] further down
    is not reached, and nothing is printed. *)
Theorem load_commands_missing_file E Sh fuel line chunksize memsize w args :
  parse_args Sh (split_ws (remove_char 59%N line)) = Ok (Some args) ->
  a_help args = false ->
  get_filename Sh (a_filename args) = Ok None ->
  match a_tablename args with
  | Some t => any_invalid t = false
  | None => True
  end ->
  do_load_table_line E Sh fuel line None chunksize memsize w = (Raised TypeError, w) /\
  do_append_table_line E Sh fuel line None chunksize memsize w = (Raised TypeError, w).
Proof.
  intros Hparse Hhelp Hfile Htable.
  rewrite (do_load_table_line_checks E Sh fuel line chunksize memsize w args Hparse Hhelp).
  rewrite (do_append_table_line_checks E Sh fuel line chunksize memsize w args Hparse Hhelp).
  rewrite Hfile, !bind_run, !check_names_command_line. cbv zeta.
  destruct (a_tablename args) as [t|]; [rewrite Htable|]; split; reflexivity.
Qed.

Lemma load_commands_missing_file_witness :
  do_load_table_line sample_env missing_file_shell 1 (lit "y1a1_gold.csv") None None None
    sample_world = (Raised TypeError, sample_world) /\
  do_append_table_line sample_env missing_file_shell 1 (lit "y1a1_gold.csv") None None None
    sample_world = (Raised TypeError, sample_world).
Proof.
  apply (load_commands_missing_file sample_env missing_file_shell 1 (lit "y1a1_gold.csv")
           None None sample_world
           {| a_filename := lit "y1a1_gold.csv"; a_tablename := None;
              a_chunksize := None; a_memsize := None; a_help := false |}).
  - vm_compute. reflexivity.
  - reflexivity.
  - reflexivity.
  - exact I.
Defined.

(** ** The loops pass over the chunks of the file *)





Section Passes.
Context (E : Env) (tbl : str).






End Passes.



(** ** Failures that the commands report *)

Section AppendPasses.
Context (E : Env) (tbl : str).





End AppendPasses.

(** *** A pass whose helper fails *)

Section PassFails.
Context (E : Env) (tbl : str).











End PassFails.

(** *** The commands around their passes *)









(** *** The commands that never end the process *)










(** *** [do_change_db] ends the process exactly when it cannot connect *)



(** Every run of [do_change_db] adds to the trace. *)
Lemma do_change_db_trace E line w :
  exists evs, trace (do_change_db E line w).2 = trace w ++ evs.
Proof.
  destruct (head (split_ws line)) as [key|] eqn:Hk.
  2:{ unfold do_change_db. destruct (str_eqb line []).
      - eexists. reflexivity.
      - rewrite split_ws_normalized.
        destruct (split_ws line); [|discriminate Hk]. exists []. simpl.
        rewrite app_nil_r. reflexivity. }
  destruct (decide (key ∈ database_names)) as [Hknown|Hknown].
  2:{ rewrite (do_change_db_unknown E line key w Hk Hknown). eexists. reflexivity. }
  destruct (decide (key = dbname (self w))) as [Heq|Hne].
  { rewrite (do_change_db_same E line key w Hk Hknown Heq). eexists. reflexivity. }
  rewrite (do_change_db_known E line key w Hk Hknown Hne). cbv zeta.
  destruct (change_db_lookup_cases (with_self w (set_dbname key (self w))))
    as (o & s2 & -> & _ & _ & [-> | [e ->]]); [|eexists; reflexivity].
  simpl self. set (s3 := set_dsn _ s2).
  destruct (con_close E (con s3)) as [[]|e]; [|eexists; reflexivity].
  rewrite change_db_connect_once. cbv zeta.
  destruct (cx_connect E _ _ _) as [[]|e]; simpl; rewrite <- !app_assoc;
    eexists; reflexivity.
Qed.


(** *** [do_set_password]: the [try] block fails *)


(** *** [do_describe_table]: neither a table nor a view *)


(** *** A line that the parser refuses *)





